(** * The MNIST pointer-network notebook (Problems 10 - Attention)

    A shallow embedding of the notebook's three pieces of logic:
    - [AttentionModel] (additive attention scorer on batched tensors),
    - [MNISTAttentionDataset] (the synthetic "find the successor" dataset),
    - [evaluate] (the accuracy loop).

    Tensors carry their shape next to their data, as in the tensor library,
    so that a dimension of size 0 keeps the sizes of the dimensions under it.
    Scalars are abstract (a type class): the development does not depend on
    how floating point numbers round. *)

From stdpp Require Import base numbers list option gmap.
From Stdlib Require Import ZArith QArith Qabs Qcanon Lia.

#[local] Close Scope Q_scope.
#[local] Close Scope Qc_scope.

Set Default Proof Using "Type*".

(** ** Exceptions and results *)

(** The exceptions the interpreter and the libraries raise in the modelled
    code, followed by the three error kinds of the specification's taxonomy.
    The notebook defines none of the last three and nothing in the model
    raises them. *)
Inductive exn : Type :=
| IndexError
| KeyError
| ValueError
| RuntimeError
| AxisError
| ZeroDivisionError
| ConfigurationError
| DataUnavailableError
| ShapeMismatchError.

#[global] Instance exn_eq_dec : EqDecision exn.
Proof. solve_decision. Defined.

Inductive result (A : Type) : Type :=
| Ok (a : A)
| Raise (e : exn).
Arguments Ok {A} a.
Arguments Raise {A} e.

#[global] Instance result_ret : MRet result := fun _ a => Ok a.
#[global] Instance result_bind : MBind result := fun _ _ f m =>
  match m with
  | Ok a => f a
  | Raise e => Raise e
  end.
#[global] Instance result_fmap : FMap result := fun _ _ f m =>
  match m with
  | Ok a => Ok (f a)
  | Raise e => Raise e
  end.

(** ** Scalars *)

Class Scalar (R : Type) : Type := {
  s_zero : R;
  s_add : R -> R -> R;
  s_mul : R -> R -> R;
  s_tanh : R -> R;
  (** strict comparison, used by [argmax] *)
  s_ltb : R -> R -> bool;
  (** a [uint8] pixel value divided by [255.0] *)
  s_pixel : Z -> R
}.

Section Tensors.
Context {R : Type} `{Scalar R}.

(** ** Tensors of rank 1, 2 and 3 *)

Record Tensor1 : Type := mkT1 { len1 : nat; data1 : list R }.
Record Tensor2 : Type := mkT2 { rows2 : nat; cols2 : nat; data2 : list (list R) }.
Record Tensor3 : Type := mkT3 {
  dim0 : nat; dim1 : nat; dim2 : nat;
  data3 : list (list (list R))
}.

(** The data agrees with the declared shape. *)
Definition wf_rows (n k : nat) (m : list (list R)) : Prop :=
  length m = n /\ Forall (fun v => length v = k) m.
Definition wf2 (t : Tensor2) : Prop := wf_rows (rows2 t) (cols2 t) (data2 t).
Definition wf3 (t : Tensor3) : Prop :=
  length (data3 t) = dim0 t /\ Forall (wf_rows (dim1 t) (dim2 t)) (data3 t).

(** What [squeeze()] can return for a rank 3 argument. *)
Inductive AnyTensor : Type :=
| Rank0 (x : R)
| Rank1 (t : Tensor1)
| Rank2 (t : Tensor2)
| Rank3 (t : Tensor3).

Definition shape (t : AnyTensor) : list nat :=
  match t with
  | Rank0 _ => []
  | Rank1 t => [len1 t]
  | Rank2 t => [rows2 t; cols2 t]
  | Rank3 t => [dim0 t; dim1 t; dim2 t]
  end.

(** The elements in row-major order. *)
Definition elements (t : AnyTensor) : list R :=
  match t with
  | Rank0 x => [x]
  | Rank1 t => data1 t
  | Rank2 t => concat (data2 t)
  | Rank3 t => concat (concat (data3 t))
  end.

Definition numel (t : AnyTensor) : nat := length (elements t).

(** ** Tensor operations *)

(** [t.unsqueeze(1)] on a rank 2 tensor: (B x D) -> (B x 1 x D). *)
Definition unsqueeze1 (t : Tensor2) : Tensor3 :=
  mkT3 (rows2 t) 1 (cols2 t) (fmap (fun v => [v]) (data2 t)).

(** [t.repeat(1, n, 1)] on a rank 3 tensor: the tensor is tiled [n] times
    along dimension 1.  A negative count is refused. *)
Definition repeat1 (n : Z) (t : Tensor3) : result Tensor3 :=
  if (n <? 0)%Z then Raise RuntimeError
  else Ok (mkT3 (dim0 t) (dim1 t * Z.to_nat n) (dim2 t)
             (fmap (fun m => concat (replicate (Z.to_nat n) m)) (data3 t))).

(** [torch.tanh], element by element. *)
Definition tanh3 (t : Tensor3) : Tensor3 :=
  mkT3 (dim0 t) (dim1 t) (dim2 t) (fmap (fmap (M:=list) (fmap (M:=list) s_tanh)) (data3 t)).

(** Broadcasting of one dimension: equal sizes, or one of them is 1. *)
Definition broadcast_dim (a b : nat) : option nat :=
  if a =? b then Some a
  else if a =? 1 then Some b
  else if b =? 1 then Some a
  else None.

(** The view of a dimension of size [d] at size [n]: itself when [d = n], and
    otherwise ([d = 1]) its single entry [n] times. *)
Definition expand {A : Type} (d n : nat) (l : list A) : list A :=
  if d =? n then l
  else match l with
       | x :: _ => replicate n x
       | [] => []
       end.

(** [a + b] with broadcasting. *)
Definition add3 (a b : Tensor3) : result Tensor3 :=
  match broadcast_dim (dim0 a) (dim0 b),
        broadcast_dim (dim1 a) (dim1 b),
        broadcast_dim (dim2 a) (dim2 b) with
  | Some n0, Some n1, Some n2 =>
      let view (t : Tensor3) :=
        expand (dim0 t) n0
          (fmap (fun m => expand (dim1 t) n1 (expand (dim2 t) n2 <$> m))
               (data3 t)) in
      Ok (mkT3 n0 n1 n2
            (zip_with (zip_with (zip_with s_add)) (view a) (view b)))
  | _, _, _ => Raise RuntimeError
  end.

(** The first element, for a tensor that has exactly one. *)
Definition item (l : list R) : R :=
  match l with
  | x :: _ => x
  | [] => s_zero
  end.

(** [t.squeeze()]: every dimension of size 1 is removed. *)
Definition squeeze (t : Tensor3) : AnyTensor :=
  let d := data3 t in
  match dim0 t =? 1, dim1 t =? 1, dim2 t =? 1 with
  | false, false, false => Rank3 t
  | true, false, false => Rank2 (mkT2 (dim1 t) (dim2 t) (concat d))
  | false, true, false => Rank2 (mkT2 (dim0 t) (dim2 t) (fmap (@concat R) d))
  | false, false, true => Rank2 (mkT2 (dim0 t) (dim1 t) (fmap (@concat R) d))
  | true, true, false => Rank1 (mkT1 (dim2 t) (concat (concat d)))
  | true, false, true => Rank1 (mkT1 (dim1 t) (concat (concat d)))
  | false, true, true => Rank1 (mkT1 (dim0 t) (concat (concat d)))
  | true, true, true => Rank0 (item (concat (concat d)))
  end.

(** ** [nn.Linear] *)

(** [weight] is [out_features x in_features], [bias] has [out_features]
    entries. *)
Record Linear : Type := mkLinear {
  in_features : nat;
  out_features : nat;
  weight : list (list R);
  bias : list R
}.

Definition wf_linear (l : Linear) : Prop :=
  wf_rows (out_features l) (in_features l) (weight l) /\
  length (bias l) = out_features l.

Definition dot (x w : list R) : R :=
  foldl s_add s_zero (zip_with s_mul x w).

(** One input vector through the layer: [x W^T + b]. *)
Definition linear_vec (l : Linear) (x : list R) : list R :=
  zip_with (fun w b => s_add (dot x w) b) (weight l) (bias l).

(** The layer on a rank 3 tensor: it acts on the last dimension, which has to
    be [in_features]. *)
Definition linear3 (l : Linear) (t : Tensor3) : result Tensor3 :=
  if dim2 t =? in_features l
  then Ok (mkT3 (dim0 t) (dim1 t) (out_features l)
             (fmap (fmap (M:=list) (linear_vec l)) (data3 t)))
  else Raise RuntimeError.

(** ** [AttentionModel] *)

Record AttentionModel : Type := mkAttentionModel {
  hidden_dim : nat;
  num_inputs : Z;
  input_dim : nat;
  fc_q : Linear;
  fc_k : Linear;
  fc_v : Linear
}.

(** [AttentionModel.__init__]; the initial weights of the three layers, which
    the library draws at random, are arguments. *)
Definition AttentionModel_init (input_dim : nat) (num_inputs : Z) (hidden_dim : nat)
    (Wq : list (list R)) (bq : list R)
    (Wk : list (list R)) (bk : list R)
    (Wv : list (list R)) (bv : list R) : AttentionModel :=
  mkAttentionModel hidden_dim num_inputs input_dim
    (mkLinear input_dim hidden_dim Wq bq)
    (mkLinear input_dim hidden_dim Wk bk)
    (mkLinear hidden_dim 1 Wv bv).

(** The layers have the shapes [__init__] gives them. *)
Definition wf_model (self : AttentionModel) : Prop :=
  in_features (fc_q self) = input_dim self /\
  out_features (fc_q self) = hidden_dim self /\
  in_features (fc_k self) = input_dim self /\
  out_features (fc_k self) = hidden_dim self /\
  in_features (fc_v self) = hidden_dim self /\
  out_features (fc_v self) = 1.

Definition scoringAdditive (self : AttentionModel) (query keys : Tensor3)
    : result Tensor3 :=
  query ← repeat1 (num_inputs self) query;
  query ← linear3 (fc_q self) query;
  let query := tanh3 query in
  keys ← linear3 (fc_k self) keys;
  let keys := tanh3 keys in
  score ← add3 query keys;
  let score := tanh3 score in
  linear3 (fc_v self) score.

Definition forward (self : AttentionModel) (x : Tensor3) (query : Tensor2)
    : result AnyTensor :=
  let query := unsqueeze1 query in
  output ← scoringAdditive self query x;
  mret (squeeze output).

(** ** The scorer in the words of the specification *)

(** The score of one candidate [k] for the query [q]: both are projected and
    passed through tanh, the two are summed and passed through tanh again,
    and the value layer maps the result to the score.  The value layer has
    one output, so the list has one entry. *)
Definition additive_score (self : AttentionModel) (q k : list R) : list R :=
  linear_vec (fc_v self)
    (s_tanh <$> zip_with s_add
                  (s_tanh <$> linear_vec (fc_q self) q)
                  (s_tanh <$> linear_vec (fc_k self) k)).

(** The scores of a sequence of candidates, in their order. *)
Definition additive_scores (self : AttentionModel) (q : list R)
    (ks : list (list R)) : list (list R) :=
  additive_score self q <$> ks.

(** The shape checks that the operations of [scoringAdditive] make, taken
    together, for a query of shape (Bq x D) that [forward] has unsqueezed and
    keys of shape (B x N x D'): the sizes of the batch and of the candidate
    dimension of the score tensor when all of them pass. *)
Definition score_shape (self : AttentionModel) (q : Tensor2) (keys : Tensor3)
    : option (nat * nat) :=
  if (num_inputs self <? 0)%Z then None
  else if negb (cols2 q =? input_dim self) then None
  else if negb (dim2 keys =? input_dim self) then None
  else match broadcast_dim (rows2 q) (dim0 keys),
             broadcast_dim (Z.to_nat (num_inputs self)) (dim1 keys) with
       | Some n0, Some n1 => Some (n0, n1)
       | _, _ => None
       end.

(** The score tensor in the words of the specification, on the broadcast
    batch and candidate dimensions. *)
Definition score_tensor (self : AttentionModel) (q : Tensor2) (keys : Tensor3)
    (n0 n1 : nat) : Tensor3 :=
  mkT3 n0 n1 1
    (zip_with (fun qv m => additive_scores self qv (expand (dim1 keys) n1 m))
       (expand (rows2 q) n0 (data2 q))
       (expand (dim0 keys) n0 (data3 keys))).




End Tensors.

Arguments Tensor1 : clear implicits.
Arguments Tensor2 : clear implicits.
Arguments Tensor3 : clear implicits.
Arguments AnyTensor : clear implicits.
Arguments Linear : clear implicits.
Arguments AttentionModel : clear implicits.

(** * Random choices *)

(** A computation that draws from the random number generator: it is done,
    with a value or an exception, or it draws one entry of a list and goes
    on with it.  The two library calls the notebook makes,
    [np.random.randint] and [np.random.choice], draw uniformly (the
    "discrete uniform" distribution of the library's documentation); they
    are the only places where [Draw] is used, each on a list that is not
    empty. *)
Inductive Rand (A : Type) : Type :=
| Done (r : result A)
| Draw (support : list Z) (k : Z -> Rand A).
Arguments Done {A} r.
Arguments Draw {A} support k.

Fixpoint rand_bind {A B : Type} (f : A -> Rand B) (m : Rand A) : Rand B :=
  match m with
  | Done (Ok a) => f a
  | Done (Raise e) => Done (Raise e)
  | Draw l k => Draw l (fun v => rand_bind f (k v))
  end.

#[global] Instance Rand_ret : MRet Rand := fun _ a => Done (Ok a).
#[global] Instance Rand_bind : MBind Rand := @rand_bind.

(** [np.random.randint(low, high)]: an integer of [low, high).  The call
    draws integers of the library's default type, which has 64 bits: it
    raises [ValueError] when the range is empty, when [low] is below
    -2^63 and when [high] is above 2^63. *)
Definition randint (low high : Z) : Rand Z :=
  if ((low <? high) && (- 2 ^ 63 <=? low) && (high <=? 2 ^ 63))%Z
  then Draw (seqZ low (high - low)) (fun v => Done (Ok v))
  else Done (Raise ValueError).

(** [np.random.choice(a)] for a list [a]: one of its entries, or
    [ValueError] when it is empty. *)
Definition choice (a : list Z) : Rand Z :=
  match a with
  | [] => Done (Raise ValueError)
  | _ :: _ => Draw a (fun v => Done (Ok v))
  end.

(** ** What a computation can return, and how likely *)

(** [outcome m r]: some sequence of draws makes [m] end with [r]. *)
Inductive outcome {A : Type} : Rand A -> result A -> Prop :=
| outcome_done (r : result A) : outcome (Done r) r
| outcome_draw (l : list Z) (k : Z -> Rand A) (v : Z) (r : result A) :
    v ∈ l -> outcome (k v) r -> outcome (Draw l k) r.

(** Every draw is from a list that is not empty. *)
Fixpoint proper {A : Type} (m : Rand A) : Prop :=
  match m with
  | Done _ => True
  | Draw l k => l <> [] /\ forall v, v ∈ l -> proper (k v)
  end.

Definition Qc_sum (l : list Qc) : Qc := foldr Qcplus 0%Qc l.

Definition Qc_of_nat (n : nat) : Qc := Qc_of_Z (Z.of_nat n).

(** The expectation of [g] over the results of [m], each draw being uniform
    over the positions of its list. *)
Fixpoint Ex {A : Type} (g : result A -> Qc) (m : Rand A) : Qc :=
  match m with
  | Done r => g r
  | Draw l k =>
      (Qc_sum ((fun v => Ex g (k v)) <$> l) / Qc_of_nat (length l))%Qc
  end.

(** The probability that the result of [m] satisfies [ev]. *)
Definition Pr {A : Type} (ev : result A -> bool) (m : Rand A) : Qc :=
  Ex (fun r => if ev r then 1%Qc else 0%Qc) m.

(** The event "a value is returned and it satisfies [P]". *)
Definition returns {A : Type} (P : A -> bool) (r : result A) : bool :=
  match r with
  | Ok a => P a
  | Raise _ => false
  end.

(** The event "the exception [e] is raised". *)
Definition raises {A : Type} (e : exn) (r : result A) : bool :=
  match r with
  | Ok _ => false
  | Raise e' => bool_decide (e' = e)
  end.

(** [erases phi m m']: [m'] is [m] with [phi] applied to the value it
    returns; the draws are the same. *)
Inductive erases {A B : Type} (phi : B -> A) : Rand B -> Rand A -> Prop :=
| erases_ok (b : B) : erases phi (Done (Ok b)) (Done (Ok (phi b)))
| erases_raise (e : exn) : erases phi (Done (Raise e)) (Done (Raise e))
| erases_draw (l : list Z) (k : Z -> Rand B) (k' : Z -> Rand A) :
    (forall v, erases phi (k v) (k' v)) ->
    erases phi (Draw l k) (Draw l k').

(** * [MNISTAttentionDataset] *)

(** The corpus that [torchvision.datasets.MNIST] loads: [data] is a
    (n x 28 x 28) tensor of [uint8] pixels, [targets] a tensor of n labels. *)
Record MNIST : Type := mkMNIST {
  mnist_data : list (list (list Z));
  mnist_targets : list Z
}.

(** [t[i]] for a tensor [t] and a Python integer [i]: negative indices count
    from the end. *)
Definition tensor_index {A : Type} (t : list A) (i : Z) : result A :=
  let n := Z.of_nat (length t) in
  let i' := if (i <? 0)%Z then (i + n)%Z else i in
  if ((0 <=? i') && (i' <? n))%Z
  then match t !! Z.to_nat i' with
       | Some a => Ok a
       | None => Raise IndexError
       end
  else Raise IndexError.

(** The rows of [t] that the mask selects. *)
Fixpoint masked_rows {A : Type} (t : list A) (mask : list bool) : list A :=
  match t, mask with
  | a :: t', b :: mask' =>
      if b then a :: masked_rows t' mask' else masked_rows t' mask'
  | _, _ => []
  end.

(** [t[mask]] for a boolean mask over the first dimension, which has to have
    the size of that dimension. *)
Definition tensor_mask {A : Type} (t : list A) (mask : list bool)
    : result (list A) :=
  if length t =? length mask then Ok (masked_rows t mask)
  else Raise IndexError.

Section Dataset.
Context {R : Type} `{Scalar R}.

(** [img / 255.0] for one image. *)
Definition normalise (img : list (list Z)) : list (list R) :=
  fmap (M:=list) s_pixel <$> img.

Record MNISTAttentionDataset : Type := mkDataset {
  ds_num_inputs : Z;
  ds_mnist : MNIST;
  (** dict with the samples of each class label *)
  ds_data : gmap Z (list (list (list R)))
}.

(** The body of the loop of [__init__], for the labels still to come. *)
Fixpoint collect (mnist : MNIST) (labels : list Z)
    (data : gmap Z (list (list (list R))))
    : result (gmap Z (list (list (list R)))) :=
  match labels with
  | [] => Ok data
  | label :: labels' =>
      pool ← tensor_mask (mnist_data mnist)
                ((fun t => bool_decide (t = label)) <$> mnist_targets mnist);
      collect mnist labels' (<[label := normalise <$> pool]> data)
  end.

(** [MNISTAttentionDataset.__init__]; the corpus, which the source loads
    with [torchvision.datasets.MNIST], is an argument. *)
Definition MNISTAttentionDataset_init (num_inputs : Z) (mnist : MNIST)
    : result MNISTAttentionDataset :=
  data ← collect mnist (seqZ 0 10) ∅;
  mret (mkDataset num_inputs mnist data).

(** [__len__] *)
Definition MNISTAttentionDataset_len (self : MNISTAttentionDataset) : nat :=
  length (mnist_data (ds_mnist self)).

Record Sample : Type := mkSample {
  sample_x : list (list R);
  sample_query : list R;
  sample_y : Z
}.

(** [self.data[label]] *)
Definition pool_of (self : MNISTAttentionDataset) (label : Z)
    : result (list (list (list R))) :=
  match ds_data self !! label with
  | Some pool => Ok pool
  | None => Raise KeyError
  end.

(** The classes a distractor is chosen from:
    [[n for n in [0,1,2,3,4,5,6,7,8,9] if n != (c+1)%10]]. *)
Definition distractor_classes (c : Z) : list Z :=
  filter (fun n => n <> ((c + 1) mod 10)%Z) [0; 1; 2; 3; 4; 5; 6; 7; 8; 9]%Z.

(** [np.zeros((n, k))], an array of 64-bit floating point numbers: a
    negative size is refused, and so is an array of 2^63 bytes or more. *)
Definition np_zeros (n : Z) (k : nat) : result (list (list R)) :=
  if ((n <? 0) || (2 ^ 63 <=? 8 * (n * Z.of_nat k)))%Z
  then Raise ValueError
  else Ok (replicate (Z.to_nat n) (replicate k s_zero)).

(** The values that an assignment to a row of 784 entries writes: the 784
    values given, or the one value given at every entry (broadcasting).  Any
    other number of values is refused. *)
Definition broadcast_row (values : list R) : result (list R) :=
  if length values =? 784 then Ok values
  else match values with
       | [v] => Ok (replicate 784 v)
       | _ => Raise ValueError
       end.

(** [inputs[j,:] = values] for an array [inputs] with rows of 784 entries:
    a negative [j] counts from the end, and a [j] that is no row of the
    array is refused before the values are looked at. *)
Definition set_row (inputs : list (list R)) (j : Z) (values : list R)
    : result (list (list R)) :=
  let n := Z.of_nat (length inputs) in
  let j' := if (j <? 0)%Z then (j + n)%Z else j in
  if ((0 <=? j') && (j' <? n))%Z
  then row ← broadcast_row values;
       Ok (<[Z.to_nat j' := row]> inputs)
  else Raise IndexError.

(** The body of the loop of [__getitem__] at position [j]: an image is
    drawn and its flattened pixels are stored in [inputs[j,:]].  The result
    is the array after the assignment. *)
Definition candidate (self : MNISTAttentionDataset) (c correct_pos j : Z)
    (inputs : list (list R)) : Rand (list (list R)) :=
  if bool_decide (j = correct_pos) then
    pool ← Done (pool_of self ((c + 1) mod 10)%Z);
    idx ← randint 0 (Z.of_nat (length pool));
    img ← Done (tensor_index pool idx);
    Done (set_row inputs j (concat img))
  else
    c_distractor ← choice (distractor_classes c);
    pool ← Done (pool_of self c_distractor);
    idx ← randint 0 (Z.of_nat (length pool));
    img ← Done (tensor_index pool idx);
    Done (set_row inputs j (concat img)).

(** The loop of [__getitem__] over the positions [js], on the array
    [inputs]. *)
Fixpoint candidates (self : MNISTAttentionDataset) (c correct_pos : Z)
    (js : list Z) (inputs : list (list R)) : Rand (list (list R)) :=
  match js with
  | [] => mret inputs
  | j :: js' =>
      inputs ← candidate self c correct_pos j inputs;
      candidates self c correct_pos js' inputs
  end.

(** [__getitem__] *)
Definition MNISTAttentionDataset_getitem (self : MNISTAttentionDataset)
    (idx : Z) : Rand Sample :=
  c ← Done (tensor_index (mnist_targets (ds_mnist self)) idx);
  img ← Done (tensor_index (mnist_data (ds_mnist self)) idx);
  let query := s_pixel <$> concat img in
  correct_pos ← randint 0 (ds_num_inputs self);
  inputs ← Done (np_zeros (ds_num_inputs self) 784);
  inputs ← candidates self c correct_pos (seqZ 0 (ds_num_inputs self)) inputs;
  mret (mkSample inputs query correct_pos).

(** ** The same loop with the class of every row written down

    The source keeps the rows only.  To state from which class a row was
    drawn, the loop is run a second time with a ghost component: the class
    whose pool the image comes from. *)

(** An image drawn from the pool of the class [cls] and stored at row [j],
    with the class: what both branches of the loop body do once the class
    is known. *)
Definition draw_row (self : MNISTAttentionDataset) (j : Z)
    (inputs : list (list R)) (cls : Z) : Rand (Z * list (list R)) :=
  pool ← Done (pool_of self cls);
  idx ← randint 0 (Z.of_nat (length pool));
  img ← Done (tensor_index pool idx);
  inputs ← Done (set_row inputs j (concat img));
  mret (cls, inputs).

Definition candidate_traced (self : MNISTAttentionDataset) (c correct_pos j : Z)
    (inputs : list (list R)) : Rand (Z * list (list R)) :=
  if bool_decide (j = correct_pos) then
    draw_row self j inputs ((c + 1) mod 10)%Z
  else
    c_distractor ← choice (distractor_classes c);
    draw_row self j inputs c_distractor.

(** The classes of the positions [js], in their order, and the array. *)
Fixpoint candidates_traced (self : MNISTAttentionDataset) (c correct_pos : Z)
    (js : list Z) (inputs : list (list R)) : Rand (list Z * list (list R)) :=
  match js with
  | [] => mret ([], inputs)
  | j :: js' =>
      ci ← candidate_traced self c correct_pos j inputs;
      rest ← candidates_traced self c correct_pos js' ci.2;
      mret (ci.1 :: rest.1, rest.2)
  end.

(** The sample together with the classes of its rows. *)
Definition getitem_traced (self : MNISTAttentionDataset) (idx : Z)
    : Rand (Sample * list Z) :=
  c ← Done (tensor_index (mnist_targets (ds_mnist self)) idx);
  img ← Done (tensor_index (mnist_data (ds_mnist self)) idx);
  let query := s_pixel <$> concat img in
  correct_pos ← randint 0 (ds_num_inputs self);
  inputs ← Done (np_zeros (ds_num_inputs self) 784);
  rest ← candidates_traced self c correct_pos (seqZ 0 (ds_num_inputs self))
            inputs;
  mret (mkSample rest.2 query correct_pos, rest.1).

(** The pool of a class in the words of the specification: the images of
    the corpus that carry the label, normalised, in the order of the corpus. *)
Definition class_pool (mnist : MNIST) (label : Z) : list (list (list R)) :=
  normalise <$>
    masked_rows (mnist_data mnist)
      ((fun t => bool_decide (t = label)) <$> mnist_targets mnist).

(** Every class 0..9 has a pool that a draw can be made from and whose
    images fit a row: the pool is not empty, its size is within the range
    of [randint], and its images have 784 pixels. *)
Definition full_pools (self : MNISTAttentionDataset) : Prop :=
  forall label, (0 <= label < 10)%Z ->
    exists pool,
      ds_data self !! label = Some pool /\ pool <> [] /\
      (Z.of_nat (length pool) <= 2 ^ 63)%Z /\
      Forall (fun img => length (concat img) = 784) pool.

(** The flattened images of the pool of a class, empty when the class has
    no pool. *)
Definition pool_rows (self : MNISTAttentionDataset) (label : Z)
    : list (list R) :=
  @concat R <$> default [] (ds_data self !! label).

(** The array of zeros that [__getitem__] starts from. *)
Definition zeros_array (n : Z) : list (list R) :=
  replicate (Z.to_nat n) (replicate 784 s_zero).

(** What the loop can store in a row for an image of the class [label]:
    the flattened image, as the assignment to the row writes it. *)
Definition stored_rows (self : MNISTAttentionDataset) (label : Z)
    (row : list R) : Prop :=
  exists values,
    values ∈ pool_rows self label /\ broadcast_row values = Ok row.

(** The images of the corpus are 28 x 28, as those of MNIST are. *)
Definition images_28x28 (mnist : MNIST) : Prop :=
  Forall (fun img : list (list Z) =>
            length img = 28 /\ Forall (fun row => length row = 28) img)
         (mnist_data mnist).

End Dataset.

Arguments MNISTAttentionDataset : clear implicits.
Arguments Sample : clear implicits.

(** * [evaluate] *)

Section Evaluate.
Context {R : Type} `{Scalar R}.

(** One batch of the loader: the dict with the keys ['x'], ['query'] and
    ['y']. *)
Record Batch : Type := mkBatch {
  batch_x : Tensor3 R;
  batch_query : Tensor2 R;
  batch_y : list Z
}.

(** The two array operations of the loop, which belong to the array
    library: [np.argmax(a, axis=1)] and [np.sum(pred == target)]. *)
Context (np_argmax_axis1 : AnyTensor R -> result (list Z)).
Context (np_sum_eq : list Z -> list Z -> result Z).

(** The loop of [evaluate] over the batches still to come.  [len_loader] is
    [len(test_loader)], the number of batches of the loader.  The two
    counters are floating point numbers in the source; they hold integers
    and are rationals here. *)
Fixpoint evaluate_loop (model : AttentionModel R) (len_loader : nat)
    (batches : list Batch) (total ok : Qc) : result (Qc * Qc) :=
  match batches with
  | [] => Ok (total, ok)
  | sample_batched :: batches' =>
      let data := batch_x sample_batched in
      let query := batch_query sample_batched in
      let target := batch_y sample_batched in
      output ← forward model data query;
      pred ← np_argmax_axis1 output;
      n ← np_sum_eq pred target;
      let ok := (ok + Qc_of_Z n)%Qc in
      let total := (total + Qc_of_nat len_loader)%Qc in
      evaluate_loop model len_loader batches' total ok
  end.

(** [evaluate]; the result is the accuracy that is printed.  The calls
    [model.eval()], [.float()] and [.to(device)] change nothing that the
    model of this file holds. *)
Definition evaluate (model : AttentionModel R) (test_loader : list Batch)
    : result Qc :=
  '(total, ok) ← evaluate_loop model (length test_loader) test_loader 0%Qc 0%Qc;
  if decide (total = 0%Qc) then Raise ZeroDivisionError
  else Ok (ok / total)%Qc.

(** The number of correct predictions of one batch, and of each batch of a
    list. *)
Definition batch_correct (model : AttentionModel R) (b : Batch) : result Z :=
  output ← forward model (batch_x b) (batch_query b);
  pred ← np_argmax_axis1 output;
  np_sum_eq pred (batch_y b).

Fixpoint batches_correct (model : AttentionModel R) (batches : list Batch)
    : result (list Z) :=
  match batches with
  | [] => Ok []
  | b :: batches' =>
      n ← batch_correct model b;
      ns ← batches_correct model batches';
      Ok (n :: ns)
  end.

(** The sum of the counts of the batches. *)
Definition total_correct (ns : list Z) : Z := foldr Z.add 0%Z ns.

(** The number of samples of a batch, and of a loader. *)
Definition batch_size (b : Batch) : nat := length (batch_y b).

Definition num_samples (test_loader : list Batch) : nat :=
  sum_list (batch_size <$> test_loader).

End Evaluate.

Arguments Batch : clear implicits.

(** * [train] and the training cell *)

Section Train.
Context {R : Type} `{Scalar R}.

(** What the loop takes from the library: the state the optimizer keeps
    between steps ([optim.Adam] in the notebook), the loss
    [criterion(output, target)], and the update [loss.backward();
    optimizer.step()], which gives the three layers new weights and a new
    state to the optimizer.  The gradient buffers are zeroed at the start of
    every iteration and carry nothing over; they are not modelled. *)
Context {Optimizer : Type}.
Context (criterion : AnyTensor R -> list Z -> result R).
Context (optimizer_step :
  Optimizer -> AttentionModel R -> Batch R ->
  result (Optimizer * (Linear R * Linear R * Linear R))).

(** One line that [train] prints: the values passed to [format]. *)
Record LogLine : Type := mkLogLine {
  log_epoch : Z;
  (** [batch_idx * len(data)] *)
  log_seen : nat;
  (** [len(train_loader.dataset)] *)
  log_dataset : nat;
  (** [100. * batch_idx / len(train_loader)] *)
  log_percent : Qc;
  (** [loss.item()] *)
  log_loss : R
}.

(** What [train] changes in place: the model, the optimizer, and the lines
    printed so far. *)
Record TrainState : Type := mkTrainState {
  ts_model : AttentionModel R;
  ts_optimizer : Optimizer;
  ts_stdout : list LogLine
}.

(** The loop of [train] over the batches still to come, [batch_idx] being
    the index of the first of them.  An exception leaves the state as it is
    when it is raised. *)
Fixpoint train_loop (epoch log_interval : Z) (len_dataset len_loader : nat)
    (batch_idx : nat) (batches : list (Batch R)) (st : TrainState)
    (loss_values : list R) : TrainState * result (list R) :=
  match batches with
  | [] => (st, Ok loss_values)
  | sample_batched :: batches' =>
      let data := batch_x sample_batched in
      let query := batch_query sample_batched in
      let target := batch_y sample_batched in
      match forward (ts_model st) data query with
      | Raise e => (st, Raise e)
      | Ok output =>
          match criterion output target with
          | Raise e => (st, Raise e)
          | Ok loss =>
              match optimizer_step (ts_optimizer st) (ts_model st)
                      sample_batched with
              | Raise e => (st, Raise e)
              | Ok (optimizer, (q, k, v)) =>
                  let model :=
                    mkAttentionModel (hidden_dim (ts_model st))
                      (num_inputs (ts_model st)) (input_dim (ts_model st))
                      q k v in
                  let st := mkTrainState model optimizer (ts_stdout st) in
                  let loss_values := loss_values ++ [loss] in
                  if decide (log_interval = 0%Z)
                  then (st, Raise ZeroDivisionError)
                  else
                    let st :=
                      if decide ((Z.of_nat batch_idx mod log_interval)%Z = 0%Z)
                      then mkTrainState (ts_model st) (ts_optimizer st)
                             (ts_stdout st ++
                              [mkLogLine epoch (batch_idx * dim0 data)
                                 len_dataset
                                 (Qc_of_Z 100 * Qc_of_nat batch_idx
                                  / Qc_of_nat len_loader)%Qc
                                 loss])
                      else st in
                    train_loop epoch log_interval len_dataset len_loader
                      (S batch_idx) batches' st loss_values
              end
          end
      end
  end.

(** [train]: one pass over the batches that the loader yields.
    [len_dataset] is [len(train_loader.dataset)]. *)
Definition train (st : TrainState) (train_loader : list (Batch R))
    (len_dataset : nat) (epoch log_interval : Z)
    : TrainState * result (list R) :=
  train_loop epoch log_interval len_dataset (length train_loader) 0
    train_loader st [].

(** The loop of the training cell over the epochs still to come.
    [train_loader epoch] is the list of batches that the loader, which
    shuffles, yields in that epoch.  [log_interval] is left at its default,
    100. *)
Fixpoint training_loop (epochs : list Z) (train_loader : Z -> list (Batch R))
    (len_dataset : nat) (st : TrainState) (loss_history : list R)
    : TrainState * result (list R) :=
  match epochs with
  | [] => (st, Ok loss_history)
  | epoch :: epochs' =>
      match train st (train_loader epoch) len_dataset epoch 100 with
      | (st, Raise e) => (st, Raise e)
      | (st, Ok loss_values) =>
          training_loop epochs' train_loader len_dataset st
            (loss_history ++ loss_values)
      end
  end.

(** The training cell, for [epochs] epochs: [range(1, epochs + 1)]. *)
Definition training (epochs : Z) (train_loader : Z -> list (Batch R))
    (len_dataset : nat) (st : TrainState) : TrainState * result (list R) :=
  training_loop (seqZ 1 epochs) train_loader len_dataset st [].

End Train.

Arguments LogLine : clear implicits.
Arguments TrainState : clear implicits.

(** * The MLP notebook (P4 - MLP for Images)

    The model class of the notebook, whose [network] is left to be filled
    in, and the two functions on the parameters of a model. *)

From Stdlib Require String.
Import (notations) String.

Section MLP.
Context {R : Type} `{Scalar R}.
(** The scalar 1, which [nn.init.ones_] writes. *)
Context (one : R).

(** ** [FCModel] *)

(** The [rows] rows of width [n] of a flat list. *)
Definition rows_of (n rows : nat) (l : list R) : list (list R) :=
  (fun i => take n (drop (i * n) l)) <$> seq 0 rows.

(** How a tensor lies in memory, as far as [view] looks at it.  A tensor is
    contiguous (its elements lie in memory in their order), or it is not,
    as a transposed tensor is not; for a tensor that is not, the widths [n]
    for which the library's check of the strides lets [view(-1, n)] through
    are given with it. *)
Inductive Layout : Type :=
| Contiguous
| Strided (viewable : Z -> bool).

(** The check of the strides that [x.view(-1, n)] makes: every view of a
    contiguous tensor passes, and so does a view that leaves the shape as
    it is. *)
Definition strides_allow (layout : Layout) (x : AnyTensor R) (n : Z) : bool :=
  match layout with
  | Contiguous => true
  | Strided viewable =>
      bool_decide (shape x = [numel x / Z.to_nat n; Z.to_nat n]) || viewable n
  end.

(** [x.view(-1, n)]: the elements are kept in their order and cut into rows
    of width [n].  The library refuses a width that is not positive, one
    that does not divide the number of elements, and a view that the
    strides do not allow. *)
Definition view_rows (layout : Layout) (x : AnyTensor R) (n : Z)
    : result (Tensor2 R) :=
  if (0 <? n)%Z && (numel x mod Z.to_nat n =? 0) && strides_allow layout x n
  then Ok (mkT2 (numel x / Z.to_nat n) (Z.to_nat n)
             (rows_of (Z.to_nat n) (numel x / Z.to_nat n) (elements x)))
  else Raise RuntimeError.

(** A module of an [nn.Sequential] that works on matrices. *)
Definition Layer : Type := Tensor2 R -> result (Tensor2 R).

Record FCModel : Type := mkFCModel {
  input_size : Z;
  network : list Layer
}.

(** [FCModel.__init__]: the [nn.Sequential] is built without a module, and
    the two other sizes are not used. *)
Definition FCModel_init (input_size hidden_size output_size : Z) : FCModel :=
  mkFCModel input_size [].

(** [nn.Sequential.forward]: the modules in their order. *)
Fixpoint Sequential_forward (modules : list Layer) (input : Tensor2 R)
    : result (Tensor2 R) :=
  match modules with
  | [] => Ok input
  | module :: modules' =>
      input ← module input;
      Sequential_forward modules' input
  end.

(** [FCModel.forward], on a tensor [x] with the given layout. *)
Definition FCModel_forward (self : FCModel) (layout : Layout)
    (x : AnyTensor R) : result (Tensor2 R) :=
  x ← view_rows layout x (input_size self);
  Sequential_forward (network self) x.

(** ** Parameters *)

(** A parameter of a module: its tensor and its [requires_grad] flag. *)
Record Param : Type := mkParam {
  param_data : AnyTensor R;
  requires_grad : bool
}.

(** [t.fill_(v)] *)
Definition fill_ (v : R) (t : AnyTensor R) : AnyTensor R :=
  match t with
  | Rank0 _ => Rank0 v
  | Rank1 t => Rank1 (mkT1 (len1 t) ((fun _ => v) <$> data1 t))
  | Rank2 t =>
      Rank2 (mkT2 (rows2 t) (cols2 t)
               (fmap (M:=list) (fun _ => v) <$> data2 t))
  | Rank3 t =>
      Rank3 (mkT3 (dim0 t) (dim1 t) (dim2 t)
               (fmap (M:=list) (fmap (M:=list) (fun _ => v)) <$> data3 t))
  end.

(** [nn.init.ones_(w)] and [nn.init.zeros_(w)] *)
Definition ones_ (w : Param) : Param :=
  mkParam (fill_ one (param_data w)) (requires_grad w).
Definition zeros_ (w : Param) : Param :=
  mkParam (fill_ s_zero (param_data w)) (requires_grad w).

(** [sub in s] for two strings: [sub] is a prefix of [s] or of one of its
    suffixes. *)
Fixpoint str_contains (sub s : String.string) : bool :=
  String.prefix sub s ||
  match s with
  | String.EmptyString => false
  | String.String _ s' => str_contains sub s'
  end.

(** [initialize_parameters], on what [model.named_parameters()] yields; the
    result is the list after the call. *)
Definition initialize_parameters
    (named_parameters : list (String.string * Param))
    : list (String.string * Param) :=
  (fun '(name, w) =>
     let w := if str_contains "weight"%string name then ones_ w else w in
     let w := if str_contains "bias"%string name then zeros_ w else w in
     (name, w)) <$> named_parameters.

(** [model.parameters()] *)
Definition parameters (named_parameters : list (String.string * Param))
    : list Param :=
  named_parameters.*2.

(** [get_n_params], on what [model.parameters()] yields. *)
Definition get_n_params (parameters : list Param) (learnable_only : bool)
    : nat :=
  let n_params :=
    (fun p => numel (param_data p))
      <$> filter (fun p => requires_grad p || negb learnable_only = true)
            parameters in
  sum_list n_params.

End MLP.

Arguments FCModel : clear implicits.
Arguments Param : clear implicits.
Arguments Layer : clear implicits.

(** * Concrete inputs

    Rational scalars, so that the model can be run.  [tanh] has no exact
    rational values; the odd, increasing, bounded function x / (1 + |x|)
    stands in for it.  No theorem depends on the choice. *)

Module Examples.

Definition Q_activation (x : Q) : Q := (x / (1 + Qabs x))%Q.

#[export] Instance Q_scalar : Scalar Q := {|
  s_zero := 0%Q;
  s_add := Qplus;
  s_mul := Qmult;
  s_tanh := Q_activation;
  s_ltb := fun x y => negb (Qle_bool y x);
  s_pixel := fun z => (z # 255)%Q
|}.

(** Models with [input_dim = 1], [hidden_dim = 1] and unit weights, built for
    one and for two candidates. *)
Definition model1 : AttentionModel Q :=
  AttentionModel_init 1 1 1 [[1%Q]] [0%Q] [[1%Q]] [0%Q] [[1%Q]] [0%Q].
Definition model2 : AttentionModel Q :=
  AttentionModel_init 1 2 1 [[1%Q]] [0%Q] [[1%Q]] [0%Q] [[1%Q]] [0%Q].

(** A batch of one query, and candidate sequences of length 0 to 3. *)
Definition query1 : Tensor2 Q := mkT2 1 1 [[1%Q]].
Definition keys0 : Tensor3 Q := mkT3 1 0 1 [[]].
Definition keys1 : Tensor3 Q := mkT3 1 1 1 [[[2%Q]]].
Definition keys2 : Tensor3 Q := mkT3 1 2 1 [[[2%Q]; [3%Q]]].
Definition keys3 : Tensor3 Q := mkT3 1 3 1 [[[2%Q]; [3%Q]; [4%Q]]].
(** A query and candidates of width 2, for a model of [input_dim = 1]. *)
Definition query_wide : Tensor2 Q := mkT2 1 2 [[1%Q; 1%Q]].


(** A corpus of ten images of one pixel, image i with pixel i and label i,
    and the dataset built from it for two candidates. *)
Definition corpus10 : MNIST :=
  mkMNIST ((fun z => [[z]]) <$> seqZ 0 10) (seqZ 0 10).
Definition dataset10 : MNISTAttentionDataset Q :=
  match MNISTAttentionDataset_init 2 corpus10 with
  | Ok self => self
  | Raise _ => mkDataset 2 corpus10 ∅
  end.

(** A corpus of ten images of 28 x 28 pixels, image i with the value i at
    every pixel and the label i, and the dataset built from it for two
    candidates. *)
Definition corpus28 : MNIST :=
  mkMNIST ((fun z => replicate 28 (replicate 28 z)) <$> seqZ 0 10) (seqZ 0 10).
Definition dataset28 : MNISTAttentionDataset Q :=
  match MNISTAttentionDataset_init 2 corpus28 with
  | Ok self => self
  | Raise _ => mkDataset 2 corpus28 ∅
  end.

(** A corpus with a single image, of label 0: the classes 1 to 9 have no
    item.  The dataset built from it. *)
Definition corpus_zero : MNIST := mkMNIST [[[0%Z]]] [0%Z].
Definition dataset_zero : MNISTAttentionDataset Q :=
  match MNISTAttentionDataset_init 2 corpus_zero with
  | Ok self => self
  | Raise _ => mkDataset 2 corpus_zero ∅
  end.

(** [np.argmax(a, axis=1)] and [np.sum(pred == target)] for the arrays the
    examples meet: arrays of rank 2 at most, and as many predictions as
    targets. *)
Definition argmax_row (row : list Q) : result Z :=
  match row with
  | [] => Raise ValueError
  | v :: row' =>
      Ok (fst (foldl (fun '(best, best_v, i) w =>
                        if s_ltb best_v w then (i, w, (i + 1)%Z)
                        else (best, best_v, (i + 1)%Z))
                     (0%Z, v, 1%Z) row')).1
  end.

Fixpoint argmax_rows (rows : list (list Q)) : result (list Z) :=
  match rows with
  | [] => Ok []
  | row :: rows' =>
      i ← argmax_row row;
      rest ← argmax_rows rows';
      Ok (i :: rest)
  end.

Definition ex_argmax_axis1 (a : AnyTensor Q) : result (list Z) :=
  match a with
  | Rank2 t => argmax_rows (data2 t)
  | Rank0 _ | Rank1 _ => Raise AxisError
  | Rank3 _ => Raise ValueError
  end.

Definition ex_sum_eq (pred target : list Z) : result Z :=
  if length pred =? length target
  then Ok (Z.of_nat (length (filter (fun pt => pt.1 = pt.2) (zip pred target))))
  else Raise ValueError.

(** A batch of two samples with two candidates each; the larger candidate is
    the target. *)
Definition batch22 : Batch Q :=
  mkBatch (mkT3 2 2 1 [[[2%Q]; [3%Q]]; [[3%Q]; [2%Q]]])
          (mkT2 2 1 [[1%Q]; [1%Q]])
          [1%Z; 0%Z].

End Examples.

(** * Further concrete inputs *)

Module MoreExamples.
Import Examples.

(** Equality of rationals as pairs of a numerator and a denominator. *)
#[export] Instance Q_eq_dec : EqDecision Q.
Proof. solve_decision. Defined.

(** A loss and an update for the runs of [train]: the sum of the scores,
    and a step that counts itself and leaves the layers as they are. *)
Definition ex_criterion (output : AnyTensor Q) (target : list Z) : result Q :=
  Ok (foldr Qplus 0%Q (elements output)).

Definition ex_optimizer_step (steps : nat) (model : AttentionModel Q)
    (b : Batch Q) : result (nat * (Linear Q * Linear Q * Linear Q)) :=
  Ok (S steps, (fc_q model, fc_k model, fc_v model)).

Definition state0 : TrainState Q nat := mkTrainState model2 0 [].

(** A loader of two batches of two samples. *)
Definition loader2 : list (Batch Q) := [batch22; batch22].

(** A 2 x 3 matrix, and the model of the MLP notebook for rows of width 3. *)
Definition matrix23 : Tensor2 Q :=
  mkT2 2 3 [[1%Q; 2%Q; 3%Q]; [4%Q; 5%Q; 6%Q]].

Definition fc3 : FCModel Q := FCModel_init 3 128 10.

(** The parameters of one linear layer with two inputs and one output. *)
Definition fc_weight : Param Q := mkParam (Rank2 (mkT2 1 2 [[3%Q; 4%Q]])) true.
Definition fc_bias : Param Q := mkParam (Rank1 (mkT1 1 [5%Q])) true.
Definition named2 : list (String.string * Param Q) :=
  [("fc.weight"%string, fc_weight); ("fc.bias"%string, fc_bias)].

End MoreExamples.

(** * Properties of the scorer *)

Section ScorerFacts.
Context {R : Type} `{Scalar R}.

(** ** Lists *)

Lemma concat_replicate_singleton {A : Type} (n : nat) (x : A) :
  concat (replicate n [x]) = replicate n x.
Proof. induction n as [|n IH]; simpl; [done | by rewrite IH]. Qed.

Lemma broadcast_dim_cases (a b n : nat) :
  broadcast_dim a b = Some n -> (a = n \/ a = 1) /\ (b = n \/ b = 1).
Proof.
  unfold broadcast_dim.
  destruct (Nat.eqb_spec a b); [intros [= <-]; lia |].
  destruct (Nat.eqb_spec a 1); [intros [= <-]; lia |].
  destruct (Nat.eqb_spec b 1); [intros [= <-]; lia | done].
Qed.

Lemma broadcast_dim_None (a b : nat) :
  broadcast_dim a b = None <-> a <> b /\ a <> 1 /\ b <> 1.
Proof.
  unfold broadcast_dim.
  destruct (Nat.eqb_spec a b); [split; [done | lia] |].
  destruct (Nat.eqb_spec a 1); [split; [done | lia] |].
  destruct (Nat.eqb_spec b 1); [split; [done | lia] |].
  done.
Qed.

Lemma broadcast_dim_same (a : nat) : broadcast_dim a a = Some a.
Proof. unfold broadcast_dim. by rewrite Nat.eqb_refl. Qed.

Lemma expand_same {A : Type} (d : nat) (l : list A) : expand d d l = l.
Proof. unfold expand. by rewrite Nat.eqb_refl. Qed.

Lemma expand_fmap {A B : Type} (f : A -> B) (d n : nat) (l : list A) :
  expand d n (f <$> l) = f <$> expand d n l.
Proof.
  unfold expand. destruct (d =? n); [done |].
  destruct l as [|x l]; simpl; [done | by rewrite fmap_replicate].
Qed.

Lemma expand_replicate {A : Type} (d n : nat) (x : A) :
  d = n \/ d = 1 -> expand d n (replicate d x) = replicate n x.
Proof.
  unfold expand. intros Hd.
  destruct (Nat.eqb_spec d n) as [->|Hne]; [done |].
  destruct Hd as [?| ->]; done.
Qed.

Lemma length_expand {A : Type} (d n : nat) (l : list A) :
  length l = d -> d = n \/ d = 1 -> length (expand d n l) = n.
Proof.
  unfold expand. intros Hl Hd.
  destruct (Nat.eqb_spec d n) as [->|Hne]; [done |].
  destruct Hd as [?| ->]; [done |].
  destruct l as [|x l]; [done |]. apply length_replicate.
Qed.

Lemma Forall_expand {A : Type} (P : A -> Prop) (d n : nat) (l : list A) :
  Forall P l -> Forall P (expand d n l).
Proof.
  unfold expand. intros Hl. destruct (d =? n); [done |].
  destruct l as [|x l]; [done |].
  apply Forall_replicate. by inversion Hl.
Qed.

(** A model that [__init__] builds has layers of the right shapes. *)
Lemma wf_model_init (input_dim : nat) (num_inputs : Z) (hidden_dim : nat)
    (Wq : list (list R)) (bq : list R) (Wk : list (list R)) (bk : list R)
    (Wv : list (list R)) (bv : list R) :
  wf_model (AttentionModel_init input_dim num_inputs hidden_dim
              Wq bq Wk bk Wv bv).
Proof. by repeat split. Qed.

(** ** The closed form of [scoringAdditive] *)

Lemma repeat1_unsqueeze1 (n : Z) (q : Tensor2 R) :
  (0 <= n)%Z ->
  repeat1 n (unsqueeze1 q)
  = Ok (mkT3 (rows2 q) (Z.to_nat n) (cols2 q)
          (replicate (Z.to_nat n) <$> data2 q)).
Proof.
  intros Hn. unfold repeat1, unsqueeze1; cbn [dim0 dim1 dim2 data3].
  destruct (Z.ltb_spec n 0); [lia |].
  rewrite Nat.mul_1_l. do 2 f_equal. rewrite <- list_fmap_compose.
  apply list_fmap_ext; intros i v _; simpl.
  apply concat_replicate_singleton.
Qed.

Lemma linear3_ok (l : Linear R) (t : Tensor3 R) :
  dim2 t = in_features l ->
  linear3 l t
  = Ok (mkT3 (dim0 t) (dim1 t) (out_features l)
          (fmap (M:=list) (linear_vec l) <$> data3 t)).
Proof. intros Hd. unfold linear3. by rewrite Hd, Nat.eqb_refl. Qed.

Lemma linear3_err (l : Linear R) (t : Tensor3 R) :
  dim2 t <> in_features l -> linear3 l t = Raise RuntimeError.
Proof. intros Hd. unfold linear3. by destruct (Nat.eqb_spec (dim2 t) (in_features l)). Qed.

Lemma fmap_zip_with {A B C D : Type} (f : C -> D) (g : A -> B -> C)
    (l : list A) (k : list B) :
  f <$> zip_with g l k = zip_with (fun x y => f (g x y)) l k.
Proof.
  revert k; induction l as [|x l IH]; intros [|y k]; simpl; [done..|].
  by rewrite <- IH.
Qed.

Lemma zip_rows_constant (f : list R -> list R -> list R) (n : nat)
    (x : list R) (m : list (list R)) :
  length m = n ->
  zip_with f (replicate n x) m = f x <$> m.
Proof. intros Hm. apply zip_with_replicate_l. lia. Qed.

(** When the shape checks pass, the score tensor holds, for every sample of
    the (broadcast) batch and every (broadcast) candidate position, the
    additive score of that candidate for that sample's query. *)
Lemma scoringAdditive_closed (self : AttentionModel R) (q : Tensor2 R)
    (keys : Tensor3 R) (n0 n1 : nat) :
  wf_model self -> wf3 keys ->
  (0 <= num_inputs self)%Z ->
  cols2 q = input_dim self ->
  dim2 keys = input_dim self ->
  broadcast_dim (rows2 q) (dim0 keys) = Some n0 ->
  broadcast_dim (Z.to_nat (num_inputs self)) (dim1 keys) = Some n1 ->
  scoringAdditive self (unsqueeze1 q) keys
  = Ok (score_tensor self q keys n0 n1).
Proof.
  intros (Hqi & Hqo & Hki & Hko & Hvi & Hvo) [Hk0 Hk] Hn Hq Hd Hb0 Hb1.
  unfold scoringAdditive, score_tensor. rewrite repeat1_unsqueeze1 by done.
  cbn [mbind result_bind].
  rewrite linear3_ok by (simpl; congruence). cbn [mbind result_bind].
  rewrite linear3_ok by (simpl; congruence). cbn [mbind result_bind].
  unfold add3, tanh3; cbn [dim0 dim1 dim2 data3].
  rewrite Hb0, Hb1, Hqo, Hko, broadcast_dim_same.
  cbn [mbind result_bind].
  rewrite linear3_ok by (simpl; congruence). cbn [dim0 dim1 dim2 data3].
  rewrite Hvo. do 2 f_equal.
  destruct (broadcast_dim_cases _ _ _ Hb1) as [Ha1 Hk1].
  rewrite <- !list_fmap_compose, !expand_fmap.
  rewrite zip_with_fmap_l, zip_with_fmap_r, !fmap_zip_with.
  apply Forall_zip_with_ext_r; [done |].
  apply Forall_expand. eapply Forall_impl; [exact Hk |].
  intros m [Hm _] qv. unfold additive_scores, compose.
  rewrite !fmap_replicate.
  rewrite !(list_fmap_ext (expand (hidden_dim self) (hidden_dim self)) id)
    by (intros; apply expand_same).
  rewrite list_fmap_id, expand_same, expand_replicate by done.
  rewrite <- !list_fmap_compose, expand_fmap.
  rewrite zip_rows_constant by (rewrite length_fmap; by apply length_expand).
  by rewrite <- !list_fmap_compose.
Qed.

(** Every failure of the scorer is the tensor library's [RuntimeError]. *)
Lemma scoringAdditive_error (self : AttentionModel R) (query keys : Tensor3 R)
    (e : exn) :
  scoringAdditive self query keys = Raise e -> e = RuntimeError.
Proof.
  unfold scoringAdditive, repeat1, linear3, add3.
  repeat (match goal with
          | |- context [if ?b then _ else _] => destruct b
          | |- context [match ?o with Some _ => _ | None => _ end] => destruct o
          end; cbn [mbind result_bind]);
  congruence.
Qed.

Lemma score_shape_Some (self : AttentionModel R) (q : Tensor2 R)
    (keys : Tensor3 R) (n0 n1 : nat) :
  score_shape self q keys = Some (n0, n1) <->
  (0 <= num_inputs self)%Z /\
  cols2 q = input_dim self /\
  dim2 keys = input_dim self /\
  broadcast_dim (rows2 q) (dim0 keys) = Some n0 /\
  broadcast_dim (Z.to_nat (num_inputs self)) (dim1 keys) = Some n1.
Proof.
  unfold score_shape.
  destruct (Z.ltb_spec (num_inputs self) 0); [split; [done | lia] |].
  destruct (Nat.eqb_spec (cols2 q) (input_dim self)); cbn [negb];
    [| split; [done | tauto]].
  destruct (Nat.eqb_spec (dim2 keys) (input_dim self)); cbn [negb];
    [| split; [done | tauto]].
  destruct (broadcast_dim (rows2 q) (dim0 keys)) as [m0|];
    [| split; [done | by intros (_ & _ & _ & ? & _)]].
  destruct (broadcast_dim (Z.to_nat (num_inputs self)) (dim1 keys)) as [m1|];
    [| split; [done | by intros (_ & _ & _ & _ & ?)]].
  split; [intros [= -> ->]; done | intros (_ & _ & _ & [= ->] & [= ->]); done].
Qed.

(** A shape check that does not pass is a [RuntimeError], whatever the data. *)
Lemma scoringAdditive_shape_error (self : AttentionModel R) (q : Tensor2 R)
    (keys : Tensor3 R) :
  wf_model self ->
  score_shape self q keys = None ->
  scoringAdditive self (unsqueeze1 q) keys = Raise RuntimeError.
Proof.
  intros Hself. unfold score_shape.
  destruct (Z.ltb_spec (num_inputs self) 0) as [Hn|Hn].
  { intros _. unfold scoringAdditive, repeat1.
    by destruct (Z.ltb_spec (num_inputs self) 0); [| lia]. }
  destruct Hself as (Hqi & Hqo & Hki & Hko & Hvi & Hvo).
  unfold scoringAdditive. rewrite repeat1_unsqueeze1 by done.
  cbn [mbind result_bind].
  destruct (Nat.eqb_spec (cols2 q) (input_dim self)) as [Hq|Hq]; cbn [negb].
  2:{ intros _.
      by rewrite (linear3_err (fc_q self)) by (simpl; intros ?; congruence). }
  rewrite (linear3_ok (fc_q self)) by (simpl; congruence).
  cbn [mbind result_bind].
  destruct (Nat.eqb_spec (dim2 keys) (input_dim self)) as [Hd|Hd]; cbn [negb].
  2:{ intros _.
      by rewrite (linear3_err (fc_k self)) by (simpl; intros ?; congruence). }
  rewrite (linear3_ok (fc_k self)) by (simpl; congruence).
  cbn [mbind result_bind].
  unfold add3, tanh3; cbn [dim0 dim1 dim2 data3].
  destruct (broadcast_dim (rows2 q) (dim0 keys)) as [n0|]; [| done].
  by destruct (broadcast_dim (Z.to_nat (num_inputs self)) (dim1 keys)).
Qed.

(** [scoringAdditive] on the query that [forward] passes: the shape checks
    decide between the score tensor and a [RuntimeError]. *)
Lemma scoringAdditive_cases (self : AttentionModel R) (q : Tensor2 R)
    (keys : Tensor3 R) :
  wf_model self -> wf3 keys ->
  scoringAdditive self (unsqueeze1 q) keys
  = match score_shape self q keys with
    | Some (n0, n1) => Ok (score_tensor self q keys n0 n1)
    | None => Raise RuntimeError
    end.
Proof.
  intros Hself Hkeys.
  destruct (score_shape self q keys) as [[n0 n1]|] eqn:Hs.
  - apply score_shape_Some in Hs as (? & ? & ? & ? & ?).
    by apply scoringAdditive_closed.
  - by apply scoringAdditive_shape_error.
Qed.

Lemma forward_scoring (self : AttentionModel R) (x : Tensor3 R)
    (query : Tensor2 R) :
  forward self x query
  = squeeze <$> scoringAdditive self (unsqueeze1 query) x.
Proof. unfold forward. by destruct (scoringAdditive _ _ _). Qed.

(** ** The shape and the elements of what [forward] returns *)

Lemma concat_fmap_concat {A : Type} (d : list (list (list A))) :
  concat (@concat A <$> d) = concat (concat d).
Proof.
  induction d as [|m d IH]; csimpl; [done |].
  by rewrite concat_app, IH.
Qed.

Lemma length_concat_rows {A : Type} (n k : nat) (m : list (list A)) :
  length m = n -> Forall (fun v => length v = k) m ->
  length (concat m) = n * k.
Proof.
  intros <- Hm. induction Hm as [|v m Hv _ IH]; simpl; [done |].
  rewrite length_app, IH, Hv. done.
Qed.

Lemma length_elements3 (t : Tensor3 R) :
  wf3 t -> length (concat (concat (data3 t))) = dim0 t * dim1 t * dim2 t.
Proof.
  intros [H0 Hrows].
  apply length_concat_rows.
  - rewrite <- H0. clear H0.
    induction Hrows as [|m d [Hm _] _ IH]; simpl; [done |].
    rewrite length_app, IH, Hm. done.
  - apply Forall_concat. eapply Forall_impl; [exact Hrows |].
    by intros m [_ Hm].
Qed.

Lemma elements_squeeze (t : Tensor3 R) :
  wf3 t -> elements (squeeze t) = concat (concat (data3 t)).
Proof.
  intros Ht. pose proof (length_elements3 t Ht) as Hlen.
  unfold squeeze.
  destruct (Nat.eqb_spec (dim0 t) 1) as [H0|H0],
           (Nat.eqb_spec (dim1 t) 1) as [H1|H1],
           (Nat.eqb_spec (dim2 t) 1) as [H2|H2];
    cbn [elements data1 data2 data3];
    rewrite ?concat_fmap_concat; try done.
  rewrite H0, H1, H2 in Hlen.
  by destruct (concat (concat (data3 t))) as [|x [|y l]].
Qed.

Lemma shape_squeeze (t : Tensor3 R) :
  shape (squeeze t) = filter (fun d => d <> 1) [dim0 t; dim1 t; dim2 t].
Proof.
  unfold squeeze.
  destruct (Nat.eqb_spec (dim0 t) 1) as [H0|H0],
           (Nat.eqb_spec (dim1 t) 1) as [H1|H1],
           (Nat.eqb_spec (dim2 t) 1) as [H2|H2];
    cbn [shape len1 rows2 cols2 dim0 dim1 dim2];
    rewrite ?H0, ?H1, ?H2;
    repeat first
      [ rewrite filter_cons_True by done
      | rewrite filter_cons_False by (intros Hne; by apply Hne)
      | rewrite filter_nil ];
    done.
Qed.

Lemma length_linear_vec (l : Linear R) (x : list R) :
  wf_linear l -> length (linear_vec l x) = out_features l.
Proof.
  intros [[Hw _] Hb]. unfold linear_vec.
  rewrite length_zip_with. lia.
Qed.

(** The score tensor has the shape it declares. *)
Lemma wf3_score_tensor (self : AttentionModel R) (q : Tensor2 R)
    (keys : Tensor3 R) (n0 n1 : nat) :
  wf_model self -> wf_linear (fc_v self) -> wf2 q -> wf3 keys ->
  broadcast_dim (rows2 q) (dim0 keys) = Some n0 ->
  broadcast_dim (Z.to_nat (num_inputs self)) (dim1 keys) = Some n1 ->
  wf3 (score_tensor self q keys n0 n1).
Proof.
  intros (_ & _ & _ & _ & _ & Hvo) Hv [Hq _] [Hk0 Hk] Hb0 Hb1.
  destruct (broadcast_dim_cases _ _ _ Hb0) as [Hq0 Hx0].
  destruct (broadcast_dim_cases _ _ _ Hb1) as [_ Hx1].
  split; cbn [score_tensor data3 dim0 dim1 dim2].
  - rewrite length_zip_with, !length_expand by done. lia.
  - apply (Forall_zip_with_snd _ (wf_rows (dim1 keys) (dim2 keys)));
      [| by apply Forall_expand].
    apply Forall_true. intros qv m [Hm _].
    unfold additive_scores. split.
    + rewrite length_fmap. by apply length_expand.
    + apply Forall_fmap, Forall_true. intros k; simpl.
      unfold additive_score. by rewrite length_linear_vec.
Qed.

(** ** The scores, position by position *)

(** With as many candidates as the model was built for, and one query for
    each sample, nothing is broadcast. *)
Lemma scoringAdditive_exact (self : AttentionModel R) (q : Tensor2 R)
    (keys : Tensor3 R) :
  wf_model self -> wf3 keys ->
  cols2 q = input_dim self -> dim2 keys = input_dim self ->
  rows2 q = dim0 keys ->
  num_inputs self = Z.of_nat (dim1 keys) ->
  scoringAdditive self (unsqueeze1 q) keys
  = Ok (mkT3 (dim0 keys) (dim1 keys) 1
          (zip_with (additive_scores self) (data2 q) (data3 keys))).
Proof.
  intros Hself Hkeys Hq Hd Hb Hn.
  assert (Hs : score_shape self q keys = Some (dim0 keys, dim1 keys)).
  { apply score_shape_Some. rewrite Hn, Nat2Z.id, Hb, !broadcast_dim_same.
    repeat split; [lia | done..]. }
  rewrite scoringAdditive_cases, Hs by done.
  unfold score_tensor. rewrite Hb, !expand_same.
  do 2 f_equal. apply zip_with_ext; [| done..].
  intros qv m. by rewrite expand_same.
Qed.

(** C2 (as amended).  For a query batch of shape (B x input_dim) and keys of
    shape (B x N x input_dim) with N the [num_inputs] the model was built
    with, [scoringAdditive] returns the (B x N x 1) tensor that holds, for
    sample b and position i, the value layer applied to
    tanh(tanh(fc_q(q_b)) + tanh(fc_k(k_b_i))): the additive scores of the
    candidates, in the candidates' order. *)
Theorem scoringAdditive_formula (self : AttentionModel R) (q : Tensor2 R)
    (keys : Tensor3 R) :
  wf_model self -> wf3 keys ->
  cols2 q = input_dim self -> dim2 keys = input_dim self ->
  rows2 q = dim0 keys ->
  num_inputs self = Z.of_nat (dim1 keys) ->
  exists s : Tensor3 R,
    scoringAdditive self (unsqueeze1 q) keys = Ok s /\
    s = mkT3 (dim0 keys) (dim1 keys) 1
          (zip_with (additive_scores self) (data2 q) (data3 keys)) /\
    forall (b i : nat) (qv : list R) (ks : list (list R)) (k : list R),
      data2 q !! b = Some qv -> data3 keys !! b = Some ks -> ks !! i = Some k ->
      data3 s !! b ≫= (.!! i) = Some (additive_score self qv k).
Proof.
  intros Hself Hkeys Hq Hd Hb Hn.
  eexists. split; [by apply scoringAdditive_exact |]. split; [done |].
  intros b i qv ks k Hqv Hks Hk. cbn [data3].
  rewrite lookup_zip_with, Hqv, Hks. cbn [mbind option_bind].
  unfold additive_scores. by rewrite list_lookup_fmap, Hk.
Qed.

(** C3 (as amended).  When the keys hold N = [num_inputs] candidates for
    each of the B queries, [forward] returns B * N scores: the (B x N x 1)
    score tensor with its dimensions of size 1 squeezed away, its elements
    being the additive scores sample after sample.  For N = 1 that is one
    score for each sample. *)
Theorem forward_score_count (self : AttentionModel R) (x : Tensor3 R)
    (query : Tensor2 R) :
  wf_model self -> wf_linear (fc_v self) -> wf2 query -> wf3 x ->
  cols2 query = input_dim self -> dim2 x = input_dim self ->
  rows2 query = dim0 x ->
  num_inputs self = Z.of_nat (dim1 x) ->
  exists out : AnyTensor R,
    forward self x query = Ok out /\
    shape out = filter (fun d => d <> 1) [dim0 x; dim1 x; 1] /\
    numel out = dim0 x * dim1 x /\
    elements out
    = concat (concat (zip_with (additive_scores self) (data2 query) (data3 x))).
Proof.
  intros Hself Hv Hquery Hx Hq Hd Hb Hn.
  pose proof (scoringAdditive_exact self query x Hself Hx Hq Hd Hb Hn) as Hs.
  assert (Hwf : wf3 (score_tensor self query x (dim0 x) (dim1 x))).
  { apply wf3_score_tensor; try done.
    - rewrite Hb. apply broadcast_dim_same.
    - rewrite Hn, Nat2Z.id. apply broadcast_dim_same. }
  assert (Heq : score_tensor self query x (dim0 x) (dim1 x)
                = mkT3 (dim0 x) (dim1 x) 1
                    (zip_with (additive_scores self) (data2 query) (data3 x))).
  { unfold score_tensor. rewrite Hb, !expand_same.
    f_equal. apply zip_with_ext; [| done..].
    intros qv m. by rewrite expand_same. }
  rewrite Heq in Hwf.
  eexists. split; [by rewrite forward_scoring, Hs |].
  split; [apply shape_squeeze |].
  unfold numel. rewrite elements_squeeze by done.
  split; [| done].
  rewrite length_elements3 by done. cbn [dim0 dim1 dim2]. lia.
Qed.

(** ** Shape errors *)

(** C7 (as amended).  A query or candidates whose width is not [input_dim]
    make [forward] fail with the tensor library's [RuntimeError].  An empty
    candidate sequence does so when [num_inputs] is neither 0 nor 1; when
    it is 0 or 1 (and the other shapes fit) an empty score tensor is
    returned. *)
Theorem forward_shape_errors (self : AttentionModel R) (x : Tensor3 R)
    (query : Tensor2 R) :
  wf_model self ->
  (cols2 query <> input_dim self -> forward self x query = Raise RuntimeError) /\
  (dim2 x <> input_dim self -> forward self x query = Raise RuntimeError) /\
  (dim1 x = 0 -> num_inputs self <> 0%Z -> num_inputs self <> 1%Z ->
   forward self x query = Raise RuntimeError) /\
  (dim1 x = 0 -> num_inputs self = 0%Z \/ num_inputs self = 1%Z ->
   wf_linear (fc_v self) -> wf2 query -> wf3 x ->
   cols2 query = input_dim self -> dim2 x = input_dim self ->
   rows2 query = dim0 x ->
   exists out : AnyTensor R, forward self x query = Ok out /\ numel out = 0).
Proof.
  intros Hself.
  assert (Herr : score_shape self query x = None ->
                 forward self x query = Raise RuntimeError).
  { intros Hs. by rewrite forward_scoring, scoringAdditive_shape_error. }
  repeat split.
  - intros Hq. apply Herr. unfold score_shape.
    destruct (num_inputs self <? 0)%Z; [done |].
    by destruct (Nat.eqb_spec (cols2 query) (input_dim self)).
  - intros Hd. apply Herr. unfold score_shape.
    destruct (num_inputs self <? 0)%Z; [done |].
    destruct (cols2 query =? input_dim self); [| done].
    by destruct (Nat.eqb_spec (dim2 x) (input_dim self)).
  - intros Hx0 Hn0 Hn1. apply Herr.
    destruct (score_shape self query x) as [[n0 n1]|] eqn:Hs; [| done].
    apply score_shape_Some in Hs as (Hn & _ & _ & _ & Hb).
    apply broadcast_dim_cases in Hb. lia.
  - intros Hx0 Hn Hv Hquery Hx Hq Hd Hb.
    assert (Hs : score_shape self query x = Some (dim0 x, 0)).
    { apply score_shape_Some. rewrite Hx0, Hb, broadcast_dim_same.
      repeat split; [lia | done.. |].
      by destruct Hn as [-> | ->]. }
    pose proof Hs as (_ & _ & _ & Hb0 & Hb1)%score_shape_Some.
    pose proof (wf3_score_tensor self query x _ _ Hself Hv Hquery Hx Hb0 Hb1)
      as Hwf.
    eexists. split.
    + by rewrite forward_scoring, scoringAdditive_cases, Hs.
    + unfold numel. rewrite elements_squeeze, length_elements3 by done.
      cbn [score_tensor dim0 dim1 dim2]. lia.
Qed.

(** ** The candidate count is fixed at construction *)

(** C10.  The query is tiled [num_inputs] times, whatever the keys; a
    candidate count that is neither [num_inputs] nor 1 makes the sum of the
    projections, and with it [scoringAdditive] and [forward], fail with a
    [RuntimeError] unless [num_inputs] is 1; and when a score tensor is
    returned its candidate dimension is the broadcast of [num_inputs] and the
    candidate count. *)
Theorem scoring_tiles_num_inputs (self : AttentionModel R) (x : Tensor3 R)
    (query : Tensor2 R) :
  wf_model self ->
  ((0 <= num_inputs self)%Z ->
   exists tiled : Tensor3 R,
     repeat1 (num_inputs self) (unsqueeze1 query) = Ok tiled /\
     dim1 tiled = Z.to_nat (num_inputs self)) /\
  (num_inputs self <> Z.of_nat (dim1 x) -> dim1 x <> 1 ->
   num_inputs self <> 1%Z ->
   scoringAdditive self (unsqueeze1 query) x = Raise RuntimeError /\
   forward self x query = Raise RuntimeError) /\
  (forall s : Tensor3 R,
     wf3 x -> scoringAdditive self (unsqueeze1 query) x = Ok s ->
     broadcast_dim (Z.to_nat (num_inputs self)) (dim1 x) = Some (dim1 s)).
Proof.
  intros Hself. repeat split.
  - intros Hn. eexists. by rewrite repeat1_unsqueeze1.
  - destruct (score_shape self query x) as [[n0 n1]|] eqn:Hs;
      [| by apply scoringAdditive_shape_error].
    apply score_shape_Some in Hs as (? & _ & _ & _ & Hb).
    apply broadcast_dim_cases in Hb. lia.
  - rewrite forward_scoring.
    destruct (score_shape self query x) as [[n0 n1]|] eqn:Hs;
      [| by rewrite scoringAdditive_shape_error].
    apply score_shape_Some in Hs as (? & _ & _ & _ & Hb).
    apply broadcast_dim_cases in Hb. lia.
  - intros s Hx. rewrite scoringAdditive_cases by done.
    destruct (score_shape self query x) as [[n0 n1]|] eqn:Hs; [| done].
    intros [= <-]. by apply score_shape_Some in Hs as (_ & _ & _ & _ & ?).
Qed.

(** ** Reordering the candidates *)








End ScorerFacts.

(** ** The scorer on concrete inputs *)

Section ScorerExamples.
Import Examples.

Lemma wf_model2 : wf_model model2.
Proof. by repeat split. Qed.

Lemma wf_model1 : wf_model model1.
Proof. by repeat split. Qed.

Lemma wf_fc_v_model2 : wf_linear (fc_v model2).
Proof. repeat split. by repeat constructor. Qed.

Lemma wf_query1 : wf2 query1.
Proof. split; [done | by repeat constructor]. Qed.

Lemma wf_keys2 : wf3 keys2.
Proof. split; [done |]. by repeat constructor. Qed.

Lemma wf_keys3 : wf3 keys3.
Proof. split; [done |]. by repeat constructor. Qed.


(** C2, as stated, does not hold: the model built for two candidates does
    not return the three scores of three candidates, it fails. *)
Lemma scoringAdditive_three_keys :
  wf_model model2 /\ wf3 keys3 /\
  cols2 query1 = input_dim model2 /\ dim2 keys3 = input_dim model2 /\
  rows2 query1 = dim0 keys3 /\
  scoringAdditive model2 (unsqueeze1 query1) keys3 = Raise RuntimeError /\
  scoringAdditive model2 (unsqueeze1 query1) keys3
  <> Ok (mkT3 1 3 1
           (zip_with (additive_scores model2) (data2 query1) (data3 keys3))).
Proof.
  split; [exact wf_model2 |]. split; [exact wf_keys3 |].
  repeat split; try reflexivity. discriminate.
Qed.

Lemma scoringAdditive_formula_witness :
  exists s : Tensor3 Q,
    scoringAdditive model2 (unsqueeze1 query1) keys2 = Ok s /\
    s = mkT3 1 2 1
          (zip_with (additive_scores model2) (data2 query1) (data3 keys2)).
Proof.
  destruct (scoringAdditive_formula model2 query1 keys2
              wf_model2 wf_keys2 eq_refl eq_refl eq_refl eq_refl)
    as (s & Hs & Heq & _).
  exists s. split; assumption.
Defined.

(** C3, as stated, does not hold: the model built for two candidates
    returns two scores for a single candidate. *)
Lemma forward_one_key_two_scores :
  dim1 keys1 = 1 /\
  exists out : AnyTensor Q,
    forward model2 keys1 query1 = Ok out /\ shape out = [2] /\ numel out = 2.
Proof. split; [done |]. eexists. by repeat split. Qed.

Lemma forward_score_count_witness :
  exists out : AnyTensor Q,
    forward model2 keys2 query1 = Ok out /\ numel out = 2.
Proof.
  destruct (forward_score_count model2 keys2 query1
              wf_model2 wf_fc_v_model2 wf_query1 wf_keys2
              eq_refl eq_refl eq_refl eq_refl)
    as (out & Hout & _ & Hn & _).
  exists out. split; assumption.
Defined.


(** C7, as stated, does not hold: the model built for one candidate returns
    an empty score tensor for an empty candidate sequence; and where the
    scorer does fail, on a query of the wrong width, the error is not the
    specification's [ShapeMismatchError]. *)
Lemma forward_no_keys :
  dim1 keys0 = 0 /\
  forward model1 keys0 query1 = Ok (Rank1 (mkT1 0 [])) /\
  forward model2 keys2 query_wide <> Raise ShapeMismatchError.
Proof. by repeat split. Qed.

Lemma forward_shape_errors_witness :
  forward model2 keys2 query_wide = Raise RuntimeError.
Proof.
  apply (proj1 (forward_shape_errors model2 keys2 query_wide wf_model2)).
  simpl. lia.
Defined.

Lemma scoring_tiles_num_inputs_witness :
  forward model2 keys3 query1 = Raise RuntimeError.
Proof.
  apply (proj1 (proj2 (scoring_tiles_num_inputs model2 keys3 query1 wf_model2)));
    simpl; lia.
Defined.

End ScorerExamples.

(** * Properties of random computations *)

Section RandFacts.
Context {A : Type}.
Implicit Types (m : Rand A) (r : result A) (g : result A -> Qc).

(** ** Sums of rationals *)

Lemma Qc_sum_ext {B : Type} (f f' : B -> Qc) (l : list B) :
  (forall v, v ∈ l -> f v = f' v) ->
  Qc_sum (f <$> l) = Qc_sum (f' <$> l).
Proof.
  induction l as [|v l IH]; intros Hf; csimpl; [done |].
  rewrite Hf by apply list_elem_of_here.
  rewrite IH; [done |]. intros w Hw. apply Hf. by apply list_elem_of_further.
Qed.

Lemma Qc_sum_const {B : Type} (c : Qc) (l : list B) :
  Qc_sum ((fun _ => c) <$> l) = (Qc_of_nat (length l) * c)%Qc.
Proof.
  unfold Qc_of_nat.
  induction l as [|v l IH]; csimpl.
  - change (Z.of_nat 0) with 0%Z. rewrite Z2Qc_inj_0. ring.
  - rewrite IH, Nat2Z.inj_succ, <- Z.add_1_r, Z2Qc_inj_add, Z2Qc_inj_1.
    ring.
Qed.

Lemma Qc_sum_scale {B : Type} (c : Qc) (f : B -> Qc) (l : list B) :
  Qc_sum ((fun v => c * f v)%Qc <$> l) = (c * Qc_sum (f <$> l))%Qc.
Proof.
  induction l as [|v l IH]; csimpl; [ring |]. rewrite IH. ring.
Qed.

Lemma Qc_sum_zero {B : Type} (f : B -> Qc) (l : list B) :
  (forall v, v ∈ l -> f v = 0%Qc) -> Qc_sum (f <$> l) = 0%Qc.
Proof.
  intros Hf. rewrite (Qc_sum_ext f (fun _ => 0%Qc)) by done.
  rewrite Qc_sum_const. ring.
Qed.

(** The sum over a list without repetition of a function that vanishes
    except at one entry of the list. *)
Lemma Qc_sum_single {B : Type} (f : B -> Qc) (l : list B) (p : B) :
  NoDup l -> p ∈ l -> (forall v, v ∈ l -> v <> p -> f v = 0%Qc) ->
  Qc_sum (f <$> l) = f p.
Proof.
  induction 1 as [|v l Hv Hl IH]; intros Hp Hf; [by apply elem_of_nil in Hp |].
  csimpl. apply elem_of_cons in Hp as [->|Hp].
  - rewrite Qc_sum_zero; [ring |].
    intros w Hw. apply Hf; [by apply list_elem_of_further |].
    intros ->. done.
  - rewrite IH; [| done |].
    + rewrite Hf; [ring | apply list_elem_of_here |]. intros ->. done.
    + intros w Hw. apply Hf. by apply list_elem_of_further.
Qed.

Lemma Qc_of_nat_ne_0 (n : nat) : n <> 0 -> Qc_of_nat n <> 0%Qc.
Proof.
  intros Hn Heq. unfold Qc_of_nat in Heq.
  rewrite <- Z2Qc_inj_0 in Heq. apply Z2Qc_inj in Heq. lia.
Qed.

Lemma length_ne_0 {B : Type} (l : list B) : l <> [] -> length l <> 0.
Proof. by destruct l. Qed.

(** ** Outcomes *)

Lemma outcome_Done r r' : outcome (Done r) r' <-> r' = r.
Proof. split; [by inversion 1 | intros ->; constructor]. Qed.

Lemma outcome_Draw (l : list Z) (k : Z -> Rand A) r :
  outcome (Draw l k) r <-> exists v, v ∈ l /\ outcome (k v) r.
Proof.
  split.
  - inversion 1; subst. eauto.
  - intros (v & Hv & Hr). by econstructor.
Qed.

(** A proper computation has an outcome. *)
Lemma proper_outcome m : proper m -> exists r, outcome m r.
Proof.
  induction m as [r|l k IH]; simpl.
  - intros _. exists r. constructor.
  - intros [Hl Hk]. destruct l as [|v l]; [done |].
    destruct (IH v) as [r Hr]; [apply Hk, list_elem_of_here |].
    exists r. econstructor; [apply list_elem_of_here | done].
Qed.

(** ** Expectations and probabilities *)

Lemma Ex_ext g g' m :
  (forall r, outcome m r -> g r = g' r) -> Ex g m = Ex g' m.
Proof.
  induction m as [r|l k IH]; simpl; intros Hg.
  - apply Hg. constructor.
  - f_equal. apply Qc_sum_ext. intros v Hv. apply IH.
    intros r Hr. apply Hg. by econstructor.
Qed.

Lemma Ex_const (c : Qc) m : proper m -> Ex (fun _ => c) m = c.
Proof.
  induction m as [r|l k IH]; simpl; [done |].
  intros [Hl Hk].
  rewrite (Qc_sum_ext _ (fun _ => c)) by (intros v Hv; by apply IH, Hk).
  rewrite Qc_sum_const. field.
  by apply Qc_of_nat_ne_0, length_ne_0.
Qed.

Lemma Ex_scale (c : Qc) g m :
  Ex (fun r => c * g r)%Qc m = (c * Ex g m)%Qc.
Proof.
  induction m as [r|l k IH]; simpl; [done |].
  rewrite (Qc_sum_ext _ (fun v => c * Ex g (k v))%Qc) by (intros; apply IH).
  rewrite Qc_sum_scale. unfold Qcdiv. ring.
Qed.

(** An event that every outcome satisfies has probability 1, ... *)
Lemma Pr_all (ev : result A -> bool) m :
  proper m -> (forall r, outcome m r -> ev r = true) -> Pr ev m = 1%Qc.
Proof.
  intros Hm Hev. unfold Pr.
  rewrite (Ex_ext _ (fun _ => 1%Qc)); [by apply Ex_const |].
  intros r Hr. by rewrite Hev.
Qed.

(** ... and one that no outcome satisfies has probability 0. *)
Lemma Pr_none (ev : result A -> bool) m :
  (forall r, outcome m r -> ev r = false) -> Pr ev m = 0%Qc.
Proof.
  intros Hev. unfold Pr.
  rewrite (Ex_ext _ (fun r => 0 * 0)%Qc).
  - rewrite Ex_scale. ring.
  - intros r Hr. rewrite Hev by done. ring.
Qed.

End RandFacts.

Section RandBind.
Context {A B : Type}.
Implicit Types (m : Rand A) (f : A -> Rand B).

Lemma bind_Done_Ok (a : A) f : Done (Ok a) ≫= f = f a.
Proof. done. Qed.

Lemma bind_Done_Raise (e : exn) f : Done (Raise e) ≫= f = Done (Raise e).
Proof. done. Qed.

Lemma bind_Draw (l : list Z) (k : Z -> Rand A) f :
  Draw l k ≫= f = Draw l (fun v => k v ≫= f).
Proof. done. Qed.

Lemma outcome_bind m f (r : result B) :
  outcome (m ≫= f) r <->
  (exists a, outcome m (Ok a) /\ outcome (f a) r) \/
  (exists e, outcome m (Raise e) /\ r = Raise e).
Proof.
  revert r. induction m as [[a|e]|l k IH]; intros r.
  - rewrite bind_Done_Ok. split.
    + intros Hr. left. exists a. split; [constructor | done].
    + intros [(a' & Ha' & Hr)|(e & He & _)].
      * by apply outcome_Done in Ha' as [= ->].
      * by apply outcome_Done in He.
  - rewrite bind_Done_Raise, outcome_Done. split.
    + intros ->. right. exists e. split; [constructor | done].
    + intros [(a' & Ha' & Hr)|(e' & He' & ->)].
      * by apply outcome_Done in Ha'.
      * by apply outcome_Done in He' as [= ->].
  - rewrite bind_Draw, outcome_Draw. split.
    + intros (v & Hv & Hr). apply IH in Hr as [(a & Ha & Hr)|(e & He & ->)].
      * left. exists a. split; [by econstructor | done].
      * right. exists e. split; [by econstructor | done].
    + intros [(a & Ha & Hr)|(e & He & ->)].
      * apply outcome_Draw in Ha as (v & Hv & Ha).
        exists v. split; [done |]. apply IH. left. eauto.
      * apply outcome_Draw in He as (v & Hv & He).
        exists v. split; [done |]. apply IH. right. eauto.
Qed.

Lemma proper_bind m f :
  proper m -> (forall a, outcome m (Ok a) -> proper (f a)) ->
  proper (m ≫= f).
Proof.
  induction m as [[a|e]|l k IH]; intros Hm Hf.
  - rewrite bind_Done_Ok. apply Hf. constructor.
  - done.
  - rewrite bind_Draw. destruct Hm as [Hl Hk]. split; [done |].
    intros v Hv. apply IH; [by apply Hk |].
    intros a Ha. apply Hf. by econstructor.
Qed.

(** The expectation over a sequence of two computations. *)
Lemma Ex_bind (g : result B -> Qc) m f :
  Ex g (m ≫= f)
  = Ex (fun r => match r with
                 | Ok a => Ex g (f a)
                 | Raise e => g (Raise e)
                 end) m.
Proof.
  induction m as [[a|e]|l k IH]; [done.. |].
  rewrite bind_Draw. simpl. f_equal. apply Qc_sum_ext. intros v _. apply IH.
Qed.

End RandBind.

(** Two computations run one after the other.  When the probability that
    the second returns what is asked of it is the same whatever the first
    has returned, the probability that both return what is asked of them is
    the product of the two probabilities. *)
Lemma Pr_bind_product {A B C : Type} (m : Rand A) (f : A -> Rand B)
    (h : A -> B -> C) (P : A -> bool) (P' : B -> bool) (Q : C -> bool)
    (q : Qc) :
  (forall a b, Q (h a b) = P a && P' b) ->
  (forall a, outcome m (Ok a) -> Pr (returns P') (f a) = q) ->
  Pr (returns Q) (a ← m; b ← f a; mret (h a b))
  = (Pr (returns P) m * q)%Qc.
Proof.
  intros HQ Hq. unfold Pr at 1. rewrite Ex_bind.
  rewrite (Ex_ext _ (fun r => q * (if returns P r then 1 else 0))%Qc).
  { rewrite Ex_scale. unfold Pr. ring. }
  intros [a|e] Ha; simpl; [| ring].
  rewrite Ex_bind. rewrite <- (Hq a Ha).
  rewrite (Ex_ext _ (fun r => (if P a then 1 else 0)
                              * (if returns P' r then 1 else 0))%Qc).
  { rewrite Ex_scale. unfold Pr. ring. }
  intros [b|e] _; simpl.
  - change (mret (h a b)) with (Done (Ok (h a b))). simpl.
    rewrite HQ. destruct (P a), (P' b); simpl; ring.
  - ring.
Qed.

(** The probability that two computations run one after the other return
    what is asked of them, by what the first returns. *)
Lemma Pr_bind_ret {A B C : Type} (m : Rand A) (f : A -> Rand B)
    (h : A -> B -> C) (Q : C -> bool) :
  Pr (returns Q) (a ← m; b ← f a; mret (h a b))
  = Ex (fun r => match r with
                 | Ok a => Pr (returns (fun b => Q (h a b))) (f a)
                 | Raise _ => 0%Qc
                 end) m.
Proof.
  unfold Pr at 1. rewrite Ex_bind. apply Ex_ext. intros [a|e] _; [| done].
  rewrite Ex_bind. unfold Pr. apply Ex_ext. by intros [b|e] _.
Qed.

Section RandErasure.
Context {A B : Type}.
Implicit Types (phi : B -> A) (m : Rand B).

Lemma erases_outcome phi m (m' : Rand A) (r : result A) :
  erases phi m m' ->
  outcome m' r <-> exists r0, outcome m r0 /\ r = phi <$> r0.
Proof.
  intros Hm. revert r. induction Hm as [b|e|l k k' _ IH]; intros r.
  - rewrite outcome_Done. split.
    + intros ->. exists (Ok b). split; [constructor | done].
    + by intros (r0 & ->%outcome_Done & ->).
  - rewrite outcome_Done. split.
    + intros ->. exists (Raise e). split; [constructor | done].
    + by intros (r0 & ->%outcome_Done & ->).
  - rewrite outcome_Draw. split.
    + intros (v & Hv & (r0 & Hr0 & ->)%IH).
      exists r0. split; [by econstructor | done].
    + intros (r0 & (v & Hv & Hr0)%outcome_Draw & ->).
      exists v. split; [done |]. apply IH. eauto.
Qed.

Lemma erases_Ex phi m (m' : Rand A) (g : result A -> Qc) :
  erases phi m m' -> Ex g m' = Ex (fun r0 => g (phi <$> r0)) m.
Proof.
  induction 1 as [b|e|l k k' _ IH]; [done.. |].
  simpl. f_equal. apply Qc_sum_ext. intros v _. apply IH.
Qed.

Lemma erases_Pr phi m (m' : Rand A) (ev : result A -> bool) :
  erases phi m m' -> Pr ev m' = Pr (fun r0 => ev (phi <$> r0)) m.
Proof. intros Hm. unfold Pr. by rewrite (erases_Ex phi m m'). Qed.

End RandErasure.

Lemma erases_refl {A : Type} (m : Rand A) : erases (fun a => a) m m.
Proof.
  induction m as [[a|e]|l k IH]; [constructor.. |]. by constructor.
Qed.

Lemma erases_bind {A B A' B' : Type} (phi : B -> A) (psi : B' -> A')
    (m : Rand B) (m' : Rand A) (f : B -> Rand B') (f' : A -> Rand A') :
  erases phi m m' ->
  (forall b, erases psi (f b) (f' (phi b))) ->
  erases psi (m ≫= f) (m' ≫= f').
Proof.
  intros Hm Hf. induction Hm as [b|e|l k k' _ IH].
  - apply Hf.
  - constructor.
  - rewrite !bind_Draw. by constructor.
Qed.

(** A value added to what a computation returns, and erased again. *)
Lemma erases_bind_ret {A B B' : Type} (phi : B -> A) (psi : B' -> A)
    (g : B -> B') (m : Rand B) (m' : Rand A) :
  erases phi m m' ->
  (forall b, psi (g b) = phi b) ->
  erases psi (b ← m; mret (g b)) m'.
Proof.
  intros Hm Hg. induction Hm as [b|e|l k k' _ IH].
  - rewrite bind_Done_Ok, <- Hg. constructor.
  - constructor.
  - rewrite bind_Draw. by constructor.
Qed.

Section RandDraws.

(** The ranges that [randint] accepts. *)
Lemma randint_range (low high : Z) :
  ((low <? high) && (- 2 ^ 63 <=? low) && (high <=? 2 ^ 63))%Z = true
  <-> (low < high /\ - 2 ^ 63 <= low /\ high <= 2 ^ 63)%Z.
Proof. rewrite !andb_true_iff, Z.ltb_lt, !Z.leb_le. tauto. Qed.

Lemma outcome_randint (low high : Z) (r : result Z) :
  outcome (randint low high) r <->
  ((low < high /\ - 2 ^ 63 <= low /\ high <= 2 ^ 63)%Z /\
   exists v, (low <= v < high)%Z /\ r = Ok v) \/
  (~ (low < high /\ - 2 ^ 63 <= low /\ high <= 2 ^ 63)%Z /\
   r = Raise ValueError).
Proof.
  unfold randint. rewrite <- randint_range.
  destruct (_ && _ && _)%Z.
  - rewrite outcome_Draw. split.
    + intros (v & Hv%elem_of_seqZ & ->%outcome_Done). left.
      split; [done |]. exists v. split; [lia | done].
    + intros [[_ (v & Hv & ->)]|[? _]]; [| done].
      exists v. split; [apply elem_of_seqZ; lia | constructor].
  - rewrite outcome_Done. split; [by right |].
    by intros [[? _]|[_ ->]].
Qed.

(** Whatever [randint] raises is a [ValueError]. *)
Lemma randint_raises (low high : Z) (e : exn) :
  outcome (randint low high) (Raise e) -> e = ValueError.
Proof.
  intros [[_ (v & _ & ?)]|[_ [= ->]]]%outcome_randint; done.
Qed.

Lemma proper_randint (low high : Z) : proper (randint low high).
Proof.
  unfold randint.
  destruct (_ && _ && _)%Z eqn:Hr; simpl; [| done].
  apply randint_range in Hr as (Hlt & _).
  split; [| done]. intros Heq.
  assert (Hin : low ∈ seqZ low (high - low)) by (apply elem_of_seqZ; lia).
  rewrite Heq in Hin. by apply elem_of_nil in Hin.
Qed.

Lemma outcome_choice (a : list Z) (r : result Z) :
  outcome (choice a) r <->
  (exists v, v ∈ a /\ r = Ok v) \/ (a = [] /\ r = Raise ValueError).
Proof.
  unfold choice. destruct a as [|x a].
  - rewrite outcome_Done. split; [by right |].
    intros [(v & Hv & _)|[_ ->]]; [by apply elem_of_nil in Hv | done].
  - rewrite outcome_Draw. split.
    + intros (v & Hv & ->%outcome_Done). left. eauto.
    + intros [(v & Hv & ->)|[? _]]; [| done].
      exists v. split; [done | constructor].
Qed.

Lemma proper_choice (a : list Z) : proper (choice a).
Proof. by destruct a. Qed.

(** [randint] puts the same weight on every integer of its range. *)
Lemma Ex_randint (g : result Z -> Qc) (low high : Z) :
  (low < high)%Z -> (- 2 ^ 63 <= low)%Z -> (high <= 2 ^ 63)%Z ->
  Ex g (randint low high)
  = (Qc_sum ((fun v => g (Ok v)) <$> seqZ low (high - low))
     / Qc_of_Z (high - low))%Qc.
Proof.
  intros Hlt Hlow Hhigh. unfold randint.
  rewrite (proj2 (randint_range low high)) by done.
  simpl. unfold Qc_of_nat. rewrite length_seqZ, Z2Nat.id by lia. done.
Qed.

(** [choice] puts the same weight on every position of its list. *)
Lemma Ex_choice (g : result Z -> Qc) (a : list Z) :
  a <> [] ->
  Ex g (choice a)
  = (Qc_sum ((fun v => g (Ok v)) <$> a) / Qc_of_nat (length a))%Qc.
Proof. by destruct a. Qed.

End RandDraws.

(** * Properties of the dataset *)

Section DatasetFacts.
Context {R : Type} `{Scalar R}.

(** ** Construction *)

Lemma elem_of_masked_rows {A : Type} (t : list A) (mask : list bool) (a : A) :
  a ∈ masked_rows t mask <->
  exists i, t !! i = Some a /\ mask !! i = Some true.
Proof.
  revert mask. induction t as [|a' t IH]; intros mask.
  - simpl. split; [by intros ?%elem_of_nil | by intros (i & ? & _)].
  - destruct mask as [|b mask]; simpl.
    { split; [by intros ?%elem_of_nil | by intros (i & _ & ?)]. }
    destruct b.
    + rewrite elem_of_cons, IH. split.
      * intros [->|(i & Ht & Hm)]; [by exists 0 | by exists (S i)].
      * intros ([|i] & Ht & Hm); simpl in *; [left; congruence | right; eauto].
    + rewrite IH. split.
      * intros (i & Ht & Hm). by exists (S i).
      * intros ([|i] & Ht & Hm); simpl in *; [done | eauto].
Qed.

Lemma length_masked_label {A : Type} (t : list A) (targets : list Z) (label : Z) :
  length t = length targets ->
  length (masked_rows t ((fun x => bool_decide (x = label)) <$> targets))
  = length (filter (fun x => x = label) targets).
Proof.
  revert t. induction targets as [|x targets IH]; intros [|a t] Hlen;
    try done.
  csimpl. rewrite filter_cons.
  destruct (decide (x = label)) as [Hx|Hx].
  - rewrite bool_decide_eq_true_2 by done. simpl. rewrite IH; [done |].
    simpl in Hlen. lia.
  - rewrite bool_decide_eq_false_2 by done. apply IH.
    simpl in Hlen. lia.
Qed.

Lemma elem_of_class_pool (mnist : MNIST) (label : Z) (img' : list (list R)) :
  img' ∈ class_pool mnist label <->
  exists i img,
    mnist_data mnist !! i = Some img /\
    mnist_targets mnist !! i = Some label /\
    img' = normalise img.
Proof.
  unfold class_pool. rewrite list_elem_of_fmap. split.
  - intros (img & -> & (i & Hd & Hm)%elem_of_masked_rows).
    rewrite list_lookup_fmap in Hm.
    destruct (mnist_targets mnist !! i) as [t|] eqn:Ht; [| done].
    simpl in Hm. injection Hm as Hm. apply bool_decide_eq_true_1 in Hm as ->.
    eauto.
  - intros (i & img & Hd & Ht & ->). exists img. split; [done |].
    apply elem_of_masked_rows. exists i. split; [done |].
    rewrite list_lookup_fmap, Ht. simpl. by rewrite bool_decide_eq_true_2.
Qed.

Lemma tensor_mask_ok {A : Type} (t : list A) (mask : list bool) :
  length t = length mask -> tensor_mask t mask = Ok (masked_rows t mask).
Proof. intros Hlen. unfold tensor_mask. by rewrite Hlen, Nat.eqb_refl. Qed.

Lemma tensor_mask_inv {A : Type} (t : list A) (mask : list bool) (r : list A) :
  tensor_mask t mask = Ok r -> length t = length mask.
Proof.
  unfold tensor_mask.
  by destruct (Nat.eqb_spec (length t) (length mask)).
Qed.

Lemma collect_ok (mnist : MNIST) (labels : list Z)
    (data : gmap Z (list (list (list R)))) :
  length (mnist_data mnist) = length (mnist_targets mnist) ->
  exists data',
    collect mnist labels data = Ok data' /\
    forall label,
      data' !! label
      = if decide (label ∈ labels) then Some (class_pool mnist label)
        else data !! label.
Proof.
  intros Hlen. revert data.
  induction labels as [|l labels IH]; intros data; simpl.
  - exists data. split; [done |]. intros label.
    by destruct (decide (label ∈ [])) as [?%elem_of_nil|].
  - rewrite tensor_mask_ok by (by rewrite length_fmap).
    cbn [mbind result_bind].
    destruct (IH (<[l := class_pool mnist l]> data)) as (data' & Hc & Hl).
    exists data'. split; [exact Hc |].
    intros label. rewrite Hl.
    destruct (decide (label ∈ labels)) as [Hin|Hnin].
    + by rewrite decide_True by (by apply list_elem_of_further).
    + destruct (decide (label = l)) as [->|Hne].
      * rewrite lookup_insert_eq.
        by rewrite decide_True by apply list_elem_of_here.
      * rewrite lookup_insert_ne by done.
        rewrite decide_False; [done |].
        by intros [?|?]%elem_of_cons.
Qed.

Lemma init_inv (num_inputs : Z) (mnist : MNIST) (self : MNISTAttentionDataset R) :
  MNISTAttentionDataset_init num_inputs mnist = Ok self ->
  length (mnist_data mnist) = length (mnist_targets mnist) /\
  ds_num_inputs self = num_inputs /\
  ds_mnist self = mnist /\
  forall label,
    ds_data self !! label
    = if decide (0 <= label < 10)%Z then Some (class_pool mnist label)
      else None.
Proof.
  unfold MNISTAttentionDataset_init. intros Hinit.
  assert (Hlen : length (mnist_data mnist) = length (mnist_targets mnist)).
  { change (seqZ 0 10) with (0 :: seqZ 1 9)%Z in Hinit.
    cbn [collect] in Hinit.
    destruct (tensor_mask _ _) as [pool|e] eqn:Hm; [| done].
    apply tensor_mask_inv in Hm. by rewrite length_fmap in Hm. }
  split; [done |].
  destruct (collect_ok mnist (seqZ 0 10) ∅ Hlen) as (data' & Hc & Hl).
  rewrite Hc in Hinit. cbn [mbind result_bind mret result_ret] in Hinit.
  injection Hinit as <-. repeat split.
  intros label; simpl. rewrite Hl, lookup_empty.
  destruct (decide (label ∈ seqZ 0 10)) as [Hin|Hnin];
    rewrite elem_of_seqZ in *.
  - by rewrite decide_True by lia.
  - by rewrite decide_False by lia.
Qed.

(** C6 (as amended).  Construction succeeds for every corpus with one label
    for each image, also when a class has no image; the pools partition the
    corpus by label: the pool of each label 0..9 holds the normalised images
    that carry the label, in their order, and there is no other pool.  A
    class without images gets an empty pool. *)
Theorem init_partitions (num_inputs : Z) (mnist : MNIST) :
  length (mnist_data mnist) = length (mnist_targets mnist) ->
  exists self : MNISTAttentionDataset R,
    MNISTAttentionDataset_init num_inputs mnist = Ok self /\
    ds_num_inputs self = num_inputs /\
    ds_mnist self = mnist /\
    (forall label, (0 <= label < 10)%Z ->
       ds_data self !! label = Some (class_pool mnist label)) /\
    (forall label, ~ (0 <= label < 10)%Z -> ds_data self !! label = None) /\
    (forall label img',
       img' ∈ class_pool mnist label <->
       exists i img,
         mnist_data mnist !! i = Some img /\
         mnist_targets mnist !! i = Some label /\
         img' = normalise img) /\
    (forall label,
       length (class_pool mnist label)
       = length (filter (fun t => t = label) (mnist_targets mnist))).
Proof.
  intros Hlen.
  destruct (collect_ok mnist (seqZ 0 10) ∅ Hlen) as (data' & Hc & _).
  assert (Hinit : MNISTAttentionDataset_init num_inputs mnist
                  = Ok (mkDataset num_inputs mnist data')).
  { unfold MNISTAttentionDataset_init. by rewrite Hc. }
  exists (mkDataset num_inputs mnist data').
  destruct (init_inv _ _ _ Hinit) as (_ & Hn & Hm & Hl).
  split; [done |]. split; [done |]. split; [done |].
  split; [| split; [| split]].
  - intros label Hlabel. by rewrite Hl, decide_True.
  - intros label Hlabel. by rewrite Hl, decide_False.
  - apply elem_of_class_pool.
  - intros label. unfold class_pool.
    rewrite length_fmap. by apply length_masked_label.
Qed.

(** ** Indexing *)

Lemma tensor_index_range {A : Type} (t : list A) (i : Z) :
  (0 <= i < Z.of_nat (length t))%Z ->
  exists a, tensor_index t i = Ok a /\ t !! Z.to_nat i = Some a.
Proof.
  intros Hi. unfold tensor_index.
  destruct (Z.ltb_spec i 0) as [?|_]; [lia |].
  destruct (Z.leb_spec 0 i) as [_|?]; [| lia].
  destruct (Z.ltb_spec i (Z.of_nat (length t))) as [_|?]; [| lia].
  destruct (lookup_lt_is_Some_2 t (Z.to_nat i)) as [a Ha]; [lia |].
  exists a. by rewrite Ha.
Qed.

Lemma tensor_index_Ok {A : Type} (t : list A) (i : Z) (a : A) :
  tensor_index t i = Ok a -> a ∈ t.
Proof.
  unfold tensor_index.
  destruct (_ && _); [| done].
  destruct (t !! _) as [a'|] eqn:Ha; [| done].
  intros [= <-]. by eapply list_elem_of_lookup_2.
Qed.

Lemma tensor_index_Raise {A : Type} (t : list A) (i : Z) (e : exn) :
  tensor_index t i = Raise e -> e = IndexError.
Proof.
  unfold tensor_index.
  destruct (_ && _); [| congruence].
  destruct (t !! _); [done | congruence].
Qed.

(** Two tensors of one length are indexed by the same integers. *)
Lemma tensor_index_same_length {A B : Type} (t : list A) (t' : list B)
    (i : Z) (a : A) :
  length t = length t' -> tensor_index t i = Ok a ->
  exists b, tensor_index t' i = Ok b.
Proof.
  unfold tensor_index. intros Hlen. rewrite <- Hlen.
  set (i' := if (i <? 0)%Z then (i + Z.of_nat (length t))%Z else i).
  destruct (_ && _) eqn:Hi; [| done]. intros _.
  apply andb_true_iff in Hi as [?%Z.leb_le ?%Z.ltb_lt].
  destruct (lookup_lt_is_Some_2 t' (Z.to_nat i')) as [b Hb]; [lia |].
  exists b. by rewrite Hb.
Qed.

(** ** The classes of the distractors *)

Lemma elem_of_distractor_classes (c cls : Z) :
  cls ∈ distractor_classes c <->
  (0 <= cls < 10)%Z /\ cls <> ((c + 1) mod 10)%Z.
Proof.
  unfold distractor_classes. rewrite list_elem_of_filter.
  rewrite !elem_of_cons, elem_of_nil. lia.
Qed.

Lemma NoDup_distractor_classes (c : Z) : NoDup (distractor_classes c).
Proof. apply NoDup_filter, (NoDup_seqZ 0 10). Qed.

Lemma length_distractor_classes (c : Z) : length (distractor_classes c) = 9.
Proof.
  unfold distractor_classes.
  assert (Hs : (0 <= (c + 1) mod 10 < 10)%Z) by (apply Z.mod_pos_bound; lia).
  destruct (Z.eq_dec ((c + 1) mod 10) 0) as [->|?]; [done |].
  destruct (Z.eq_dec ((c + 1) mod 10) 1) as [->|?]; [done |].
  destruct (Z.eq_dec ((c + 1) mod 10) 2) as [->|?]; [done |].
  destruct (Z.eq_dec ((c + 1) mod 10) 3) as [->|?]; [done |].
  destruct (Z.eq_dec ((c + 1) mod 10) 4) as [->|?]; [done |].
  destruct (Z.eq_dec ((c + 1) mod 10) 5) as [->|?]; [done |].
  destruct (Z.eq_dec ((c + 1) mod 10) 6) as [->|?]; [done |].
  destruct (Z.eq_dec ((c + 1) mod 10) 7) as [->|?]; [done |].
  destruct (Z.eq_dec ((c + 1) mod 10) 8) as [->|?]; [done |].
  destruct (Z.eq_dec ((c + 1) mod 10) 9) as [->|?]; [done |].
  lia.
Qed.

(** ** The array of the candidates *)

Lemma broadcast_row_784 (values : list R) :
  length values = 784 -> broadcast_row values = Ok values.
Proof. intros Hlen. unfold broadcast_row. by rewrite Hlen. Qed.

Lemma broadcast_row_Ok (values row : list R) :
  broadcast_row values = Ok row -> length row = 784.
Proof.
  unfold broadcast_row.
  destruct (Nat.eqb_spec (length values) 784) as [Hlen|_].
  - by intros [= <-].
  - destruct values as [|v [|? ?]]; [done | | done].
    intros Heq. replace row with (replicate 784 v) by congruence.
    apply length_replicate.
Qed.

Lemma broadcast_row_Raise (values : list R) (e : exn) :
  broadcast_row values = Raise e -> e = ValueError.
Proof.
  unfold broadcast_row. destruct (_ =? _); [done |].
  destruct values as [|v [|? ?]]; congruence.
Qed.

(** An assignment to a row of the array. *)
Lemma set_row_in (inputs : list (list R)) (j : Z) (values : list R) :
  (0 <= j < Z.of_nat (length inputs))%Z ->
  set_row inputs j values
  = (row ← broadcast_row values; Ok (<[Z.to_nat j := row]> inputs)).
Proof.
  intros Hj. unfold set_row.
  destruct (Z.ltb_spec j 0) as [?|_]; [lia |].
  destruct (Z.leb_spec 0 j) as [_|?]; [| lia].
  by destruct (Z.ltb_spec j (Z.of_nat (length inputs))) as [_|?]; [| lia].
Qed.

Lemma set_row_Ok (inputs inputs' : list (list R)) (j : Z) (values : list R) :
  (0 <= j < Z.of_nat (length inputs))%Z ->
  set_row inputs j values = Ok inputs' ->
  exists row,
    broadcast_row values = Ok row /\
    inputs' = <[Z.to_nat j := row]> inputs.
Proof.
  intros Hj. rewrite set_row_in by done.
  destruct (broadcast_row values) as [row|e]; [| done].
  intros [= <-]. eauto.
Qed.

Lemma set_row_Raise (inputs : list (list R)) (j : Z) (values : list R)
    (e : exn) :
  (0 <= j < Z.of_nat (length inputs))%Z ->
  set_row inputs j values = Raise e ->
  e = ValueError /\ broadcast_row values = Raise ValueError.
Proof.
  intros Hj. rewrite set_row_in by done.
  destruct (broadcast_row values) as [row|e'] eqn:Hb; [done |].
  intros [= <-]. apply broadcast_row_Raise in Hb as Heq. by subst e'.
Qed.

(** A row that comes from an image of 784 pixels is the flattened image. *)
Lemma stored_rows_784 (self : MNISTAttentionDataset R) (label : Z)
    (row : list R) :
  (forall values, values ∈ pool_rows self label -> length values = 784) ->
  stored_rows self label row -> row ∈ pool_rows self label.
Proof.
  intros Hlen (values & Hin & Hb).
  rewrite broadcast_row_784 in Hb by (by apply Hlen).
  by injection Hb as <-.
Qed.

(** ** One row *)

Lemma outcome_draw_row (self : MNISTAttentionDataset R) (j : Z)
    (inputs : list (list R)) (cls : Z) (r : result (Z * list (list R))) :
  (0 <= j < Z.of_nat (length inputs))%Z ->
  outcome (draw_row self j inputs cls) r ->
  match r with
  | Ok ci =>
      ci.1 = cls /\
      exists row,
        stored_rows self cls row /\ ci.2 = <[Z.to_nat j := row]> inputs
  | Raise e => (ds_data self !! cls = None /\ e = KeyError) \/ e = ValueError
  end.
Proof.
  intros Hj. unfold draw_row, pool_of, stored_rows, pool_rows.
  destruct (ds_data self !! cls) as [pool|] eqn:Hpool.
  2:{ rewrite bind_Done_Raise. intros ->%outcome_Done. by left. }
  rewrite bind_Done_Ok.
  intros [(idx & Hidx & Hr)|(e & He & ->)]%outcome_bind.
  - apply outcome_randint in Hidx as [[_ (v & Hv & [= ->])]|[_ ?]]; [| done].
    destruct (tensor_index_range pool v) as (img & Himg & Hl); [lia |].
    rewrite Himg, bind_Done_Ok in Hr.
    destruct (set_row inputs j (concat img)) as [inputs'|e] eqn:Hset.
    + rewrite bind_Done_Ok in Hr. apply outcome_Done in Hr as ->.
      apply set_row_Ok in Hset as (row & Hb & ->); [| done].
      split; [done |]. exists row. split; [| done].
      exists (concat img). split; [| done]. simpl.
      apply list_elem_of_fmap. exists img. split; [done |].
      by eapply list_elem_of_lookup_2.
    + rewrite bind_Done_Raise in Hr. apply outcome_Done in Hr as ->.
      apply set_row_Raise in Hset as [-> _]; [by right | done].
  - apply randint_raises in He as ->. by right.
Qed.

(** The pool of a class that [full_pools] speaks of gives a row on every
    run. *)
Lemma draw_row_returns (self : MNISTAttentionDataset R) (j : Z)
    (inputs : list (list R)) (cls : Z) (r : result (Z * list (list R))) :
  full_pools self -> (0 <= cls < 10)%Z ->
  (0 <= j < Z.of_nat (length inputs))%Z ->
  outcome (draw_row self j inputs cls) r -> exists ci, r = Ok ci.
Proof.
  intros Hfull Hcls Hj. destruct (Hfull cls Hcls) as (pool & Hpool & Hne & Hmax & H784).
  unfold draw_row, pool_of. rewrite Hpool, bind_Done_Ok.
  intros [(idx & Hidx & Hr)|(e & He & ->)]%outcome_bind.
  - apply outcome_randint in Hidx as [[_ (v & Hv & [= ->])]|[_ ?]]; [| done].
    destruct (tensor_index_range pool v) as (img & Himg & Hl); [lia |].
    rewrite Himg, bind_Done_Ok in Hr.
    rewrite set_row_in, broadcast_row_784 in Hr; [| | done].
    + apply outcome_Done in Hr as ->. eauto.
    + rewrite Forall_lookup in H784. by eapply H784.
  - apply outcome_randint in He as [[_ (v & _ & ?)]|[Hno _]]; [done |].
    destruct Hno. destruct pool; [done |]. simpl length in *. lia.
Qed.

Lemma proper_draw_row (self : MNISTAttentionDataset R) (j : Z)
    (inputs : list (list R)) (cls : Z) :
  proper (draw_row self j inputs cls).
Proof.
  unfold draw_row.
  destruct (pool_of self cls) as [pool|e]; [| done].
  rewrite bind_Done_Ok. apply proper_bind; [apply proper_randint |].
  intros idx _. destruct (tensor_index pool idx) as [img|e]; [| done].
  rewrite bind_Done_Ok. by destruct (set_row inputs j (concat img)).
Qed.

Lemma proper_candidate_traced (self : MNISTAttentionDataset R) (c cp j : Z)
    (inputs : list (list R)) :
  proper (candidate_traced self c cp j inputs).
Proof.
  unfold candidate_traced. destruct (bool_decide (j = cp)).
  - apply proper_draw_row.
  - apply proper_bind; [apply proper_choice |].
    intros cls _. apply proper_draw_row.
Qed.

Lemma distractor_classes_ne_nil (c : Z) : distractor_classes c <> [].
Proof.
  intros Hnil. pose proof (length_distractor_classes c) as Hlen.
  by rewrite Hnil in Hlen.
Qed.

(** What the loop body can do at position [j]: it stores a row that comes
    from the pool of a class, the class being the successor class at the
    correct position and one of the nine others elsewhere; and how it can
    fail. *)
Lemma outcome_candidate_traced (self : MNISTAttentionDataset R) (c cp j : Z)
    (inputs : list (list R)) (r : result (Z * list (list R))) :
  (0 <= j < Z.of_nat (length inputs))%Z ->
  outcome (candidate_traced self c cp j inputs) r ->
  exists cls,
    (if bool_decide (j = cp) then cls = ((c + 1) mod 10)%Z
     else cls ∈ distractor_classes c) /\
    match r with
    | Ok ci =>
        ci.1 = cls /\
        exists row,
          stored_rows self cls row /\ ci.2 = <[Z.to_nat j := row]> inputs
    | Raise e =>
        (ds_data self !! cls = None /\ e = KeyError) \/ e = ValueError
    end.
Proof.
  intros Hj. unfold candidate_traced. destruct (bool_decide (j = cp)).
  - intros Hr%outcome_draw_row; [eauto | done].
  - intros [(cls & Hcls & Hr)|(e & He & ->)]%outcome_bind.
    + apply outcome_choice in Hcls as [(v & Hv & [= ->])|[_ ?]]; [| done].
      apply outcome_draw_row in Hr; [eauto | done].
    + apply outcome_choice in He as [(v & _ & ?)|[Hnil _]]; [done |].
      by apply distractor_classes_ne_nil in Hnil.
Qed.

(** The class at a position is one of the ten classes. *)
Lemma candidate_class_range (c cp j cls : Z) :
  (if bool_decide (j = cp) then cls = ((c + 1) mod 10)%Z
   else cls ∈ distractor_classes c) ->
  (0 <= cls < 10)%Z.
Proof.
  destruct (bool_decide (j = cp)).
  - intros ->. apply Z.mod_pos_bound. lia.
  - by intros [? _]%elem_of_distractor_classes.
Qed.

Lemma candidate_traced_returns (self : MNISTAttentionDataset R) (c cp j : Z)
    (inputs : list (list R)) (r : result (Z * list (list R))) :
  full_pools self ->
  (0 <= j < Z.of_nat (length inputs))%Z ->
  outcome (candidate_traced self c cp j inputs) r -> exists ci, r = Ok ci.
Proof.
  intros Hfull Hj. unfold candidate_traced.
  destruct (bool_decide (j = cp)).
  - apply draw_row_returns; [done | | done]. apply Z.mod_pos_bound. lia.
  - intros [(cls & Hcls & Hr)|(e & He & ->)]%outcome_bind.
    + apply outcome_choice in Hcls as [(v & Hv & [= ->])|[_ ?]]; [| done].
      apply draw_row_returns in Hr; [done.. | | done].
      by apply elem_of_distractor_classes in Hv as [? _].
    + apply outcome_choice in He as [(v & _ & ?)|[Hnil _]]; [done |].
      by apply distractor_classes_ne_nil in Hnil.
Qed.

(** ** The loop *)

(** The loop stores one row at every position it goes through and leaves
    the other rows of the array as they are. *)
Lemma outcome_candidates_traced (self : MNISTAttentionDataset R) (c cp : Z)
    (js : list Z) (inputs inputs' : list (list R)) (cs : list Z) :
  NoDup js ->
  Forall (fun j => (0 <= j < Z.of_nat (length inputs))%Z) js ->
  outcome (candidates_traced self c cp js inputs) (Ok (cs, inputs')) ->
  length inputs' = length inputs /\
  Forall2 (fun j cls =>
             (if bool_decide (j = cp) then cls = ((c + 1) mod 10)%Z
              else cls ∈ distractor_classes c) /\
             exists row,
               inputs' !! Z.to_nat j = Some row /\ stored_rows self cls row)
          js cs /\
  (forall i, Z.of_nat i ∉ js -> inputs' !! i = inputs !! i).
Proof.
  intros Hnd. revert inputs inputs' cs.
  induction Hnd as [|j js Hj _ IH]; intros inputs inputs' cs Hjs;
    cbn [candidates_traced].
  - intros [= -> ->]%outcome_Done. split; [done |]. split; [constructor | done].
  - apply Forall_cons in Hjs as [Hj0 Hjs].
    intros [(ci & Hci & Hr)|(e & _ & ?)]%outcome_bind; [| done].
    apply outcome_bind in Hr as [(rest & Hrest & Hr)|(e & _ & ?)]; [| done].
    apply outcome_Done in Hr as [= -> ->].
    apply outcome_candidate_traced in Hci
      as (cls & Hcls & <- & row & Hrow & Hci); [| done].
    destruct rest as [cs' inputs'']. cbn [fst snd].
    apply IH in Hrest as (Hlen & Hall & Hframe).
    2:{ rewrite Hci, length_insert. done. }
    rewrite Hci, length_insert in Hlen.
    split; [done |]. split.
    + constructor; [| done]. split; [done |]. exists row. split; [| done].
      rewrite Hframe by (by rewrite Z2Nat.id by lia).
      rewrite Hci. apply list_lookup_insert_eq. lia.
    + intros i Hi. apply not_elem_of_cons in Hi as [Hij Hi].
      rewrite Hframe, Hci by done.
      apply list_lookup_insert_ne. lia.
Qed.

Lemma candidates_traced_length (self : MNISTAttentionDataset R) (c cp j : Z)
    (inputs : list (list R)) (ci : Z * list (list R)) :
  (0 <= j < Z.of_nat (length inputs))%Z ->
  outcome (candidate_traced self c cp j inputs) (Ok ci) ->
  length ci.2 = length inputs.
Proof.
  intros Hj (cls & _ & _ & row & _ & ->)%outcome_candidate_traced; [| done].
  apply length_insert.
Qed.

(** ** The traced loop and the loop of the source draw alike *)

Lemma erases_candidate (self : MNISTAttentionDataset R) (c cp j : Z)
    (inputs : list (list R)) :
  erases snd (candidate_traced self c cp j inputs)
    (candidate self c cp j inputs).
Proof.
  assert (Hrow : forall cls,
            erases snd (draw_row self j inputs cls)
              (pool ← Done (pool_of self cls);
               idx ← randint 0 (Z.of_nat (length pool));
               img ← Done (tensor_index pool idx);
               Done (set_row inputs j (concat img)))).
  { intros cls. unfold draw_row.
    apply (erases_bind (fun a => a)); [apply erases_refl |]. intros pool.
    apply (erases_bind (fun a => a)); [apply erases_refl |]. intros idx.
    apply (erases_bind (fun a => a)); [apply erases_refl |]. intros img.
    apply (erases_bind_ret (fun a => a)); [apply erases_refl | done]. }
  unfold candidate_traced, candidate. destruct (bool_decide (j = cp)).
  - apply Hrow.
  - apply (erases_bind (fun a => a)); [apply erases_refl |]. intros cls.
    apply Hrow.
Qed.

Lemma erases_candidates (self : MNISTAttentionDataset R) (c cp : Z)
    (js : list Z) (inputs : list (list R)) :
  erases snd (candidates_traced self c cp js inputs)
    (candidates self c cp js inputs).
Proof.
  revert inputs. induction js as [|j js IH]; intros inputs;
    cbn [candidates_traced candidates].
  - exact (erases_ok snd ([], inputs)).
  - apply (erases_bind snd); [apply erases_candidate |]. intros ci.
    apply (erases_bind_ret snd); [apply IH | done].
Qed.

Lemma erases_getitem (self : MNISTAttentionDataset R) (idx : Z) :
  erases fst (getitem_traced self idx) (MNISTAttentionDataset_getitem self idx).
Proof.
  unfold getitem_traced, MNISTAttentionDataset_getitem.
  apply (erases_bind (fun a => a)); [apply erases_refl |]. intros c.
  apply (erases_bind (fun a => a)); [apply erases_refl |]. intros img.
  apply (erases_bind (fun a => a)); [apply erases_refl |]. intros cp.
  apply (erases_bind (fun a => a)); [apply erases_refl |]. intros inputs.
  apply (erases_bind snd); [apply erases_candidates |]. intros rest.
  exact (erases_ok fst (_, _)).
Qed.

(** ** One sample *)

Lemma proper_candidates_traced (self : MNISTAttentionDataset R) (c cp : Z)
    (js : list Z) (inputs : list (list R)) :
  proper (candidates_traced self c cp js inputs).
Proof.
  revert inputs. induction js as [|j js IH]; intros inputs; simpl; [done |].
  apply proper_bind; [apply proper_candidate_traced |]. intros ci _.
  by apply proper_bind.
Qed.

Lemma proper_getitem_traced (self : MNISTAttentionDataset R) (idx : Z) :
  proper (getitem_traced self idx).
Proof.
  unfold getitem_traced.
  destruct (tensor_index (mnist_targets _) idx) as [c|e]; [| done].
  rewrite bind_Done_Ok.
  destruct (tensor_index (mnist_data _) idx) as [img|e]; [| done].
  rewrite bind_Done_Ok.
  apply proper_bind; [apply proper_randint |]. intros cp _.
  destruct (np_zeros _ _) as [inputs|e]; [| done]. rewrite bind_Done_Ok.
  apply proper_bind; [apply proper_candidates_traced | done].
Qed.

(** The array of zeros is built when it has fewer than 2^63 bytes. *)
Lemma np_zeros_cases (n : Z) :
  (0 <= n)%Z ->
  np_zeros (R:=R) n 784
  = if (8 * (n * 784) <? 2 ^ 63)%Z then Ok (zeros_array n)
    else Raise ValueError.
Proof.
  intros Hn. unfold np_zeros, zeros_array.
  destruct (Z.ltb_spec n 0) as [?|_]; [lia |]. cbn [orb].
  change (Z.of_nat 784) with 784%Z.
  destruct (Z.leb_spec (2 ^ 63) (8 * (n * 784))),
    (Z.ltb_spec (8 * (n * 784)) (2 ^ 63)); (done || lia).
Qed.

(** What [getitem_traced] is once the query has been read. *)
Lemma getitem_traced_unfold (self : MNISTAttentionDataset R) (idx c : Z)
    (img : list (list Z)) :
  tensor_index (mnist_targets (ds_mnist self)) idx = Ok c ->
  tensor_index (mnist_data (ds_mnist self)) idx = Ok img ->
  getitem_traced self idx
  = (correct_pos ← randint 0 (ds_num_inputs self);
     if (8 * (ds_num_inputs self * 784) <? 2 ^ 63)%Z then
       rest ← candidates_traced self c correct_pos
                 (seqZ 0 (ds_num_inputs self))
                 (zeros_array (ds_num_inputs self));
       mret (mkSample rest.2 (s_pixel <$> concat img) correct_pos, rest.1)
     else Done (Raise ValueError)).
Proof.
  intros Hc Himg. unfold getitem_traced. rewrite Hc, Himg, !bind_Done_Ok.
  destruct (Z.lt_ge_cases (ds_num_inputs self) 0) as [Hneg|Hpos].
  - unfold randint.
    by destruct (Z.ltb_spec 0 (ds_num_inputs self)) as [?|_]; [lia |].
  - rewrite np_zeros_cases by done.
    by destruct (8 * (ds_num_inputs self * 784) <? 2 ^ 63)%Z.
Qed.

Lemma length_zeros_array (n : Z) : length (zeros_array n) = Z.to_nat n.
Proof. apply length_replicate. Qed.

(** The positions of the loop are rows of the array. *)
Lemma seqZ_rows (n : Z) :
  Forall (fun j => (0 <= j < Z.of_nat (length (zeros_array n)))%Z) (seqZ 0 n).
Proof.
  apply Forall_forall. intros j Hj%elem_of_seqZ.
  rewrite length_zeros_array. lia.
Qed.

Lemma outcome_getitem_traced (self : MNISTAttentionDataset R) (idx : Z)
    (s : Sample R) (cs : list Z) :
  outcome (getitem_traced self idx) (Ok (s, cs)) ->
  exists c,
    tensor_index (mnist_targets (ds_mnist self)) idx = Ok c /\
    (0 <= sample_y s < ds_num_inputs self)%Z /\
    length (sample_x s) = Z.to_nat (ds_num_inputs self) /\
    length cs = Z.to_nat (ds_num_inputs self) /\
    forall i, i < Z.to_nat (ds_num_inputs self) ->
      exists row cls,
        sample_x s !! i = Some row /\ cs !! i = Some cls /\
        stored_rows self cls row /\
        if bool_decide (Z.of_nat i = sample_y s)
        then cls = ((c + 1) mod 10)%Z
        else cls ∈ distractor_classes c.
Proof.
  destruct (tensor_index (mnist_targets (ds_mnist self)) idx) as [c|e] eqn:Hc.
  2:{ unfold getitem_traced. rewrite Hc. by intros ?%outcome_Done. }
  destruct (tensor_index (mnist_data (ds_mnist self)) idx) as [img|e] eqn:Himg.
  2:{ unfold getitem_traced. rewrite Hc, Himg. by intros ?%outcome_Done. }
  rewrite (getitem_traced_unfold self idx c img) by done.
  intros [(cp & Hcp & Hr)|(e & _ & ?)]%outcome_bind; [| done].
  apply outcome_randint in Hcp as [[_ (v & Hv & [= ->])]|[_ ?]]; [| done].
  destruct (8 * (ds_num_inputs self * 784) <? 2 ^ 63)%Z;
    [| by apply outcome_Done in Hr].
  apply outcome_bind in Hr as [([cs' inputs'] & Hrows & Hr)|(e & _ & ?)];
    [| done].
  apply outcome_Done in Hr as [= -> ->].
  apply outcome_candidates_traced in Hrows as (Hlen & Hall & _);
    [| apply NoDup_seqZ | apply seqZ_rows].
  rewrite length_zeros_array in Hlen.
  pose proof (Forall2_length _ _ _ Hall) as Hcs.
  rewrite length_seqZ in Hcs.
  exists c. cbn [sample_x sample_y fst snd].
  split; [done |]. split; [lia |]. split; [done |]. split; [done |].
  intros i Hi.
  destruct (Forall2_lookup_l _ _ _ i (0 + Z.of_nat i)%Z Hall)
    as (cls & Hl & Hcls & row & Hrow & Hstored);
    [apply lookup_seqZ_lt; lia |].
  exists row, cls. rewrite Z.add_0_l, Nat2Z.id in *. done.
Qed.

(** With a pool for every class, as [full_pools] says, the loop raises
    nothing. *)
Lemma candidates_traced_returns (self : MNISTAttentionDataset R) (c cp : Z)
    (js : list Z) (inputs : list (list R))
    (r : result (list Z * list (list R))) :
  full_pools self ->
  Forall (fun j => (0 <= j < Z.of_nat (length inputs))%Z) js ->
  outcome (candidates_traced self c cp js inputs) r -> exists rest, r = Ok rest.
Proof.
  intros Hfull. revert inputs r.
  induction js as [|j js IH]; intros inputs r Hjs; cbn [candidates_traced].
  - intros ->%outcome_Done. eauto.
  - apply Forall_cons in Hjs as [Hj Hjs].
    intros [(ci & Hci & Hr)|(e & He & ->)]%outcome_bind.
    + pose proof (candidates_traced_length _ _ _ _ _ _ Hj Hci) as Hlen.
      apply outcome_bind in Hr as [(rest & _ & ->%outcome_Done)|(e & He & ->)];
        [eauto |].
      apply IH in He as (rest & ?); [done |]. by rewrite Hlen.
    + by apply candidate_traced_returns in He as (ci & ?).
Qed.

(** What the traced loop can raise when every class 0..9 has a pool. *)
Lemma candidates_traced_raises (self : MNISTAttentionDataset R) (c cp : Z)
    (js : list Z) (inputs : list (list R)) (e : exn) :
  (forall label, (0 <= label < 10)%Z -> is_Some (ds_data self !! label)) ->
  Forall (fun j => (0 <= j < Z.of_nat (length inputs))%Z) js ->
  outcome (candidates_traced self c cp js inputs) (Raise e) -> e = ValueError.
Proof.
  intros Hpools. revert inputs.
  induction js as [|j js IH]; intros inputs Hjs; cbn [candidates_traced].
  - by intros ?%outcome_Done.
  - apply Forall_cons in Hjs as [Hj Hjs].
    intros [(ci & Hci & Hr)|(e' & He & [= ->])]%outcome_bind.
    + pose proof (candidates_traced_length _ _ _ _ _ _ Hj Hci) as Hlen.
      apply outcome_bind in Hr
        as [(rest & _ & ?%outcome_Done)|(e' & He & [= ->])]; [done |].
      apply IH in He; [done |]. by rewrite Hlen.
    + apply outcome_candidate_traced in He as (cls & Hcls & He); [| done].
      apply candidate_class_range in Hcls.
      destruct (Hpools cls Hcls) as (pool & Hpool).
      destruct He as [[He _]| ->]; [congruence | done].
Qed.

(** With an empty pool for the successor class, a loop that reaches the
    correct position raises [ValueError], there or before. *)
Lemma candidates_traced_empty_pool (self : MNISTAttentionDataset R) (c cp : Z)
    (js : list Z) (inputs : list (list R))
    (r : result (list Z * list (list R))) :
  (forall label, (0 <= label < 10)%Z -> is_Some (ds_data self !! label)) ->
  ds_data self !! ((c + 1) mod 10)%Z = Some [] ->
  cp ∈ js ->
  Forall (fun j => (0 <= j < Z.of_nat (length inputs))%Z) js ->
  outcome (candidates_traced self c cp js inputs) r -> r = Raise ValueError.
Proof.
  intros Hpools Hempty. revert inputs r.
  induction js as [|j js IH]; intros inputs r Hcp Hjs;
    [by apply elem_of_nil in Hcp |].
  apply Forall_cons in Hjs as [Hj Hjs]. destruct r as [rest|e].
  2:{ intros ->%candidates_traced_raises; [done.. |]. by constructor. }
  cbn [candidates_traced].
  intros [(ci & Hci & Hr)|(e & _ & ?)]%outcome_bind; [| done].
  pose proof (candidates_traced_length _ _ _ _ _ _ Hj Hci) as Hlen.
  apply outcome_candidate_traced in Hci as (cls & Hcls & _ & row & Hrow & _);
    [| done].
  destruct (bool_decide_reflect (j = cp)) as [->|Hne].
  { subst cls. destruct Hrow as (values & Hin & _).
    unfold pool_rows in Hin. rewrite Hempty in Hin.
    by apply elem_of_nil in Hin. }
  apply elem_of_cons in Hcp as [->|Hcp]; [done |].
  apply outcome_bind in Hr as [(rest' & Hrest & _)|(e & _ & ?)]; [| done].
  apply IH in Hrest; [done.. |]. by rewrite Hlen.
Qed.

(** With an empty pool for the successor class of the query, every run of
    [__getitem__] ends with [ValueError]. *)
Lemma getitem_empty_pool_outcome (num_inputs : Z) (mnist : MNIST)
    (self : MNISTAttentionDataset R) (idx c : Z) (r : result (Sample R)) :
  MNISTAttentionDataset_init num_inputs mnist = Ok self ->
  tensor_index (mnist_targets mnist) idx = Ok c ->
  class_pool mnist ((c + 1) mod 10)%Z = [] ->
  outcome (MNISTAttentionDataset_getitem self idx) r ->
  r = Raise ValueError.
Proof.
  intros (Hlen & Hn & Hm & Hdata)%init_inv Hc Hempty.
  assert (Hs : (0 <= (c + 1) mod 10 < 10)%Z) by (apply Z.mod_pos_bound; lia).
  destruct (tensor_index_same_length _ (mnist_data mnist) idx c
              (eq_sym Hlen) Hc) as (img & Himg).
  assert (Htraced : forall r0, outcome (getitem_traced self idx) r0 ->
                               r0 = Raise ValueError).
  { intros r0. rewrite (getitem_traced_unfold self idx c img)
      by (by rewrite Hm).
    intros [(cp & Hcp & Hr)|(e & He & ->)]%outcome_bind.
    - apply outcome_randint in Hcp as [[_ (v & Hv & [= ->])]|[_ ?]]; [| done].
      assert (Hloop : forall r1,
                outcome (candidates_traced self c v
                           (seqZ 0 (ds_num_inputs self))
                           (zeros_array (ds_num_inputs self))) r1 ->
                r1 = Raise ValueError).
      { intros r1. apply candidates_traced_empty_pool.
        - intros label Hlabel. rewrite Hdata, decide_True by done. eauto.
        - by rewrite Hdata, decide_True, Hempty.
        - apply elem_of_seqZ. lia.
        - apply seqZ_rows. }
      destruct (8 * (ds_num_inputs self * 784) <? 2 ^ 63)%Z;
        [| by apply outcome_Done in Hr].
      apply outcome_bind in Hr as [(rest & Hrest & _)|(e & He & ->)].
      + by apply Hloop in Hrest.
      + by apply Hloop in He as [= ->].
    - by apply randint_raises in He as ->. }
  intros (r0 & Hr0 & ->)%(erases_outcome _ _ _ _ (erases_getitem self idx)).
  by rewrite (Htraced r0 Hr0).
Qed.

Lemma proper_getitem (self : MNISTAttentionDataset R) (idx : Z) :
  proper (MNISTAttentionDataset_getitem self idx).
Proof.
  unfold MNISTAttentionDataset_getitem.
  destruct (tensor_index (mnist_targets _) idx) as [c|e]; [| done].
  rewrite bind_Done_Ok.
  destruct (tensor_index (mnist_data _) idx) as [img|e]; [| done].
  rewrite bind_Done_Ok.
  apply proper_bind; [apply proper_randint |]. intros cp _.
  destruct (np_zeros _ _) as [inputs|e]; [| done]. rewrite bind_Done_Ok.
  apply proper_bind; [| done].
  generalize (seqZ 0 (ds_num_inputs self)). intros js. revert inputs.
  induction js as [|j js IH]; intros inputs; simpl; [done |].
  apply proper_bind; [| intros row _; apply IH].
  assert (Hrow : forall cls,
            proper (pool ← Done (pool_of self cls);
                    idx ← randint 0 (Z.of_nat (length pool));
                    img ← Done (tensor_index pool idx);
                    Done (set_row inputs j (concat img)))).
  { intros cls. destruct (pool_of self cls) as [pool|e]; [| done].
    rewrite bind_Done_Ok. apply proper_bind; [apply proper_randint |].
    intros i _. by destruct (tensor_index pool i). }
  unfold candidate. destruct (bool_decide (j = cp)); [apply Hrow |].
  apply proper_bind; [apply proper_choice |]. intros cls _. apply Hrow.
Qed.

(** C5 (as amended).  When the pool of the successor class of the query is
    empty, [__getitem__] returns no sample: every run ends with the
    [ValueError] that the random integer draw raises on an empty range, and
    so with probability 1. *)
Theorem getitem_empty_successor_pool (num_inputs : Z) (mnist : MNIST)
    (self : MNISTAttentionDataset R) (idx c : Z) :
  MNISTAttentionDataset_init num_inputs mnist = Ok self ->
  tensor_index (mnist_targets mnist) idx = Ok c ->
  class_pool mnist ((c + 1) mod 10)%Z = [] ->
  (forall r, outcome (MNISTAttentionDataset_getitem self idx) r ->
             r = Raise ValueError) /\
  Pr (raises ValueError) (MNISTAttentionDataset_getitem self idx) = 1%Qc.
Proof.
  intros Hinit Hc Hempty.
  assert (Hout : forall r, outcome (MNISTAttentionDataset_getitem self idx) r ->
                           r = Raise ValueError).
  { intros r. by eapply getitem_empty_pool_outcome. }
  split; [done |].
  apply Pr_all; [apply proper_getitem |].
  intros r ->%Hout. done.
Qed.

(** ** How the classes are drawn *)

Lemma Pr_draw_row (self : MNISTAttentionDataset R) (j : Z)
    (inputs : list (list R)) (cls c0 : Z) :
  full_pools self -> (0 <= cls < 10)%Z ->
  (0 <= j < Z.of_nat (length inputs))%Z ->
  Pr (returns (fun ci => bool_decide (ci.1 = c0))) (draw_row self j inputs cls)
  = if decide (cls = c0) then 1%Qc else 0%Qc.
Proof.
  intros Hfull Hcls Hj.
  assert (Hout : forall r, outcome (draw_row self j inputs cls) r ->
                           exists ci, r = Ok ci /\ ci.1 = cls).
  { intros r Hr.
    destruct (draw_row_returns _ _ _ _ _ Hfull Hcls Hj Hr) as (ci & ->).
    apply outcome_draw_row in Hr as [? _]; [eauto | done]. }
  destruct (decide (cls = c0)) as [Heq|Hne'].
  - apply Pr_all; [apply proper_draw_row |].
    intros r (ci & -> & Hci)%Hout; simpl.
    apply bool_decide_eq_true_2. congruence.
  - apply Pr_none.
    intros r (ci & -> & Hci)%Hout; simpl.
    apply bool_decide_eq_false_2. congruence.
Qed.

(** At the correct position the class is the successor class; at any other
    position each of the nine other classes has probability 1/9. *)
Lemma Pr_candidate_traced (self : MNISTAttentionDataset R) (c cp j c0 : Z)
    (inputs : list (list R)) :
  full_pools self ->
  (0 <= j < Z.of_nat (length inputs))%Z ->
  (if bool_decide (j = cp) then c0 = ((c + 1) mod 10)%Z
   else c0 ∈ distractor_classes c) ->
  Pr (returns (fun ci => bool_decide (ci.1 = c0)))
     (candidate_traced self c cp j inputs)
  = if bool_decide (j = cp) then 1%Qc else (/ Qc_of_Z 9)%Qc.
Proof.
  intros Hfull Hj Hc0. unfold candidate_traced.
  destruct (bool_decide (j = cp)).
  - rewrite Pr_draw_row, decide_True; [done.. | | done].
    subst c0. apply Z.mod_pos_bound. lia.
  - unfold Pr. rewrite Ex_bind, Ex_choice by apply distractor_classes_ne_nil.
    rewrite length_distractor_classes.
    rewrite (Qc_sum_single _ _ c0); [| apply NoDup_distractor_classes | done |].
    + fold (Pr (returns (fun ci : Z * list (list R) => bool_decide (ci.1 = c0)))
               (draw_row self j inputs c0)).
      rewrite Pr_draw_row, decide_True; [| done.. | | done].
      * unfold Qcdiv, Qc_of_nat. change (Z.of_nat 9) with 9%Z. ring.
      * by apply elem_of_distractor_classes in Hc0 as [? _].
    + intros v Hv Hne.
      fold (Pr (returns (fun ci : Z * list (list R) => bool_decide (ci.1 = c0)))
               (draw_row self j inputs v)).
      rewrite Pr_draw_row, decide_False; [done.. | | done].
      by apply elem_of_distractor_classes in Hv as [? _].
Qed.

(** The classes of the rows are drawn independently: the probability of a
    whole assignment of classes is the product over the positions, whatever
    the array holds. *)
Lemma Pr_candidates_traced (self : MNISTAttentionDataset R) (c cp : Z)
    (js cs : list Z) (inputs : list (list R)) :
  full_pools self ->
  Forall (fun j => (0 <= j < Z.of_nat (length inputs))%Z) js ->
  Forall2 (fun j cls => if bool_decide (j = cp) then cls = ((c + 1) mod 10)%Z
                        else cls ∈ distractor_classes c) js cs ->
  Pr (returns (fun rest : list Z * list (list R) => bool_decide (rest.1 = cs)))
     (candidates_traced self c cp js inputs)
  = ((/ Qc_of_Z 9) ^ length (filter (fun j => j <> cp) js))%Qc.
Proof.
  intros Hfull Hjs Hcs. revert inputs Hjs.
  induction Hcs as [|j c0 js cs Hc0 _ IH]; intros inputs Hjs.
  - done.
  - apply Forall_cons in Hjs as [Hj Hjs]. cbn [candidates_traced].
    rewrite (Pr_bind_product _ _ (fun ci rest => (ci.1 :: rest.1, rest.2))
               (fun ci => bool_decide (ci.1 = c0))
               (fun rest => bool_decide (rest.1 = cs)) _
               ((/ Qc_of_Z 9) ^ length (filter (fun j => j <> cp) js))%Qc).
    + rewrite Pr_candidate_traced by done.
      rewrite filter_cons.
      destruct (bool_decide_reflect (j = cp)) as [Hjcp|Hjcp].
      * rewrite decide_False by (by intros ?). ring.
      * rewrite decide_True by done. simpl. ring.
    + intros ci rest. rewrite <- bool_decide_and.
      apply bool_decide_ext. cbn [fst]. split; [by intros [= -> ->] |].
      by intros [-> ->].
    + intros ci Hci. apply IH.
      by rewrite (candidates_traced_length _ _ _ _ _ _ Hj Hci).
Qed.

Lemma length_filter_ne_notin (l : list Z) (p : Z) :
  p ∉ l -> length (filter (fun j => j <> p) l) = length l.
Proof.
  induction l as [|x l IH]; intros Hp; [done |].
  apply not_elem_of_cons in Hp as [Hne Hp].
  rewrite filter_cons, decide_True by done. simpl. by rewrite IH.
Qed.

Lemma length_filter_ne (l : list Z) (p : Z) :
  NoDup l -> p ∈ l -> length (filter (fun j => j <> p) l) = length l - 1.
Proof.
  induction 1 as [|x l Hx _ IH]; intros Hp; [by apply elem_of_nil in Hp |].
  rewrite filter_cons. destruct (decide (x <> p)) as [Hne|Heq].
  - apply elem_of_cons in Hp as [->|Hp]; [done |].
    simpl. rewrite IH by done.
    destruct l; [by apply elem_of_nil in Hp | simpl; lia].
  - assert (x = p) as -> by (by destruct (decide (x = p))).
    rewrite length_filter_ne_notin by done. simpl. lia.
Qed.

(** The correct position and the classes of all rows, jointly. *)
Lemma Pr_getitem_traced (self : MNISTAttentionDataset R) (idx c p : Z)
    (img : list (list Z)) (cs : list Z) :
  full_pools self ->
  (8 * (ds_num_inputs self * 784) < 2 ^ 63)%Z ->
  tensor_index (mnist_targets (ds_mnist self)) idx = Ok c ->
  tensor_index (mnist_data (ds_mnist self)) idx = Ok img ->
  (0 <= p < ds_num_inputs self)%Z ->
  Forall2 (fun j cls => if bool_decide (j = p) then cls = ((c + 1) mod 10)%Z
                        else cls ∈ distractor_classes c)
          (seqZ 0 (ds_num_inputs self)) cs ->
  Pr (returns (fun sc : Sample R * list Z =>
                 bool_decide (sample_y sc.1 = p /\ sc.2 = cs)))
     (getitem_traced self idx)
  = (/ Qc_of_Z (ds_num_inputs self)
     * (/ Qc_of_Z 9) ^ (Z.to_nat (ds_num_inputs self) - 1))%Qc.
Proof.
  intros Hfull Hmax Hc Himg Hp Hcs.
  rewrite (getitem_traced_unfold self idx c img) by done.
  rewrite (proj2 (Z.ltb_lt _ _) Hmax).
  unfold Pr. rewrite Ex_bind, Ex_randint by lia. rewrite Z.sub_0_r.
  rewrite (Qc_sum_single _ _ p);
    [| apply NoDup_seqZ | apply elem_of_seqZ; lia |].
  - rewrite Ex_bind.
    rewrite (Ex_ext _ (fun r => if returns (fun rest : list Z * list (list R) =>
                                              bool_decide (rest.1 = cs)) r
                                then 1%Qc else 0%Qc)).
    + fold (Pr (returns (fun rest : list Z * list (list R) =>
                           bool_decide (rest.1 = cs)))
               (candidates_traced self c p (seqZ 0 (ds_num_inputs self))
                  (zeros_array (ds_num_inputs self)))).
      rewrite Pr_candidates_traced; [| done | apply seqZ_rows | done].
      rewrite length_filter_ne, length_seqZ;
        [| apply NoDup_seqZ | apply elem_of_seqZ; lia].
      unfold Qcdiv. ring.
    + intros [rest|e] _; [| done]. simpl.
      rewrite (bool_decide_ext (p = p /\ rest.1 = cs) (rest.1 = cs)) by tauto.
      done.
  - intros v _ Hv. rewrite Ex_bind.
    rewrite (Ex_ext _ (fun _ => 0 * 0)%Qc); [rewrite Ex_scale; ring |].
    intros [rest|e] _; simpl; [| ring].
    rewrite bool_decide_eq_false_2 by tauto. ring.
Qed.

(** The correct position alone. *)
Lemma Pr_getitem_traced_y (self : MNISTAttentionDataset R) (idx c p : Z)
    (img : list (list Z)) :
  full_pools self ->
  (8 * (ds_num_inputs self * 784) < 2 ^ 63)%Z ->
  tensor_index (mnist_targets (ds_mnist self)) idx = Ok c ->
  tensor_index (mnist_data (ds_mnist self)) idx = Ok img ->
  (0 <= p < ds_num_inputs self)%Z ->
  Pr (returns (fun sc : Sample R * list Z => bool_decide (sample_y sc.1 = p)))
     (getitem_traced self idx)
  = (/ Qc_of_Z (ds_num_inputs self))%Qc.
Proof.
  intros Hfull Hmax Hc Himg Hp.
  rewrite (getitem_traced_unfold self idx c img) by done.
  rewrite (proj2 (Z.ltb_lt _ _) Hmax).
  unfold Pr. rewrite Ex_bind, Ex_randint by lia. rewrite Z.sub_0_r.
  rewrite (Qc_sum_single _ _ p);
    [| apply NoDup_seqZ | apply elem_of_seqZ; lia |].
  - rewrite Ex_bind.
    rewrite (Ex_ext _ (fun _ => 1%Qc)).
    + rewrite Ex_const by apply proper_candidates_traced.
      unfold Qcdiv. ring.
    + intros r (rest & ->)%candidates_traced_returns;
        [| done | apply seqZ_rows]. simpl.
      by rewrite bool_decide_eq_true_2.
  - intros v _ Hv. rewrite Ex_bind.
    rewrite (Ex_ext _ (fun _ => 0 * 0)%Qc); [rewrite Ex_scale; ring |].
    intros [rest|e] _; simpl; [| ring].
    rewrite bool_decide_eq_false_2 by done. ring.
Qed.

(** ** Corpora of 28 x 28 images *)

Lemma length_masked_rows {A : Type} (t : list A) (mask : list bool) :
  length (masked_rows t mask) <= length t.
Proof.
  revert mask. induction t as [|a t IH]; intros [|[] mask]; simpl; try lia.
  - specialize (IH mask). lia.
  - specialize (IH mask). lia.
Qed.

Lemma length_class_pool (mnist : MNIST) (label : Z) :
  length (class_pool (R:=R) mnist label) <= length (mnist_data mnist).
Proof.
  unfold class_pool. rewrite length_fmap. apply length_masked_rows.
Qed.

(** The flattened images of a corpus of 28 x 28 images have 784 pixels. *)
Lemma length_concat_normalise (mnist : MNIST) (label : Z)
    (img : list (list R)) :
  images_28x28 mnist -> img ∈ class_pool mnist label ->
  length (concat img) = 784.
Proof.
  unfold images_28x28. rewrite Forall_forall. intros Himgs.
  intros (k & img0 & Hk & _ & ->)%elem_of_class_pool.
  destruct (Himgs img0 (list_elem_of_lookup_2 _ _ _ Hk)) as [H28 Hrows].
  unfold normalise. rewrite (length_concat_rows 28 28); [done | |].
  - by rewrite length_fmap.
  - apply Forall_fmap. eapply Forall_impl; [exact Hrows |].
    intros r Hlen. simpl. by rewrite length_fmap.
Qed.

Lemma pool_rows_784 (num_inputs : Z) (mnist : MNIST)
    (self : MNISTAttentionDataset R) (label : Z) (values : list R) :
  MNISTAttentionDataset_init num_inputs mnist = Ok self ->
  images_28x28 mnist ->
  values ∈ pool_rows self label -> length values = 784.
Proof.
  intros (_ & _ & _ & Hdata)%init_inv Himgs. unfold pool_rows.
  rewrite Hdata. destruct (decide (0 <= label < 10)%Z); simpl.
  - intros (img & -> & Himg)%list_elem_of_fmap.
    by eapply length_concat_normalise.
  - by intros ?%elem_of_nil.
Qed.

(** In a dataset built from a corpus of 28 x 28 images, a row that the loop
    stores for a class is a flattened image of the pool of the class. *)
Lemma stored_rows_pool (num_inputs : Z) (mnist : MNIST)
    (self : MNISTAttentionDataset R) (label : Z) (row : list R) :
  MNISTAttentionDataset_init num_inputs mnist = Ok self ->
  images_28x28 mnist ->
  stored_rows self label row -> row ∈ pool_rows self label.
Proof.
  intros Hinit Himgs. apply stored_rows_784.
  intros values. by eapply pool_rows_784.
Qed.

Lemma init_full_pools (num_inputs : Z) (mnist : MNIST)
    (self : MNISTAttentionDataset R) :
  MNISTAttentionDataset_init num_inputs mnist = Ok self ->
  images_28x28 mnist ->
  (Z.of_nat (length (mnist_data mnist)) <= 2 ^ 63)%Z ->
  (forall label, (0 <= label < 10)%Z -> class_pool mnist label <> []) ->
  full_pools self.
Proof.
  intros (_ & _ & _ & Hdata)%init_inv Himgs Hmax Hne label Hlabel.
  exists (class_pool mnist label).
  split; [by rewrite Hdata, decide_True |].
  split; [by apply Hne |]. split.
  - pose proof (length_class_pool mnist label). lia.
  - apply Forall_forall. intros img Himg.
    by eapply length_concat_normalise.
Qed.

(** C1.  On a corpus of 28 x 28 images, every sample that [__getitem__]
    returns has its correct index within the N positions, the flattened
    image of an item of the pool of class (c + 1) mod 10 in the row of the
    correct index, and in every other row that of an item of the pool of one
    of the nine other classes.  The traced run returns the same samples with
    the same probabilities, and the class it records for a row is the class
    of the pool the row comes from.  When no pool is empty, the array of
    the N candidates has fewer than 2^63 bytes and the size of the corpus
    is within the range of the random integer draw, the correct index is
    uniform over the N positions, and every assignment of
    classes that puts the successor class at the correct index and one of
    the nine other classes at each other position has probability
    1/N * (1/9)^(N-1): the classes of the distractors are uniform over the
    nine classes and independent of each other, repetitions included. *)
Theorem getitem_sample (num_inputs : Z) (mnist : MNIST)
    (self : MNISTAttentionDataset R) (idx : Z) :
  MNISTAttentionDataset_init num_inputs mnist = Ok self ->
  images_28x28 mnist ->
  (forall s, outcome (MNISTAttentionDataset_getitem self idx) (Ok s) ->
     exists c,
       tensor_index (mnist_targets mnist) idx = Ok c /\
       (0 <= sample_y s < num_inputs)%Z /\
       length (sample_x s) = Z.to_nat num_inputs /\
       (exists row,
          sample_x s !! Z.to_nat (sample_y s) = Some row /\
          row ∈ pool_rows self ((c + 1) mod 10)%Z) /\
       (forall i row,
          sample_x s !! i = Some row -> Z.of_nat i <> sample_y s ->
          exists cls,
            (0 <= cls < 10)%Z /\ cls <> ((c + 1) mod 10)%Z /\
            row ∈ pool_rows self cls)) /\
  (forall ev : result (Sample R) -> bool,
     Pr ev (MNISTAttentionDataset_getitem self idx)
     = Pr (fun r => ev (fst <$> r)) (getitem_traced self idx)) /\
  (forall s cs, outcome (getitem_traced self idx) (Ok (s, cs)) ->
     length cs = length (sample_x s) /\
     forall i row cls,
       sample_x s !! i = Some row -> cs !! i = Some cls ->
       row ∈ pool_rows self cls) /\
  (forall c,
     tensor_index (mnist_targets mnist) idx = Ok c ->
     (forall label, (0 <= label < 10)%Z -> class_pool mnist label <> []) ->
     (8 * (num_inputs * 784) < 2 ^ 63)%Z ->
     (Z.of_nat (length (mnist_data mnist)) <= 2 ^ 63)%Z ->
     (forall p, (0 <= p < num_inputs)%Z ->
        Pr (returns (fun s => bool_decide (sample_y s = p)))
           (MNISTAttentionDataset_getitem self idx)
        = (/ Qc_of_Z num_inputs)%Qc) /\
     (forall p cs,
        (0 <= p < num_inputs)%Z -> length cs = Z.to_nat num_inputs ->
        (forall i cls, cs !! i = Some cls ->
           if bool_decide (Z.of_nat i = p) then cls = ((c + 1) mod 10)%Z
           else (0 <= cls < 10)%Z /\ cls <> ((c + 1) mod 10)%Z) ->
        Pr (returns (fun sc : Sample R * list Z =>
                       bool_decide (sample_y sc.1 = p /\ sc.2 = cs)))
           (getitem_traced self idx)
        = (/ Qc_of_Z num_inputs
           * (/ Qc_of_Z 9) ^ (Z.to_nat num_inputs - 1))%Qc)).
Proof.
  intros Hinit Himgs.
  pose proof Hinit as (Hlen & Hn & Hm & Hdata)%init_inv.
  pose proof (fun label row => stored_rows_pool _ _ _ label row Hinit Himgs)
    as Hpool.
  split; [| split; [| split]].
  - intros s (r0 & Hr0 & Hs)%(erases_outcome _ _ _ _ (erases_getitem self idx)).
    destruct r0 as [[s' cs]|e]; [| done]. injection Hs as <-.
    apply outcome_getitem_traced in Hr0
      as (c & Hc & Hy & Hx & Hcs & Hrows).
    rewrite Hm in Hc. rewrite Hn in Hy, Hx, Hcs, Hrows.
    exists c. split; [done |]. split; [done |]. split; [done |]. split.
    + destruct (Hrows (Z.to_nat (sample_y s)))
        as (row & cls & Hr & _ & Hin & Hcls); [lia |].
      rewrite bool_decide_eq_true_2 in Hcls by lia. subst cls. eauto.
    + intros i row Hrow Hi.
      destruct (Hrows i) as (row' & cls & Hr & _ & Hin & Hcls).
      { apply lookup_lt_Some in Hrow. lia. }
      rewrite bool_decide_eq_false_2 in Hcls by done.
      apply elem_of_distractor_classes in Hcls as [? ?].
      exists cls. repeat split; [lia.. | done |].
      assert (row' = row) as -> by congruence. by apply Hpool.
  - intros ev. apply (erases_Pr _ _ _ _ (erases_getitem self idx)).
  - intros s cs (c & _ & _ & Hx & Hcs & Hrows)%outcome_getitem_traced.
    split; [congruence |].
    intros i row cls Hrow Hcls.
    destruct (Hrows i) as (row' & cls' & Hr & Hc' & Hin & _).
    { apply lookup_lt_Some in Hrow. lia. }
    assert (row' = row) as -> by congruence.
    assert (cls' = cls) as -> by congruence. by apply Hpool.
  - intros c Hc Hne HN Hcorpus.
    pose proof (init_full_pools _ _ _ Hinit Himgs Hcorpus Hne) as Hfull.
    destruct (tensor_index_same_length _ (mnist_data mnist) idx c
                (eq_sym Hlen) Hc) as (img & Himg).
    rewrite <- Hm in Hc, Himg. rewrite <- Hn in HN |- *. split.
    + intros p Hp.
      rewrite (erases_Pr _ _ _ _ (erases_getitem self idx)).
      rewrite <- (Pr_getitem_traced_y self idx c p img) by done.
      unfold Pr. apply Ex_ext. by intros [sc|e] _.
    + intros p cs Hp Hcs Hclasses.
      apply (Pr_getitem_traced self idx c p img); [done.. |].
      apply Forall2_same_length_lookup_2; [by rewrite length_seqZ |].
      intros i j cls [-> Hi]%lookup_seqZ Hcls. rewrite Z.add_0_l.
      specialize (Hclasses i cls Hcls).
      destruct (bool_decide (Z.of_nat i = p)); [done |].
      by apply elem_of_distractor_classes.
Qed.

End DatasetFacts.

(** ** The dataset on concrete corpora *)

Section DatasetExamples.
Import Examples.

Lemma init_corpus10 : MNISTAttentionDataset_init 2 corpus10 = Ok dataset10.
Proof. by vm_compute. Qed.

Lemma init_corpus_zero :
  MNISTAttentionDataset_init 2 corpus_zero = Ok dataset_zero.
Proof. by vm_compute. Qed.

Lemma init_corpus28 : MNISTAttentionDataset_init 2 corpus28 = Ok dataset28.
Proof. by vm_compute. Qed.

Lemma corpus28_images : images_28x28 corpus28.
Proof.
  unfold images_28x28. apply Forall_forall.
  intros img (z & -> & _)%list_elem_of_fmap.
  rewrite length_replicate. split; [done |]. apply Forall_replicate.
  by rewrite length_replicate.
Qed.

Lemma corpus28_pools (label : Z) :
  (0 <= label < 10)%Z -> class_pool (R:=Q) corpus28 label <> [].
Proof.
  intros Hlabel.
  assert (Hcases : label ∈ seqZ 0 10) by (apply elem_of_seqZ; lia).
  change (seqZ 0 10) with [0; 1; 2; 3; 4; 5; 6; 7; 8; 9]%Z in Hcases.
  repeat (apply elem_of_cons in Hcases as [->|Hcases];
          [by vm_compute |]).
  by apply elem_of_nil in Hcases.
Qed.

Lemma getitem_sample_witness :
  Pr (returns (fun s => bool_decide (sample_y s = 0%Z)))
     (MNISTAttentionDataset_getitem dataset28 3)
  = (/ Qc_of_Z 2)%Qc /\
  Pr (returns (fun sc : Sample Q * list Z =>
                 bool_decide (sample_y sc.1 = 0%Z /\ sc.2 = [4; 7]%Z)))
     (getitem_traced dataset28 3)
  = (/ Qc_of_Z 2 * (/ Qc_of_Z 9) ^ 1)%Qc.
Proof.
  destruct (getitem_sample 2 corpus28 dataset28 3 init_corpus28
              corpus28_images) as (_ & _ & _ & Hpr).
  destruct (Hpr 3%Z eq_refl corpus28_pools ltac:(by vm_compute)
              ltac:(by vm_compute)) as [Hy Hjoint].
  split.
  - apply Hy. lia.
  - apply (Hjoint 0%Z [4; 7]%Z); [lia | done |].
    intros [|[|i]] cls; simpl.
    + intros [= <-]. by vm_compute.
    + intros [= <-]. change ((3 + 1) mod 10)%Z with 4%Z. lia.
    + by destruct i.
Defined.

(** C5, as stated, does not hold: with an empty pool for the successor
    class the request fails, but never with [DataUnavailableError]; what is
    raised is [ValueError]. *)
Lemma getitem_zero_not_DataUnavailableError :
  tensor_index (mnist_targets corpus_zero) 0 = Ok 0%Z /\
  ds_data dataset_zero !! 1%Z = Some [] /\
  Pr (raises DataUnavailableError) (MNISTAttentionDataset_getitem dataset_zero 0)
  = 0%Qc /\
  Pr (raises ValueError) (MNISTAttentionDataset_getitem dataset_zero 0)
  = 1%Qc /\
  ~ outcome (MNISTAttentionDataset_getitem dataset_zero 0)
      (Raise DataUnavailableError).
Proof.
  assert (Hcls : class_pool (R:=Q) corpus_zero ((0 + 1) mod 10)%Z = []) by done.
  pose proof (fun r => getitem_empty_pool_outcome 2 corpus_zero dataset_zero
                         0 0 r init_corpus_zero eq_refl Hcls) as Hout.
  split; [done |]. split; [done |]. split; [| split].
  - apply Pr_none. intros r ->%Hout. done.
  - apply Pr_all; [apply proper_getitem |]. intros r ->%Hout. done.
  - by intros [=]%Hout.
Qed.

Lemma getitem_empty_successor_pool_witness :
  Pr (raises ValueError) (MNISTAttentionDataset_getitem dataset_zero 0) = 1%Qc.
Proof.
  apply (getitem_empty_successor_pool 2 corpus_zero dataset_zero 0 0
           init_corpus_zero eq_refl).
  reflexivity.
Defined.

(** C6, as stated, does not hold: the classes 1 to 9 of [corpus_zero] have
    no item, and construction succeeds, with empty pools for them. *)
Lemma init_missing_classes :
  filter (fun t => t = 1%Z) (mnist_targets corpus_zero) = [] /\
  MNISTAttentionDataset_init (R:=Q) 2 corpus_zero = Ok dataset_zero /\
  MNISTAttentionDataset_init (R:=Q) 2 corpus_zero <> Raise ConfigurationError /\
  ds_data dataset_zero !! 1%Z = Some [].
Proof. split; [done |]. split; [by vm_compute |]. by split. Qed.

Lemma init_partitions_witness :
  exists self : MNISTAttentionDataset Q,
    MNISTAttentionDataset_init 2 corpus10 = Ok self /\
    ds_data self !! 4%Z = Some (class_pool corpus10 4).
Proof.
  destruct (init_partitions (R:=Q) 2 corpus10 eq_refl)
    as (self & Hinit & _ & _ & Hpools & _).
  exists self. split; [done |]. apply Hpools. lia.
Defined.

End DatasetExamples.

(** * Properties of [evaluate] *)

Section EvaluateFacts.
Context {R : Type} `{Scalar R}.
Context (np_argmax_axis1 : AnyTensor R -> result (list Z)).
Context (np_sum_eq : list Z -> list Z -> result Z).

#[local] Abbreviation evaluate_loop := (evaluate_loop np_argmax_axis1 np_sum_eq).
#[local] Abbreviation evaluate := (evaluate np_argmax_axis1 np_sum_eq).
#[local] Abbreviation batches_correct := (batches_correct np_argmax_axis1 np_sum_eq).

(** Each batch adds [len_loader] to [total] and its correct predictions to
    [ok]. *)
Lemma evaluate_loop_counts (model : AttentionModel R) (len_loader : nat)
    (batches : list (Batch R)) (total ok : Qc) :
  evaluate_loop model len_loader batches total ok
  = ns ← batches_correct model batches;
    Ok ((total + Qc_of_nat (length batches) * Qc_of_nat len_loader)%Qc,
        (ok + Qc_of_Z (total_correct ns))%Qc).
Proof.
  revert total ok. induction batches as [|b batches IH]; intros total ok.
  - cbn [evaluate_loop batches_correct mbind result_bind length total_correct
         foldr].
    unfold Qc_of_nat. change (Z.of_nat 0) with 0%Z. rewrite Z2Qc_inj_0.
    f_equal. f_equal; ring.
  - cbn [evaluate_loop batches_correct]. unfold batch_correct.
    destruct (forward model (batch_x b) (batch_query b)) as [output|e];
      [| done].
    cbn [mbind result_bind].
    destruct (np_argmax_axis1 output) as [pred|e]; [| done].
    cbn [mbind result_bind].
    destruct (np_sum_eq pred (batch_y b)) as [n|e]; [| done].
    cbn [mbind result_bind]. rewrite IH.
    destruct (batches_correct model batches) as [ns|e]; [| done].
    cbn [mbind result_bind]. f_equal. f_equal.
    + unfold Qc_of_nat. cbn [length].
      rewrite Nat2Z.inj_succ, <- Z.add_1_r, Z2Qc_inj_add, Z2Qc_inj_1. ring.
    + cbn [total_correct foldr]. fold (total_correct ns).
      rewrite Z2Qc_inj_add. ring.
Qed.

Lemma Qc_of_nat_square_0 (n : nat) :
  (Qc_of_nat n * Qc_of_nat n)%Qc = 0%Qc <-> n = 0.
Proof.
  split.
  - intros Hn. destruct (decide (n = 0)) as [|Hne]; [done |].
    apply Qc_of_nat_ne_0 in Hne.
    apply Qcmult_integral in Hn as [?|?]; done.
  - intros ->. unfold Qc_of_nat. change (Z.of_nat 0) with 0%Z.
    rewrite Z2Qc_inj_0. ring.
Qed.

Lemma evaluate_loop_total (model : AttentionModel R)
    (test_loader : list (Batch R)) :
  evaluate_loop model (length test_loader) test_loader 0%Qc 0%Qc
  = (ns ← batches_correct model test_loader;
     Ok ((Qc_of_nat (length test_loader) * Qc_of_nat (length test_loader))%Qc,
         Qc_of_Z (total_correct ns))).
Proof.
  rewrite evaluate_loop_counts.
  destruct (batches_correct model test_loader) as [ns|e]; [| done].
  cbn [mbind result_bind]. f_equal. f_equal; ring.
Qed.

Lemma evaluate_value (model : AttentionModel R) (test_loader : list (Batch R)) :
  evaluate model test_loader
  = (ns ← batches_correct model test_loader;
     if decide (test_loader = []) then Raise ZeroDivisionError
     else Ok (Qc_of_Z (total_correct ns)
              / (Qc_of_nat (length test_loader)
                 * Qc_of_nat (length test_loader)))%Qc).
Proof.
  unfold evaluate. rewrite evaluate_loop_total.
  destruct (batches_correct model test_loader) as [ns|e]; [| done].
  cbn [mbind result_bind].
  destruct (decide (test_loader = [])) as [->|Hne].
  - rewrite decide_True; [done |]. by apply Qc_of_nat_square_0.
  - rewrite decide_False; [done |].
    rewrite Qc_of_nat_square_0. by destruct test_loader.
Qed.

(** C9.  After the loop [total] is B * B for a loader with B batches:
    each of the B batches adds [len(test_loader)] = B to it.  The accuracy
    that [evaluate] reports is therefore the number of correct predictions
    divided by B * B (and a division by zero for an empty loader); the
    number of samples does not enter. *)
Theorem evaluate_accuracy (model : AttentionModel R)
    (test_loader : list (Batch R)) :
  evaluate_loop model (length test_loader) test_loader 0%Qc 0%Qc
  = (ns ← batches_correct model test_loader;
     Ok ((Qc_of_nat (length test_loader) * Qc_of_nat (length test_loader))%Qc,
         Qc_of_Z (total_correct ns))) /\
  evaluate model test_loader
  = (ns ← batches_correct model test_loader;
     if decide (test_loader = []) then Raise ZeroDivisionError
     else Ok (Qc_of_Z (total_correct ns)
              / (Qc_of_nat (length test_loader)
                 * Qc_of_nat (length test_loader)))%Qc).
Proof. split; [apply evaluate_loop_total | apply evaluate_value]. Qed.

End EvaluateFacts.

(** ** [evaluate] on a concrete loader *)

Section EvaluateExamples.
Import Examples.

(** A loader with one batch of two samples, both predicted correctly: the
    accuracy reported is 2 / (1 * 1) = 2, where 2 / 2 = 1 is the share of the
    samples predicted correctly. *)
Lemma evaluate_one_batch :
  batches_correct ex_argmax_axis1 ex_sum_eq model2 [batch22] = Ok [2%Z] /\
  num_samples [batch22] = 2 /\
  evaluate ex_argmax_axis1 ex_sum_eq model2 [batch22] = Ok (Qc_of_Z 2).
Proof.
  assert (Hns : batches_correct ex_argmax_axis1 ex_sum_eq model2 [batch22]
                = Ok [2%Z]) by (by vm_compute).
  split; [done |]. split; [done |].
  rewrite (evaluate_value ex_argmax_axis1 ex_sum_eq model2 [batch22]).
  rewrite Hns. cbn [mbind result_bind].
  rewrite decide_False by done. f_equal.
  by apply Qc_is_canon.
Qed.

End EvaluateExamples.

(** * Further properties of the scorer *)

Section ScorerMore.
Context {R : Type} `{Scalar R}.

Lemma broadcast_dim_is_Some (a b : nat) :
  is_Some (broadcast_dim a b) <-> a = b \/ a = 1 \/ b = 1.
Proof.
  rewrite <- not_eq_None_Some, broadcast_dim_None. lia.
Qed.

(** X2.  [forward] returns scores exactly when [num_inputs] is not negative,
    the queries and the candidates have width [input_dim], the number of
    queries and the number of key samples are equal or one of them is 1, and
    [num_inputs] and the number of candidates are equal or one of them is 1;
    in every other case it raises [RuntimeError].  What it returns is the
    squeezed score tensor over the broadcast sizes n0 and n1, which holds
    n0 * n1 scores. *)
Theorem forward_succeeds_iff (self : AttentionModel R) (x : Tensor3 R)
    (query : Tensor2 R) :
  wf_model self -> wf3 x ->
  ((exists out, forward self x query = Ok out) <->
   (0 <= num_inputs self)%Z /\
   cols2 query = input_dim self /\
   dim2 x = input_dim self /\
   (rows2 query = dim0 x \/ rows2 query = 1 \/ dim0 x = 1) /\
   (Z.to_nat (num_inputs self) = dim1 x \/ Z.to_nat (num_inputs self) = 1
    \/ dim1 x = 1)) /\
  ((forall out, forward self x query <> Ok out) ->
   forward self x query = Raise RuntimeError) /\
  (forall out, forward self x query = Ok out ->
     exists n0 n1,
       broadcast_dim (rows2 query) (dim0 x) = Some n0 /\
       broadcast_dim (Z.to_nat (num_inputs self)) (dim1 x) = Some n1 /\
       out = squeeze (score_tensor self query x n0 n1) /\
       (wf_linear (fc_v self) -> wf2 query -> numel out = n0 * n1)).
Proof.
  intros Hself Hx.
  rewrite forward_scoring, scoringAdditive_cases by done.
  split; [| split].
  - rewrite <- !broadcast_dim_is_Some.
    destruct (score_shape self query x) as [[n0 n1]|] eqn:Hs.
    + apply score_shape_Some in Hs as (? & ? & ? & Hb0 & Hb1).
      rewrite Hb0, Hb1. split; [| by eexists].
      intros _. repeat split; eauto.
    + split; [by intros [out ?] |].
      intros (? & ? & ? & [n0 Hb0] & [n1 Hb1]).
      assert (Hsome : score_shape self query x = Some (n0, n1))
        by (by apply score_shape_Some).
      congruence.
  - destruct (score_shape self query x) as [[n0 n1]|]; [| done].
    intros Hne. by destruct (Hne (squeeze (score_tensor self query x n0 n1))).
  - intros out.
    destruct (score_shape self query x) as [[n0 n1]|] eqn:Hs; [| done].
    intros [= <-].
    apply score_shape_Some in Hs as (? & ? & ? & Hb0 & Hb1).
    exists n0, n1. repeat split; [done.. |].
    intros Hv Hquery.
    pose proof (wf3_score_tensor self query x n0 n1 Hself Hv Hquery Hx Hb0 Hb1)
      as Hwf.
    unfold numel. rewrite elements_squeeze, length_elements3 by done.
    cbn [score_tensor dim0 dim1 dim2]. lia.
Qed.

(** X3.  A model built with [num_inputs = 1] scores candidate sequences of
    every length: the tiling does nothing and the sum broadcasts the one
    projected query over the candidates.  For B queries and B sequences of N
    candidates it returns the (B x N x 1) tensor of the additive scores. *)
Theorem scoring_num_inputs_one (self : AttentionModel R) (q : Tensor2 R)
    (keys : Tensor3 R) :
  wf_model self -> wf3 keys ->
  num_inputs self = 1%Z ->
  cols2 q = input_dim self -> dim2 keys = input_dim self ->
  rows2 q = dim0 keys ->
  scoringAdditive self (unsqueeze1 q) keys
  = Ok (mkT3 (dim0 keys) (dim1 keys) 1
          (zip_with (additive_scores self) (data2 q) (data3 keys))).
Proof.
  intros Hself Hkeys Hn Hq Hd Hb.
  assert (Hb1 : broadcast_dim (Z.to_nat (num_inputs self)) (dim1 keys)
                = Some (dim1 keys)).
  { rewrite Hn. change (Z.to_nat 1) with 1. unfold broadcast_dim.
    destruct (Nat.eqb_spec 1 (dim1 keys)) as [<-|?]; done. }
  assert (Hs : score_shape self q keys = Some (dim0 keys, dim1 keys)).
  { apply score_shape_Some. rewrite Hb, broadcast_dim_same.
    repeat split; [lia | done..]. }
  rewrite scoringAdditive_cases, Hs by done.
  unfold score_tensor. rewrite Hb, !expand_same.
  do 2 f_equal. apply zip_with_ext; [| done..].
  intros qv m. by rewrite expand_same.
Qed.

Lemma concat_singletons (f : list R -> list R) (ks : list (list R)) :
  (forall k, length (f k) = 1) ->
  concat (f <$> ks) = (fun k => item (f k)) <$> ks.
Proof.
  intros Hf. induction ks as [|k ks IH]; csimpl; [done |].
  rewrite IH. specialize (Hf k).
  by destruct (f k) as [|s [|s' l]].
Qed.

(** X4.  For B queries and B sequences of N = [num_inputs] candidates, B and
    N both different from 1, [forward] returns the B x N matrix whose entry
    (b, i) is the score of candidate i of sample b.  With a single sample
    (B = 1, N different from 1) the batch dimension is squeezed away as well
    and a vector of the N scores is returned. *)
Theorem forward_score_matrix (self : AttentionModel R) (x : Tensor3 R)
    (query : Tensor2 R) :
  wf_model self -> wf_linear (fc_v self) -> wf3 x ->
  cols2 query = input_dim self -> dim2 x = input_dim self ->
  rows2 query = dim0 x ->
  num_inputs self = Z.of_nat (dim1 x) ->
  dim1 x <> 1 ->
  let scores (qv : list R) (ks : list (list R)) :=
    (fun k => item (additive_score self qv k)) <$> ks in
  (dim0 x <> 1 ->
   forward self x query
   = Ok (Rank2 (mkT2 (dim0 x) (dim1 x)
                  (zip_with scores (data2 query) (data3 x))))) /\
  (dim0 x = 1 ->
   forward self x query
   = Ok (Rank1 (mkT1 (dim1 x)
                  (concat (zip_with scores (data2 query) (data3 x)))))).
Proof.
  intros Hself Hv Hx Hq Hd Hb Hn HN scores.
  rewrite forward_scoring, (scoringAdditive_exact self query x) by done.
  cbn [fmap result_fmap]. unfold squeeze. cbn [dim0 dim1 dim2 data3].
  assert (Hrows : @concat R <$> zip_with (additive_scores self)
                                 (data2 query) (data3 x)
                  = zip_with scores (data2 query) (data3 x)).
  { rewrite fmap_zip_with. apply zip_with_ext; [| done..].
    intros qv ks. unfold additive_scores, scores.
    apply concat_singletons. intros k. unfold additive_score.
    rewrite length_linear_vec by done. by destruct Hself as (_&_&_&_&_&?). }
  destruct (Nat.eqb_spec (dim1 x) 1) as [?|_]; [done |].
  split; intros HB.
  - destruct (Nat.eqb_spec (dim0 x) 1) as [?|_]; [done |].
    by rewrite Hrows.
  - destruct (Nat.eqb_spec (dim0 x) 1) as [_|?]; [| done].
    by rewrite <- concat_fmap_concat, Hrows.
Qed.

End ScorerMore.

(** * Further properties of the dataset *)

Section DatasetMore.
Context {R : Type} `{Scalar R}.

(** Construction succeeds on a corpus with one label for each image. *)
Lemma init_partitions_exists (num_inputs : Z) (mnist : MNIST) :
  length (mnist_data mnist) = length (mnist_targets mnist) ->
  exists self : MNISTAttentionDataset R,
    MNISTAttentionDataset_init num_inputs mnist = Ok self.
Proof.
  intros Hlen.
  destruct (collect_ok (R:=R) mnist (seqZ 0 10) ∅ Hlen) as (data' & Hc & _).
  exists (mkDataset num_inputs mnist data').
  unfold MNISTAttentionDataset_init. by rewrite Hc.
Qed.

(** ** Indices *)

Lemma tensor_index_out {A : Type} (t : list A) (i : Z) :
  (i < - Z.of_nat (length t) \/ Z.of_nat (length t) <= i)%Z ->
  tensor_index t i = Raise IndexError.
Proof.
  intros Hi. unfold tensor_index.
  destruct (Z.ltb_spec i 0) as [Hneg|Hpos].
  - destruct (Z.leb_spec 0 (i + Z.of_nat (length t))) as [?|_]; [lia | done].
  - destruct (Z.leb_spec 0 i) as [_|?]; [| lia].
    destruct (Z.ltb_spec i (Z.of_nat (length t))) as [?|_]; [lia | done].
Qed.

Lemma tensor_index_negative {A : Type} (t : list A) (i : Z) :
  (- Z.of_nat (length t) <= i < 0)%Z ->
  tensor_index t i = tensor_index t (i + Z.of_nat (length t)).
Proof.
  intros Hi. unfold tensor_index.
  destruct (Z.ltb_spec i 0) as [_|?]; [| lia].
  by destruct (Z.ltb_spec (i + Z.of_nat (length t)) 0) as [?|_]; [lia |].
Qed.

Lemma tensor_index_in {A : Type} (t : list A) (i : Z) :
  (- Z.of_nat (length t) <= i < Z.of_nat (length t))%Z ->
  exists a, tensor_index t i = Ok a.
Proof.
  intros Hi. destruct (Z.ltb_spec i 0) as [Hneg|Hpos].
  - rewrite tensor_index_negative by lia.
    destruct (tensor_index_range t (i + Z.of_nat (length t))) as (a & Ha & _);
      [lia | eauto].
  - destruct (tensor_index_range t i) as (a & Ha & _); [lia | eauto].
Qed.

(** [__getitem__] once the label and the image of the query have been
    read. *)
Lemma getitem_unfold (self : MNISTAttentionDataset R) (idx c : Z)
    (img : list (list Z)) :
  tensor_index (mnist_targets (ds_mnist self)) idx = Ok c ->
  tensor_index (mnist_data (ds_mnist self)) idx = Ok img ->
  MNISTAttentionDataset_getitem self idx
  = (correct_pos ← randint 0 (ds_num_inputs self);
     inputs ← Done (np_zeros (ds_num_inputs self) 784);
     inputs ← candidates self c correct_pos (seqZ 0 (ds_num_inputs self))
                 inputs;
     mret (mkSample inputs (s_pixel <$> concat img) correct_pos)).
Proof.
  intros Hc Himg. unfold MNISTAttentionDataset_getitem. by rewrite Hc, Himg.
Qed.

(** X5.  [__getitem__] raises [IndexError], on every run, exactly for the
    indices outside [-len, len), [len] being what [__len__] returns; for an
    index inside this range the only exception it can raise is
    [ValueError], which the random draws and the assignment of a row
    raise. *)
Theorem getitem_index_bounds (num_inputs : Z) (mnist : MNIST)
    (self : MNISTAttentionDataset R) (idx : Z) :
  MNISTAttentionDataset_init num_inputs mnist = Ok self ->
  let n := Z.of_nat (MNISTAttentionDataset_len self) in
  ((idx < - n \/ n <= idx)%Z ->
   MNISTAttentionDataset_getitem self idx = Done (Raise IndexError) /\
   Pr (raises IndexError) (MNISTAttentionDataset_getitem self idx) = 1%Qc) /\
  ((- n <= idx < n)%Z ->
   forall e, outcome (MNISTAttentionDataset_getitem self idx) (Raise e) ->
             e = ValueError).
Proof.
  intros (Hlen & Hn & Hm & Hdata)%init_inv n. subst n.
  unfold MNISTAttentionDataset_len. rewrite Hm. split.
  - intros Hidx.
    assert (Hget : MNISTAttentionDataset_getitem self idx
                   = Done (Raise IndexError)).
    { unfold MNISTAttentionDataset_getitem.
      rewrite Hm.
      by rewrite (tensor_index_out (mnist_targets mnist))
        by (rewrite <- Hlen; lia). }
    split; [done |]. by rewrite Hget.
  - intros Hidx e.
    destruct (tensor_index_in (mnist_targets mnist) idx) as (c & Hc);
      [rewrite <- Hlen; lia |].
    destruct (tensor_index_in (mnist_data mnist) idx) as (img & Himg);
      [lia |].
    intros (r0 & Hr0 & He)%(erases_outcome _ _ _ _ (erases_getitem self idx)).
    destruct r0 as [sc|e0]; [done |]. injection He as ->.
    rewrite (getitem_traced_unfold self idx c img) in Hr0
      by (by rewrite Hm).
    apply outcome_bind in Hr0 as [(cp & _ & Hr)|(e' & He' & [= ->])].
    + destruct (8 * (ds_num_inputs self * 784) <? 2 ^ 63)%Z;
        [| by apply outcome_Done in Hr as [= ->]].
      apply outcome_bind in Hr
        as [(rest & _ & ?%outcome_Done)|(e' & He' & [= ->])]; [done |].
      apply candidates_traced_raises in He'; [done | | apply seqZ_rows].
      intros label Hlabel. rewrite Hdata, decide_True by done. eauto.
    + by apply randint_raises in He'.
Qed.

(** X6.  A negative index counts from the end: for [-len <= idx < 0],
    [__getitem__] at [idx] is the computation [__getitem__] at [idx + len]. *)
Theorem getitem_negative_index (num_inputs : Z) (mnist : MNIST)
    (self : MNISTAttentionDataset R) (idx : Z) :
  MNISTAttentionDataset_init num_inputs mnist = Ok self ->
  (- Z.of_nat (MNISTAttentionDataset_len self) <= idx < 0)%Z ->
  MNISTAttentionDataset_getitem self idx
  = MNISTAttentionDataset_getitem self
      (idx + Z.of_nat (MNISTAttentionDataset_len self)).
Proof.
  intros (Hlen & Hn & Hm & Hdata)%init_inv.
  unfold MNISTAttentionDataset_len, MNISTAttentionDataset_getitem.
  rewrite Hm. intros Hidx.
  rewrite (tensor_index_negative (mnist_targets mnist)) by (rewrite <- Hlen; lia).
  rewrite (tensor_index_negative (mnist_data mnist)) by lia.
  by rewrite Hlen.
Qed.

(** X7.  The constructor accepts every [num_inputs]; with [num_inputs <= 0]
    every request for an index of the corpus fails with [ValueError], at the
    draw of the correct position. *)
Theorem getitem_nonpositive_num_inputs (num_inputs : Z) (mnist : MNIST)
    (idx : Z) :
  length (mnist_data mnist) = length (mnist_targets mnist) ->
  (num_inputs <= 0)%Z ->
  (- Z.of_nat (length (mnist_data mnist)) <= idx
   < Z.of_nat (length (mnist_data mnist)))%Z ->
  exists self : MNISTAttentionDataset R,
    MNISTAttentionDataset_init num_inputs mnist = Ok self /\
    MNISTAttentionDataset_getitem self idx = Done (Raise ValueError).
Proof.
  intros Hlen Hn Hidx.
  destruct (init_partitions_exists num_inputs mnist Hlen) as (self & Hinit).
  exists self. split; [done |].
  apply init_inv in Hinit as (_ & HN & Hm & _).
  destruct (tensor_index_in (mnist_targets mnist) idx) as (c & Hc);
    [rewrite <- Hlen; lia |].
  destruct (tensor_index_in (mnist_data mnist) idx) as (img & Himg);
    [lia |].
  rewrite (getitem_unfold self idx c img) by (by rewrite Hm).
  unfold randint. rewrite HN.
  by destruct (Z.ltb_spec 0 num_inputs) as [?|_]; [lia |].
Qed.

(** On a corpus of 28 x 28 images with an image of every class, for an
    array of candidates of fewer than 2^63 bytes and a corpus within the
    range of the random integer draw, no run of a request for an index of
    the corpus raises. *)
Lemma getitem_outcome_Ok (num_inputs : Z) (mnist : MNIST)
    (self : MNISTAttentionDataset R) (idx : Z) (r : result (Sample R)) :
  MNISTAttentionDataset_init num_inputs mnist = Ok self ->
  images_28x28 mnist ->
  (forall label, (0 <= label < 10)%Z -> class_pool mnist label <> []) ->
  (1 <= num_inputs)%Z -> (8 * (num_inputs * 784) < 2 ^ 63)%Z ->
  (Z.of_nat (length (mnist_data mnist)) <= 2 ^ 63)%Z ->
  (- Z.of_nat (length (mnist_data mnist)) <= idx
   < Z.of_nat (length (mnist_data mnist)))%Z ->
  outcome (MNISTAttentionDataset_getitem self idx) r -> exists s, r = Ok s.
Proof.
  intros Hinit Himgs Hne HN Hbytes Hcorpus Hidx.
  pose proof (init_full_pools _ _ _ Hinit Himgs Hcorpus Hne) as Hfull.
  pose proof Hinit as (Hlen & Hn & Hm & Hdata)%init_inv.
  destruct (tensor_index_in (mnist_targets mnist) idx) as (c & Hc);
    [rewrite <- Hlen; lia |].
  destruct (tensor_index_in (mnist_data mnist) idx) as (img & Himg);
    [lia |].
  intros (r0 & Hr0 & ->)%(erases_outcome _ _ _ _ (erases_getitem self idx)).
  rewrite (getitem_traced_unfold self idx c img) in Hr0 by (by rewrite Hm).
  rewrite Hn, (proj2 (Z.ltb_lt _ _) Hbytes) in Hr0.
  apply outcome_bind in Hr0 as [(cp & _ & Hr)|(e & He & ->)].
  - apply outcome_bind in Hr as [(rest & _ & ->%outcome_Done)|(e & He & ->)].
    + by eexists.
    + by apply candidates_traced_returns in He as (rest & ?);
        [| | apply seqZ_rows].
  - apply outcome_randint in He as [[_ (v & _ & ?)]|[Hno _]]; [done |].
    destruct Hno. lia.
Qed.

(** X8.  On a dataset built from a corpus of 28 x 28 images in which every
    class has an image, for at least one candidate, every request for an
    index of the corpus returns a sample: no run raises an exception.  The
    array of the candidates has fewer than 2^63 bytes and the size of the
    corpus is within the range of the random integer draw, 2^63. *)
Theorem getitem_returns_sample (num_inputs : Z) (mnist : MNIST)
    (self : MNISTAttentionDataset R) (idx : Z) :
  MNISTAttentionDataset_init num_inputs mnist = Ok self ->
  images_28x28 mnist ->
  (forall label, (0 <= label < 10)%Z -> class_pool mnist label <> []) ->
  (1 <= num_inputs)%Z -> (8 * (num_inputs * 784) < 2 ^ 63)%Z ->
  (Z.of_nat (length (mnist_data mnist)) <= 2 ^ 63)%Z ->
  (- Z.of_nat (length (mnist_data mnist)) <= idx
   < Z.of_nat (length (mnist_data mnist)))%Z ->
  (forall r, outcome (MNISTAttentionDataset_getitem self idx) r ->
             exists s, r = Ok s) /\
  Pr (returns (fun _ => true)) (MNISTAttentionDataset_getitem self idx) = 1%Qc.
Proof.
  intros Hinit Himgs Hne HN Hbytes Hcorpus Hidx.
  pose proof (fun r => getitem_outcome_Ok _ _ _ _ r Hinit Himgs Hne HN
                         Hbytes Hcorpus Hidx) as Hout.
  split; [done |].
  apply Pr_all; [apply proper_getitem |].
  by intros r (s & ->)%Hout.
Qed.

(** X9.  The query of a sample is not random: it is the image at the
    requested index, flattened and divided by 255.  For a corpus of 28 x 28
    images the query has 784 entries, and the candidates are
    [num_inputs] rows of 784 entries. *)
Theorem getitem_shapes (num_inputs : Z) (mnist : MNIST)
    (self : MNISTAttentionDataset R) (idx : Z) (s : Sample R) :
  MNISTAttentionDataset_init num_inputs mnist = Ok self ->
  outcome (MNISTAttentionDataset_getitem self idx) (Ok s) ->
  (exists img,
     tensor_index (mnist_data mnist) idx = Ok img /\
     sample_query s = s_pixel <$> concat img) /\
  (Forall (fun img : list (list Z) =>
             length img = 28 /\ Forall (fun row => length row = 28) img)
          (mnist_data mnist) ->
   length (sample_query s) = 784 /\
   length (sample_x s) = Z.to_nat num_inputs /\
   Forall (fun row => length row = 784) (sample_x s)).
Proof.
  intros Hinit Hs.
  pose proof Hinit as (Hlen & Hn & Hm & Hdata)%init_inv.
  assert (Hquery : exists img,
            tensor_index (mnist_data mnist) idx = Ok img /\
            sample_query s = s_pixel <$> concat img).
  { revert Hs. unfold MNISTAttentionDataset_getitem. rewrite Hm.
    destruct (tensor_index (mnist_targets mnist) idx) as [c|e];
      [| by intros ?%outcome_Done].
    rewrite bind_Done_Ok.
    destruct (tensor_index (mnist_data mnist) idx) as [img|e];
      [| by intros ?%outcome_Done].
    rewrite bind_Done_Ok.
    intros [(cp & _ & Hr)|(e & _ & ?)]%outcome_bind; [| done].
    apply outcome_bind in Hr as [(inputs & _ & Hr)|(e & _ & ?)]; [| done].
    apply outcome_bind in Hr as [(rows & _ & Hr)|(e & _ & ?)]; [| done].
    apply outcome_Done in Hr as [= ->]. by exists img. }
  split; [done |]. intros Himgs.
  assert (Hflat : forall img : list (list Z), img ∈ mnist_data mnist ->
                    length (concat img) = 784).
  { intros img Hin. rewrite Forall_forall in Himgs.
    destruct (Himgs img Hin) as [H28 Hrows].
    by rewrite (length_concat_rows 28 28). }
  destruct Hquery as (img & Himg & ->).
  apply (erases_outcome _ _ _ _ (erases_getitem self idx)) in Hs
    as (r0 & Hr0 & Heq).
  destruct r0 as [[s' cs]|e]; [| done]. injection Heq as ->.
  apply outcome_getitem_traced in Hr0 as (c & _ & _ & Hx & _ & Hrows).
  split; [| split].
  - rewrite length_fmap. by apply Hflat, (tensor_index_Ok _ idx).
  - by rewrite <- Hn.
  - apply Forall_lookup. intros i row Hrow.
    destruct (Hrows i) as (row' & cls & Hr & _ & (values & _ & Hb) & _).
    { apply lookup_lt_Some in Hrow. lia. }
    assert (row' = row) as -> by congruence.
    by eapply broadcast_row_Ok.
Qed.

(** ** The sizes of the pools *)

Lemma sum_list_fmap_add {A : Type} (f g : A -> nat) (l : list A) :
  sum_list ((fun a => f a + g a) <$> l)
  = sum_list (f <$> l) + sum_list (g <$> l).
Proof. induction l as [|a l IH]; csimpl; [done | rewrite IH; lia]. Qed.

Lemma sum_list_indicator (t : Z) (labels : list Z) :
  NoDup labels ->
  sum_list ((fun l => if decide (t = l) then 1 else 0) <$> labels)
  = if decide (t ∈ labels) then 1 else 0.
Proof.
  induction 1 as [|l labels Hl _ IH]; csimpl.
  - done.
  - rewrite IH.
    destruct (decide (t = l)) as [->|Hne], (decide (_ ∈ labels)) as [Hin|Hnin],
      (decide (_ ∈ _ :: _)) as [Hin'|Hnin']; try done; exfalso.
    + by apply Hnin', list_elem_of_here.
    + by apply Hnin', list_elem_of_further.
    + by apply elem_of_cons in Hin' as [?|?].
Qed.

Lemma sum_label_counts (targets labels : list Z) :
  NoDup labels ->
  sum_list ((fun l => length (filter (fun t => t = l) targets)) <$> labels)
  = length (filter (fun t => t ∈ labels) targets).
Proof.
  intros Hnd. induction targets as [|t targets IH].
  - clear Hnd. induction labels as [|l labels IHl]; [done |].
    csimpl in *. apply IHl.
  - rewrite (list_fmap_ext _
      (fun l => (if decide (t = l) then 1 else 0)
                + length (filter (fun t0 => t0 = l) targets))).
    2:{ intros i l _. rewrite filter_cons. by destruct (decide (t = l)). }
    rewrite sum_list_fmap_add, sum_list_indicator, IH by done.
    rewrite filter_cons. by destruct (decide (t ∈ labels)).
Qed.

(** X10.  The ten pools hold, together, as many images as the corpus has
    images with a label in 0..9: an image with another label is in no pool.
    When every label is in 0..9 the sizes of the pools add up to what
    [__len__] returns. *)
Theorem init_pool_sizes (num_inputs : Z) (mnist : MNIST)
    (self : MNISTAttentionDataset R) :
  MNISTAttentionDataset_init num_inputs mnist = Ok self ->
  sum_list ((fun label => length (default [] (ds_data self !! label)))
              <$> seqZ 0 10)
  = length (filter (fun t => (0 <= t < 10)%Z) (mnist_targets mnist)) /\
  (Forall (fun t => (0 <= t < 10)%Z) (mnist_targets mnist) ->
   sum_list ((fun label => length (default [] (ds_data self !! label)))
               <$> seqZ 0 10)
   = MNISTAttentionDataset_len self).
Proof.
  intros (Hlen & Hn & Hm & Hdata)%init_inv.
  assert (Hsum :
    sum_list ((fun label => length (default [] (ds_data self !! label)))
                <$> seqZ 0 10)
    = length (filter (fun t => (0 <= t < 10)%Z) (mnist_targets mnist))).
  { rewrite (list_fmap_ext _
      (fun l => length (filter (fun t => t = l) (mnist_targets mnist)))).
    2:{ intros i l [-> Hi]%lookup_seqZ.
        rewrite Hdata, decide_True by lia. simpl.
        unfold class_pool. rewrite length_fmap.
        by apply length_masked_label. }
    rewrite sum_label_counts by apply NoDup_seqZ.
    f_equal. apply list_filter_iff. intros t. rewrite elem_of_seqZ. lia. }
  split; [done |]. intros Hall. rewrite Hsum.
  unfold MNISTAttentionDataset_len. rewrite Hm, Hlen.
  f_equal. clear -Hall.
  induction Hall as [|t ts Ht _ IH]; [done |].
  by rewrite filter_cons, decide_True, IH.
Qed.

End DatasetMore.

Section DatasetUniform.
Context {R : Type} `{Scalar R} `{EqDecision R}.

(** Each image of a pool without repeated images is as likely as any other
    to be stored in the row. *)
Lemma Pr_draw_row_item (self : MNISTAttentionDataset R) (j : Z)
    (inputs : list (list R)) (cls : Z) (row : list R) :
  full_pools self -> (0 <= cls < 10)%Z ->
  (0 <= j < Z.of_nat (length inputs))%Z ->
  NoDup (pool_rows self cls) -> row ∈ pool_rows self cls ->
  Pr (returns (fun ci : Z * list (list R) =>
                 bool_decide (ci.2 !! Z.to_nat j = Some row)))
     (draw_row self j inputs cls)
  = (/ Qc_of_nat (length (pool_rows self cls)))%Qc.
Proof.
  intros Hfull Hcls Hj.
  destruct (Hfull cls Hcls) as (pool & Hpool & Hne & Hmax & H784).
  unfold pool_rows, draw_row, pool_of. rewrite Hpool. cbn [from_option].
  change (id pool) with pool.
  intros Hnd (i0 & Hi0)%list_elem_of_lookup_1.
  pose proof (lookup_lt_Some _ _ _ Hi0) as Hlt.
  rewrite length_fmap in Hlt. rewrite length_fmap.
  rewrite bind_Done_Ok. unfold Pr. rewrite Ex_bind.
  rewrite Ex_randint by lia.
  rewrite Z.sub_0_r.
  assert (Hstep : forall v img,
            pool !! Z.to_nat v = Some img -> tensor_index pool v = Ok img ->
            Ex (fun r => if returns
                              (fun ci : Z * list (list R) =>
                                 bool_decide (ci.2 !! Z.to_nat j = Some row)) r
                         then 1%Qc else 0%Qc)
               (img ← Done (tensor_index pool v);
                inputs' ← Done (set_row inputs j (concat img));
                mret (cls, inputs'))
            = if bool_decide (concat img = row) then 1%Qc else 0%Qc).
  { intros v img Hv ->. rewrite bind_Done_Ok.
    rewrite set_row_in, broadcast_row_784 by
      (first [done | rewrite Forall_lookup in H784; by eapply H784]).
    cbn [mbind result_bind]. rewrite bind_Done_Ok. simpl.
    rewrite list_lookup_insert_eq by lia.
    apply (f_equal (fun b : bool => if b then 1%Qc else 0%Qc)).
    apply bool_decide_ext. split; congruence. }
  rewrite (Qc_sum_single _ _ (Z.of_nat i0));
    [| apply NoDup_seqZ | apply elem_of_seqZ; lia |].
  - destruct (tensor_index_range pool (Z.of_nat i0)) as (img & Hidx & Himg);
      [lia |].
    rewrite (Hstep _ img Himg Hidx).
    rewrite Nat2Z.id in Himg. rewrite list_lookup_fmap, Himg in Hi0.
    injection Hi0 as Hi0.
    rewrite bool_decide_eq_true_2 by done.
    unfold Qcdiv, Qc_of_nat. ring.
  - intros v Hv%elem_of_seqZ Hvne.
    destruct (tensor_index_range pool v) as (img & Hidx & Himg); [lia |].
    rewrite (Hstep _ img Himg Hidx).
    rewrite bool_decide_eq_false_2; [done |].
    intros Heq. apply Hvne.
    assert (Hv' : (@concat R <$> pool) !! Z.to_nat v = Some row)
      by (by rewrite list_lookup_fmap, Himg; simpl; rewrite Heq).
    pose proof (NoDup_lookup _ _ _ _ Hnd Hv' Hi0). lia.
Qed.

(** The row that the loop stores at the correct position. *)
Lemma Pr_candidates_traced_item (self : MNISTAttentionDataset R) (c cp : Z)
    (js : list Z) (inputs : list (list R)) (row : list R) :
  full_pools self ->
  NoDup (pool_rows self ((c + 1) mod 10)%Z) ->
  row ∈ pool_rows self ((c + 1) mod 10)%Z ->
  NoDup js -> cp ∈ js ->
  Forall (fun j => (0 <= j < Z.of_nat (length inputs))%Z) js ->
  Pr (returns (fun rest : list Z * list (list R) =>
                 bool_decide (rest.2 !! Z.to_nat cp = Some row)))
     (candidates_traced self c cp js inputs)
  = (/ Qc_of_nat (length (pool_rows self ((c + 1) mod 10)%Z)))%Qc.
Proof.
  intros Hfull Hnd Hrow Hjs. revert inputs.
  induction Hjs as [|j js Hj Hjs IH]; intros inputs Hcp Hrange;
    [by apply elem_of_nil in Hcp |].
  apply Forall_cons in Hrange as [Hj0 Hrange]. cbn [candidates_traced].
  rewrite (Pr_bind_ret _ _ (fun ci rest => (ci.1 :: rest.1, rest.2))).
  cbn [snd].
  destruct (decide (j = cp)) as [->|Hne].
  - rewrite (Ex_ext _ (fun r => if returns
                                   (fun ci : Z * list (list R) =>
                                      bool_decide (ci.2 !! Z.to_nat cp = Some row))
                                   r
                                then 1%Qc else 0%Qc)).
    + fold (Pr (returns (fun ci : Z * list (list R) =>
                           bool_decide (ci.2 !! Z.to_nat cp = Some row)))
               (candidate_traced self c cp cp inputs)).
      unfold candidate_traced. rewrite bool_decide_eq_true_2 by done.
      apply Pr_draw_row_item; [done | | done..].
      apply Z.mod_pos_bound. lia.
    + intros [ci|e] Hci; [| done]. cbn [returns].
      pose proof (candidates_traced_length _ _ _ _ _ _ Hj0 Hci) as Hlen.
      assert (Hframe : forall r,
                outcome (candidates_traced self c cp js ci.2) r ->
                exists rest, r = Ok rest /\
                             rest.2 !! Z.to_nat cp = ci.2 !! Z.to_nat cp).
      { intros r Hr.
        destruct (candidates_traced_returns _ _ _ _ _ _ Hfull
                    ltac:(by rewrite Hlen) Hr) as ([cs inputs'] & ->).
        apply outcome_candidates_traced in Hr as (_ & _ & Hframe);
          [| done | by rewrite Hlen].
        eexists. split; [done |]. apply Hframe.
        by rewrite Z2Nat.id by lia. }
      destruct (bool_decide_reflect (ci.2 !! Z.to_nat cp = Some row))
        as [Heq|Hneq].
      * apply Pr_all; [apply proper_candidates_traced |].
        intros r (rest & -> & Hr)%Hframe. cbn [returns].
        apply bool_decide_eq_true_2. congruence.
      * apply Pr_none.
        intros r (rest & -> & Hr)%Hframe. cbn [returns].
        apply bool_decide_eq_false_2. congruence.
  - apply elem_of_cons in Hcp as [?|Hcp]; [done |].
    rewrite (Ex_ext _ (fun _ =>
               (/ Qc_of_nat (length (pool_rows self ((c + 1) mod 10)%Z)))%Qc)).
    + apply Ex_const, proper_candidate_traced.
    + intros r Hr.
      destruct (candidate_traced_returns _ _ _ _ _ _ Hfull Hj0 Hr) as (ci & ->).
      apply IH; [done |].
      by rewrite (candidates_traced_length _ _ _ _ _ _ Hj0 Hr).
Qed.

(** X11.  On a dataset built from a corpus of 28 x 28 images in which every
    class has an image, every image of the pool of the successor class is as
    likely as any other to be the correct candidate: when the flattened
    images of that pool are pairwise different, a sample with correct index
    p and a given one of them in row p has probability
    1/N * 1/(size of the pool).  The array of the N candidates has fewer
    than 2^63 bytes and the size of the corpus is within the range of the
    random integer draw, 2^63. *)
Theorem getitem_correct_row_uniform (num_inputs : Z) (mnist : MNIST)
    (self : MNISTAttentionDataset R) (idx c p : Z) (row : list R) :
  MNISTAttentionDataset_init num_inputs mnist = Ok self ->
  images_28x28 mnist ->
  tensor_index (mnist_targets mnist) idx = Ok c ->
  (forall label, (0 <= label < 10)%Z -> class_pool mnist label <> []) ->
  (8 * (num_inputs * 784) < 2 ^ 63)%Z ->
  (Z.of_nat (length (mnist_data mnist)) <= 2 ^ 63)%Z ->
  NoDup (pool_rows self ((c + 1) mod 10)%Z) ->
  row ∈ pool_rows self ((c + 1) mod 10)%Z ->
  (0 <= p < num_inputs)%Z ->
  Pr (returns (fun s : Sample R =>
                 bool_decide (sample_y s = p /\
                              sample_x s !! Z.to_nat p = Some row)))
     (MNISTAttentionDataset_getitem self idx)
  = (/ Qc_of_Z num_inputs
     * / Qc_of_nat (length (pool_rows self ((c + 1) mod 10)%Z)))%Qc.
Proof.
  intros Hinit Himgs Hc Hne HN Hcorpus Hnd Hrow Hp.
  pose proof (init_full_pools _ _ _ Hinit Himgs Hcorpus Hne) as Hfull.
  pose proof Hinit as (Hlen & Hn & Hm & Hdata)%init_inv.
  destruct (tensor_index_same_length _ (mnist_data mnist) idx c
              (eq_sym Hlen) Hc) as (img & Himg).
  rewrite (erases_Pr _ _ _ _ (erases_getitem self idx)).
  rewrite (getitem_traced_unfold self idx c img) by (by rewrite Hm).
  rewrite Hn, (proj2 (Z.ltb_lt _ _) HN).
  unfold Pr. rewrite Ex_bind, Ex_randint by lia. rewrite Z.sub_0_r.
  rewrite (Qc_sum_single _ _ p);
    [| apply NoDup_seqZ | apply elem_of_seqZ; lia |].
  - rewrite Ex_bind.
    rewrite (Ex_ext _ (fun r => if returns
                                   (fun rest : list Z * list (list R) =>
                                      bool_decide (rest.2 !! Z.to_nat p = Some row))
                                   r
                                then 1%Qc else 0%Qc)).
    + fold (Pr (returns (fun rest : list Z * list (list R) =>
                           bool_decide (rest.2 !! Z.to_nat p = Some row)))
               (candidates_traced self c p (seqZ 0 num_inputs)
                  (zeros_array num_inputs))).
      rewrite Pr_candidates_traced_item; [| done.. | | | ].
      * unfold Qcdiv. ring.
      * apply NoDup_seqZ.
      * apply elem_of_seqZ. lia.
      * apply seqZ_rows.
    + intros [rest|e] _; [| done]. simpl.
      rewrite (bool_decide_ext (p = p /\ rest.2 !! Z.to_nat p = Some row)
                 (rest.2 !! Z.to_nat p = Some row)) by tauto.
      done.
  - intros v _ Hv. rewrite Ex_bind.
    rewrite (Ex_ext _ (fun _ => 0 * 0)%Qc); [rewrite Ex_scale; ring |].
    intros [rest|e] _; simpl; [| ring].
    rewrite bool_decide_eq_false_2 by tauto. ring.
Qed.

End DatasetUniform.

(** ** Further runs on the concrete inputs *)

Section MoreRuns.
Import Examples MoreExamples.

Lemma wf_batch22_x : wf3 (batch_x batch22).
Proof. split; [done |]. by repeat constructor. Qed.

Lemma forward_succeeds_iff_witness :
  exists out : AnyTensor Q, forward model2 keys2 query1 = Ok out.
Proof.
  apply (proj2 (proj1 (forward_succeeds_iff model2 keys2 query1
                         wf_model2 wf_keys2))).
  simpl. repeat split; try lia; auto.
Defined.

Lemma scoring_num_inputs_one_witness :
  scoringAdditive model1 (unsqueeze1 query1) keys3
  = Ok (mkT3 1 3 1
          (zip_with (additive_scores model1) (data2 query1) (data3 keys3))).
Proof.
  apply (scoring_num_inputs_one model1 query1 keys3 wf_model1 wf_keys3);
    reflexivity.
Defined.

Lemma forward_score_matrix_witness :
  forward model2 (batch_x batch22) (batch_query batch22)
  = Ok (Rank2 (mkT2 2 2
                 (zip_with (fun qv ks =>
                              (fun k => item (additive_score model2 qv k))
                                <$> ks)
                           (data2 (batch_query batch22))
                           (data3 (batch_x batch22))))).
Proof.
  apply (proj1 (forward_score_matrix model2 (batch_x batch22)
                  (batch_query batch22) wf_model2 wf_fc_v_model2
                  wf_batch22_x eq_refl eq_refl eq_refl eq_refl
                  ltac:(simpl; lia))).
  simpl. lia.
Defined.

Lemma getitem_index_bounds_witness :
  MNISTAttentionDataset_getitem dataset10 10 = Done (Raise IndexError) /\
  Pr (raises IndexError) (MNISTAttentionDataset_getitem dataset10 10) = 1%Qc.
Proof.
  apply (proj1 (getitem_index_bounds 2 corpus10 dataset10 10 init_corpus10)).
  right. vm_compute. discriminate.
Defined.

Lemma getitem_negative_index_witness :
  MNISTAttentionDataset_getitem dataset10 (-1)
  = MNISTAttentionDataset_getitem dataset10
      (-1 + Z.of_nat (MNISTAttentionDataset_len dataset10)).
Proof.
  apply (getitem_negative_index 2 corpus10 dataset10 (-1) init_corpus10).
  vm_compute. split; [discriminate | reflexivity].
Defined.

Lemma getitem_nonpositive_num_inputs_witness :
  exists self : MNISTAttentionDataset Q,
    MNISTAttentionDataset_init 0 corpus10 = Ok self /\
    MNISTAttentionDataset_getitem self 0 = Done (Raise ValueError).
Proof.
  apply (getitem_nonpositive_num_inputs 0 corpus10 0 eq_refl).
  - lia.
  - vm_compute. split; discriminate || reflexivity.
Defined.

Lemma getitem_returns_sample_witness :
  Pr (returns (fun _ => true)) (MNISTAttentionDataset_getitem dataset28 3)
  = 1%Qc.
Proof.
  apply (getitem_returns_sample 2 corpus28 dataset28 3 init_corpus28
           corpus28_images corpus28_pools).
  - lia.
  - by vm_compute.
  - by vm_compute.
  - vm_compute. split; discriminate || reflexivity.
Defined.

Lemma getitem_shapes_witness :
  exists s : Sample Q,
    outcome (MNISTAttentionDataset_getitem dataset28 3) (Ok s) /\
    exists img,
      tensor_index (mnist_data corpus28) 3 = Ok img /\
      sample_query s = s_pixel <$> concat img.
Proof.
  destruct (proper_outcome _ (proper_getitem dataset28 3)) as [r Hr].
  destruct (getitem_outcome_Ok 2 corpus28 dataset28 3 r init_corpus28
              corpus28_images corpus28_pools) as [s ->];
    [lia | by vm_compute | by vm_compute
     | vm_compute; split; discriminate || reflexivity | done |].
  exists s. split; [done |].
  apply (getitem_shapes 2 corpus28 dataset28 3 s init_corpus28 Hr).
Defined.

Lemma init_pool_sizes_witness :
  sum_list ((fun label => length (default [] (ds_data dataset10 !! label)))
              <$> seqZ 0 10)
  = length (filter (fun t => (0 <= t < 10)%Z) (mnist_targets corpus10)).
Proof.
  apply (proj1 (init_pool_sizes 2 corpus10 dataset10 init_corpus10)).
Defined.

Lemma getitem_correct_row_uniform_witness :
  Pr (returns (fun s : Sample Q =>
                 bool_decide (sample_y s = 0%Z /\
                              sample_x s !! Z.to_nat 0
                              = Some (replicate 784 (4 # 255)%Q))))
     (MNISTAttentionDataset_getitem dataset28 3)
  = (/ Qc_of_Z 2
     * / Qc_of_nat (length (pool_rows dataset28 ((3 + 1) mod 10)%Z)))%Qc.
Proof.
  apply (getitem_correct_row_uniform 2 corpus28 dataset28 3 3 0
           (replicate 784 (4 # 255)%Q) init_corpus28 corpus28_images eq_refl
           corpus28_pools).
  - by vm_compute.
  - by vm_compute.
  - vm_compute. repeat constructor. by intros ?%elem_of_nil.
  - vm_compute. apply list_elem_of_here.
  - lia.
Defined.

End MoreRuns.

(** * Properties of [train] and of the training cell *)

Section TrainFacts.
Context {R : Type} `{Scalar R} {Optimizer : Type}.
Context (criterion : AnyTensor R -> list Z -> result R).
Context (optimizer_step :
  Optimizer -> AttentionModel R -> Batch R ->
  result (Optimizer * (Linear R * Linear R * Linear R))).

#[local] Abbreviation train_loop := (train_loop criterion optimizer_step).
#[local] Abbreviation train := (train criterion optimizer_step).
#[local] Abbreviation training_loop := (training_loop criterion optimizer_step).
#[local] Abbreviation training := (training criterion optimizer_step).

(** The batch indices at which a line is printed. *)
#[local] Abbreviation logged log_interval i n :=
  (filter (fun j : nat => (Z.of_nat j mod log_interval)%Z = 0%Z) (seq i n)).

(** What a pass that returns has done, from any point of the loop. *)
Lemma train_loop_Ok (epoch log_interval : Z) (len_dataset len_loader : nat)
    (batches : list (Batch R)) (i : nat) (st st' : TrainState R Optimizer)
    (loss_values out : list R) :
  train_loop epoch log_interval len_dataset len_loader i batches st loss_values
  = (st', Ok out) ->
  (exists new, out = loss_values ++ new /\ length new = length batches) /\
  (exists lines,
     ts_stdout st' = ts_stdout st ++ lines /\
     log_percent <$> lines
     = (fun j => (Qc_of_Z 100 * Qc_of_nat j / Qc_of_nat len_loader)%Qc)
         <$> logged log_interval i (length batches) /\
     Forall (fun l => log_epoch l = epoch /\ log_dataset l = len_dataset)
            lines) /\
  hidden_dim (ts_model st') = hidden_dim (ts_model st) /\
  num_inputs (ts_model st') = num_inputs (ts_model st) /\
  input_dim (ts_model st') = input_dim (ts_model st).
Proof.
  revert i st loss_values.
  induction batches as [|b batches IH]; intros i st loss_values;
    cbn [train_loop].
  - intros [= <- <-]. split; [exists []; by rewrite app_nil_r |].
    split; [| done]. exists []. by rewrite app_nil_r.
  - destruct (forward _ _ _) as [output|e]; [| done].
    destruct (criterion _ _) as [loss|e]; [| done].
    destruct (optimizer_step _ _ _) as [[optimizer [[q k] v]]|e]; [| done].
    destruct (decide (log_interval = 0%Z)) as [|Hli]; [done |].
    intros Hloop. apply IH in Hloop
      as ((new & -> & Hnew) & (lines & Hout & Hpct & Hlines) & Hh & Hn & Hd).
    split; [| split].
    + exists (loss :: new). rewrite <- app_assoc. split; [done |].
      simpl. by rewrite Hnew.
    + cbn [length seq]. rewrite filter_cons.
      destruct (decide ((Z.of_nat i mod log_interval)%Z = 0%Z)) as [Hi|Hi];
        cbn [ts_stdout] in Hout.
      * eexists (_ :: lines). rewrite Hout, <- app_assoc.
        split; [done |]. split.
        -- rewrite !fmap_cons. cbn [log_percent]. by rewrite Hpct.
        -- by constructor.
      * by exists lines.
    + destruct (decide ((Z.of_nat i mod log_interval)%Z = 0%Z));
        by rewrite Hh, Hn, Hd.
Qed.

(** X12.  A pass of [train] that returns has one loss for every batch of
    the loader.  It has printed one line for every batch index that
    [log_interval] divides, in their order and after what was printed
    before, each with the percentage 100 * index / number of batches; and
    the model it leaves has the [num_inputs], [hidden_dim] and [input_dim]
    it had. *)
Theorem train_losses_and_lines (st st' : TrainState R Optimizer)
    (train_loader : list (Batch R)) (len_dataset : nat)
    (epoch log_interval : Z) (loss_values : list R) :
  train st train_loader len_dataset epoch log_interval
  = (st', Ok loss_values) ->
  length loss_values = length train_loader /\
  (exists lines,
     ts_stdout st' = ts_stdout st ++ lines /\
     log_percent <$> lines
     = (fun j => (Qc_of_Z 100 * Qc_of_nat j
                  / Qc_of_nat (length train_loader))%Qc)
         <$> logged log_interval 0 (length train_loader) /\
     Forall (fun l => log_epoch l = epoch /\ log_dataset l = len_dataset)
            lines) /\
  num_inputs (ts_model st') = num_inputs (ts_model st) /\
  hidden_dim (ts_model st') = hidden_dim (ts_model st) /\
  input_dim (ts_model st') = input_dim (ts_model st).
Proof.
  unfold train. intros ((new & -> & Hnew) & Hlines & Hh & Hn & Hd)%train_loop_Ok.
  done.
Qed.

(** X13.  With [log_interval = 0] a pass over a loader that is not empty
    does not return.  When the first batch goes through the model, the loss
    and the update, [train] raises [ZeroDivisionError] at the test of the
    batch index, that is after the first update: the model and the optimizer
    are those of one step, nothing has been printed, and the other batches
    are not looked at. *)
Theorem train_log_interval_zero (st : TrainState R Optimizer)
    (b : Batch R) (batches : list (Batch R)) (len_dataset : nat) (epoch : Z) :
  (forall st' loss_values,
     train st (b :: batches) len_dataset epoch 0 <> (st', Ok loss_values)) /\
  (forall output loss optimizer q k v,
     forward (ts_model st) (batch_x b) (batch_query b) = Ok output ->
     criterion output (batch_y b) = Ok loss ->
     optimizer_step (ts_optimizer st) (ts_model st) b
     = Ok (optimizer, (q, k, v)) ->
     train st (b :: batches) len_dataset epoch 0
     = (mkTrainState
          (mkAttentionModel (hidden_dim (ts_model st))
             (num_inputs (ts_model st)) (input_dim (ts_model st)) q k v)
          optimizer (ts_stdout st),
        Raise ZeroDivisionError)).
Proof.
  unfold train. cbn [train_loop]. split.
  - intros st' loss_values.
    destruct (forward _ _ _) as [output|e]; [| done].
    destruct (criterion _ _) as [loss|e]; [| done].
    destruct (optimizer_step _ _ _) as [[optimizer [[q k] v]]|e]; [| done].
    by rewrite decide_True.
  - intros output loss optimizer q k v Hf Hc Hs. rewrite Hf, Hc, Hs.
    by rewrite decide_True.
Qed.

Lemma training_loop_Ok (epochs : list Z) (train_loader : Z -> list (Batch R))
    (len_dataset : nat) (st st' : TrainState R Optimizer)
    (loss_history out : list R) :
  training_loop epochs train_loader len_dataset st loss_history
  = (st', Ok out) ->
  length out
  = length loss_history
    + sum_list ((fun epoch => length (train_loader epoch)) <$> epochs).
Proof.
  revert st loss_history.
  induction epochs as [|epoch epochs IH]; intros st loss_history;
    cbn [training_loop].
  - intros [= <- <-]. simpl. lia.
  - destruct (train st (train_loader epoch) len_dataset epoch 100)
      as [st1 [loss_values|e]] eqn:Htrain; [| done].
    intros ->%IH. unfold train in Htrain.
    apply train_loop_Ok in Htrain as ((new & -> & Hnew) & _).
    rewrite length_app. csimpl. lia.
Qed.

Lemma sum_list_const (B : nat) (l : list nat) :
  Forall (fun n => n = B) l -> sum_list l = length l * B.
Proof. induction 1 as [|n l -> _ IH]; simpl; [done | by rewrite IH]. Qed.

(** X14.  When the training cell returns, [loss_history] has one loss for
    every batch of every epoch: epochs * B entries for a loader that yields
    B batches in each epoch. *)
Theorem training_history_length (epochs : Z)
    (train_loader : Z -> list (Batch R)) (len_dataset : nat)
    (st st' : TrainState R Optimizer) (loss_history : list R) :
  training epochs train_loader len_dataset st = (st', Ok loss_history) ->
  length loss_history
  = sum_list ((fun epoch => length (train_loader epoch)) <$> seqZ 1 epochs) /\
  (forall B,
     (forall epoch, (1 <= epoch <= epochs)%Z ->
                    length (train_loader epoch) = B) ->
     length loss_history = Z.to_nat epochs * B).
Proof.
  unfold training. intros Hlen%training_loop_Ok. simpl in Hlen.
  split; [done |]. intros B HB. rewrite Hlen, (sum_list_const B).
  - by rewrite length_fmap, length_seqZ.
  - apply Forall_fmap, Forall_forall. intros epoch Hepoch%elem_of_seqZ.
    simpl. apply HB. lia.
Qed.

End TrainFacts.

(** * [evaluate] on batches of one size *)

Section EvaluateMore.
Context {R : Type} `{Scalar R}.
Context (np_argmax_axis1 : AnyTensor R -> result (list Z)).
Context (np_sum_eq : list Z -> list Z -> result Z).

Lemma Qc_of_nat_mul (a b : nat) :
  Qc_of_nat (a * b) = (Qc_of_nat a * Qc_of_nat b)%Qc.
Proof. unfold Qc_of_nat. by rewrite Nat2Z.inj_mul, Z2Qc_inj_mul. Qed.

Lemma num_samples_equal_batches (m : nat) (test_loader : list (Batch R)) :
  Forall (fun b => batch_size b = m) test_loader ->
  num_samples test_loader = length test_loader * m.
Proof.
  unfold num_samples. induction 1 as [|b l Hb _ IH]; csimpl; [done |].
  by rewrite IH, Hb.
Qed.

(** X15.  For a loader of B batches of m samples each, the accuracy that
    [evaluate] reports is the share of the samples predicted correctly
    multiplied by m / B; the two agree when every batch has as many samples
    as the loader has batches. *)
Theorem evaluate_equal_batches (model : AttentionModel R)
    (test_loader : list (Batch R)) (ns : list Z) (m : nat) :
  batches_correct np_argmax_axis1 np_sum_eq model test_loader = Ok ns ->
  Forall (fun b => batch_size b = m) test_loader ->
  test_loader <> [] -> m <> 0 ->
  evaluate np_argmax_axis1 np_sum_eq model test_loader
  = Ok (Qc_of_Z (total_correct ns) / Qc_of_nat (num_samples test_loader)
        * (Qc_of_nat m / Qc_of_nat (length test_loader)))%Qc /\
  (m = length test_loader ->
   evaluate np_argmax_axis1 np_sum_eq model test_loader
   = Ok (Qc_of_Z (total_correct ns)
         / Qc_of_nat (num_samples test_loader))%Qc).
Proof.
  intros Hns Hm Hne Hm0.
  assert (HB : Qc_of_nat (length test_loader) <> 0%Qc)
    by (by apply Qc_of_nat_ne_0, length_ne_0).
  assert (Hm' : Qc_of_nat m <> 0%Qc) by (by apply Qc_of_nat_ne_0).
  rewrite evaluate_value, Hns. cbn [mbind result_bind].
  rewrite decide_False by done.
  rewrite (num_samples_equal_batches m) by done. rewrite Qc_of_nat_mul.
  split.
  - f_equal. by field.
  - intros ->. f_equal.
Qed.

End EvaluateMore.

(** * Properties of the MLP notebook's model and parameter functions *)

Section MLPFacts.
Context {R : Type} `{Scalar R}.

(** ** Reshaping *)

Lemma rows_of_S (n rows : nat) (l : list R) :
  rows_of n (S rows) l = take n l :: rows_of n rows (drop n l).
Proof.
  unfold rows_of. cbn [seq]. rewrite fmap_cons, <- fmap_S_seq, <- list_fmap_compose.
  f_equal. apply list_fmap_ext. intros i ? _. simpl.
  rewrite drop_drop. done.
Qed.

Lemma length_rows_of (n rows : nat) (l : list R) :
  length (rows_of n rows l) = rows.
Proof. unfold rows_of. by rewrite length_fmap, length_seq. Qed.

(** Cutting a flat list of [rows * n] entries into rows gives rows of width
    [n] that, put end to end, are the list. *)
Lemma rows_of_flat (n rows : nat) (l : list R) :
  length l = rows * n ->
  Forall (fun v => length v = n) (rows_of n rows l) /\
  concat (rows_of n rows l) = l.
Proof.
  revert l. induction rows as [|rows IH]; intros l Hl.
  - destruct l; [| done]. by split.
  - rewrite rows_of_S. destruct (IH (drop n l)) as [Hwf Hcat].
    { rewrite length_drop. lia. }
    split.
    + constructor; [| done]. rewrite length_take. lia.
    + cbn [concat]. rewrite Hcat. apply take_drop.
Qed.

(** Cutting the rows of a matrix, put end to end, gives the matrix. *)
Lemma rows_of_concat (n rows : nat) (m : list (list R)) :
  wf_rows rows n m -> rows_of n rows (concat m) = m.
Proof.
  intros [Hlen Hrows]. revert rows Hlen.
  induction Hrows as [|v m Hv _ IH]; intros rows Hlen; simpl in Hlen;
    subst rows; [done |].
  rewrite rows_of_S. cbn [concat].
  rewrite take_app_length', drop_app_length' by done.
  by rewrite IH.
Qed.

Lemma length_concat_wf_rows (n rows : nat) (m : list (list R)) :
  wf_rows rows n m -> length (concat m) = rows * n.
Proof.
  intros [Hlen Hrows]. revert rows Hlen.
  induction Hrows as [|v m Hv _ IH]; intros rows Hlen; simpl in Hlen;
    subst rows; [done |].
  cbn [concat]. rewrite length_app, Hv, (IH (length m)) by done. simpl. lia.
Qed.

Lemma view_rows_Ok (layout : Layout) (x : AnyTensor R) (n : Z)
    (rows : nat) :
  (0 < n)%Z -> numel x = rows * Z.to_nat n ->
  strides_allow layout x n = true ->
  view_rows layout x n
  = Ok (mkT2 rows (Z.to_nat n) (rows_of (Z.to_nat n) rows (elements x))).
Proof.
  intros Hn Hx Hs. unfold view_rows.
  assert (Z.to_nat n <> 0) by lia.
  rewrite (proj2 (Z.ltb_lt 0 n)), Hs by done.
  rewrite Hx, Nat.Div0.mod_mul, Nat.div_mul by done. done.
Qed.

Lemma view_rows_Raise (layout : Layout) (x : AnyTensor R) (n : Z) :
  ~ ((0 < n)%Z /\ (exists rows, numel x = rows * Z.to_nat n) /\
     strides_allow layout x n = true) ->
  view_rows layout x n = Raise RuntimeError.
Proof.
  intros Hno. unfold view_rows.
  destruct (Z.ltb_spec 0 n) as [Hn|Hn]; [| done]. cbn [andb].
  destruct (Nat.eqb_spec (numel x mod Z.to_nat n) 0) as [Hmod|Hmod]; [| done].
  cbn [andb]. destruct (strides_allow layout x n) eqn:Hs; [| done].
  destruct Hno. split; [done |]. split; [| done].
  apply Nat.Div0.div_exact in Hmod. exists (numel x / Z.to_nat n). lia.
Qed.

(** X16.  The model as the notebook builds it returns its input cut into
    rows of [input_size] entries: for a positive [input_size] that divides
    the number of elements, and a tensor whose strides allow the view, as
    those of every contiguous tensor do, a well-formed matrix with the
    elements of the input in their order.  In every other case the call
    fails with [RuntimeError]: for an [input_size] that is not positive or
    does not divide the number of elements, and for a tensor that is not
    contiguous and whose strides do not allow the view. *)
Theorem FCModel_forward_view (n hidden_size output_size : Z)
    (layout : Layout) (x : AnyTensor R) :
  let self := FCModel_init n hidden_size output_size in
  (forall rows,
     (0 < n)%Z -> numel x = rows * Z.to_nat n ->
     strides_allow layout x n = true ->
     exists t,
       FCModel_forward self layout x = Ok t /\
       rows2 t = rows /\ cols2 t = Z.to_nat n /\ wf2 t /\
       elements (Rank2 t) = elements x) /\
  (~ ((0 < n)%Z /\ (exists rows, numel x = rows * Z.to_nat n) /\
      strides_allow layout x n = true) ->
   FCModel_forward self layout x = Raise RuntimeError) /\
  strides_allow Contiguous x n = true.
Proof.
  intros self. unfold FCModel_forward, self, FCModel_init.
  cbn [input_size network]. split; [| split; [| done]].
  - intros rows Hn Hx Hs. rewrite (view_rows_Ok layout x _ rows) by done.
    cbn [mbind result_bind Sequential_forward].
    destruct (rows_of_flat (Z.to_nat n) rows (elements x) Hx)
      as [Hwf Hcat].
    eexists. split; [done |]. cbn [rows2 cols2].
    split; [done |]. split; [done |]. split; [| done].
    split; [apply length_rows_of | done].
  - intros Hno. by rewrite view_rows_Raise.
Qed.

(** X17.  On a matrix whose rows already have [input_size] entries, as
    [train] and [validate] pass it after their own [view(-1, 28*28)], the
    [view] of [forward] changes nothing, whatever the layout of the matrix:
    the matrix goes to the network as it is. *)
Theorem FCModel_forward_rows (self : FCModel R) (layout : Layout)
    (t : Tensor2 R) :
  wf2 t -> cols2 t <> 0 -> input_size self = Z.of_nat (cols2 t) ->
  view_rows layout (Rank2 t) (input_size self) = Ok t /\
  FCModel_forward self layout (Rank2 t)
  = Sequential_forward (network self) t.
Proof.
  intros Hwf Hc Hn.
  assert (Hnumel : numel (Rank2 t) = rows2 t * cols2 t).
  { unfold numel. cbn [elements]. by apply length_concat_wf_rows. }
  assert (Hview : view_rows layout (Rank2 t) (input_size self) = Ok t).
  { rewrite (view_rows_Ok _ _ _ (rows2 t)).
    - rewrite Hn, Nat2Z.id. cbn [elements]. rewrite rows_of_concat by done.
      by destruct t.
    - lia.
    - by rewrite Hn, Nat2Z.id.
    - destruct layout as [|viewable]; [done |]. cbn [strides_allow].
      rewrite Hn, Nat2Z.id, Hnumel, Nat.div_mul by done.
      by rewrite bool_decide_eq_true_2. }
  split; [done |]. unfold FCModel_forward. by rewrite Hview.
Qed.

(** ** Parameters *)

Lemma concat_fmap_const {A B : Type} (v : B) (m : list (list A)) :
  concat (fmap (M:=list) (fun _ => v) <$> m) = (fun _ => v) <$> concat m.
Proof.
  induction m as [|l m IH]; [done |].
  rewrite fmap_cons. cbn [concat]. by rewrite fmap_app, IH.
Qed.

(** [fill_] keeps the shape and writes the value everywhere. *)
Lemma fill__spec (v : R) (t : AnyTensor R) :
  shape (fill_ v t) = shape t /\
  elements (fill_ v t) = (fun _ => v) <$> elements t.
Proof.
  destruct t as [x|t|t|t]; (split; [done |]); cbn [fill_ elements data1 data2 data3].
  - done.
  - done.
  - apply concat_fmap_const.
  - rewrite <- concat_fmap_const. f_equal.
    induction (data3 t) as [|m d IH]; [done |].
    rewrite !fmap_cons. cbn [concat]. rewrite fmap_app, IH. f_equal.
Qed.

Lemma numel_fill_ (v : R) (t : AnyTensor R) : numel (fill_ v t) = numel t.
Proof.
  unfold numel. rewrite (proj2 (fill__spec v t)). apply length_fmap.
Qed.

(** [sub in s], in words: [s] is [sub] with something before it and
    something after it. *)
Lemma prefix_append (s1 s2 : String.string) :
  String.prefix s1 s2 = true <-> exists post, s2 = String.append s1 post.
Proof.
  revert s2. induction s1 as [|a s1 IH]; intros s2.
  - split; [| by destruct s2]. intros _. by exists s2.
  - destruct s2 as [|b s2]; cbn [String.prefix String.append].
    + split; [done |]. intros [post Hpost]. discriminate.
    + destruct (Ascii.ascii_dec a b) as [->|Hab].
      * rewrite IH. split; intros [post Hpost]; exists post.
        -- by rewrite Hpost.
        -- by injection Hpost.
      * split; [done |]. intros [post Hpost]. injection Hpost as ? _.
        congruence.
Qed.

Lemma str_contains_spec (sub s : String.string) :
  str_contains sub s = true
  <-> exists pre post, s = String.append pre (String.append sub post).
Proof.
  induction s as [|a s IH]; cbn [str_contains].
  - rewrite orb_false_r, prefix_append. split.
    + intros [post ->]. by exists String.EmptyString, post.
    + intros (pre & post & Hs). exists post.
      destruct pre; [done | discriminate].
  - rewrite orb_true_iff, prefix_append, IH. split.
    + intros [[post ->]|(pre & post & ->)].
      * by exists String.EmptyString, post.
      * by exists (String.String a pre), post.
    + intros ([|a' pre] & post & Hs).
      * left. by exists post.
      * right. exists pre, post. cbn [String.append] in Hs.
        by injection Hs.
Qed.

Lemma get_n_params_Forall2 (ps ps' : list (Param R)) (learnable_only : bool) :
  Forall2 (fun p p' => requires_grad p' = requires_grad p /\
                       numel (param_data p') = numel (param_data p)) ps ps' ->
  get_n_params ps' learnable_only = get_n_params ps learnable_only.
Proof.
  unfold get_n_params. induction 1 as [|p p' ps ps' [Hg Hn] _ IH]; [done |].
  rewrite !filter_cons, Hg.
  destruct (decide (requires_grad p || negb learnable_only = true));
    csimpl; by rewrite ?Hn, IH.
Qed.

Lemma get_n_params_le (ps : list (Param R)) :
  get_n_params ps true <= get_n_params ps false.
Proof.
  unfold get_n_params. cbn [negb]. induction ps as [|p ps IH]; [done |].
  rewrite !filter_cons. destruct (requires_grad p); cbn [orb].
  - rewrite !decide_True by done. csimpl. lia.
  - rewrite decide_False, decide_True by done. csimpl. lia.
Qed.

Lemma get_n_params_app (ps1 ps2 : list (Param R)) (learnable_only : bool) :
  get_n_params (ps1 ++ ps2) learnable_only
  = get_n_params ps1 learnable_only + get_n_params ps2 learnable_only.
Proof.
  unfold get_n_params. by rewrite filter_app, fmap_app, sum_list_with_app.
Qed.

End MLPFacts.

Section InitFacts.
Context {R : Type} `{Scalar R}.
Context (one : R).

#[local] Abbreviation initialize_parameters := (initialize_parameters one).

(** X18.  [initialize_parameters] keeps the names, the order, the shapes
    and the [requires_grad] flags of the parameters.  A parameter whose
    name contains "bias" is all zeros afterwards, also when the name
    contains "weight" as well; one whose name contains "weight" and not
    "bias" is all ones; any other parameter is left as it is. *)
Theorem initialize_parameters_values
    (named_parameters : list (String.string * Param R)) (i : nat)
    (name : String.string) (w : Param R) :
  named_parameters !! i = Some (name, w) ->
  length (initialize_parameters named_parameters) = length named_parameters /\
  exists w',
    initialize_parameters named_parameters !! i = Some (name, w') /\
    shape (param_data w') = shape (param_data w) /\
    requires_grad w' = requires_grad w /\
    (str_contains "bias" name = true ->
     elements (param_data w') = (fun _ => s_zero) <$> elements (param_data w)) /\
    (str_contains "weight" name = true -> str_contains "bias" name = false ->
     elements (param_data w') = (fun _ => one) <$> elements (param_data w)) /\
    (str_contains "weight" name = false -> str_contains "bias" name = false ->
     w' = w).
Proof.
  intros Hi. unfold initialize_parameters.
  split; [apply length_fmap |].
  rewrite list_lookup_fmap, Hi. cbn [fmap option_fmap option_map].
  eexists. split; [done |].
  destruct (str_contains "weight" name), (str_contains "bias" name);
    cbn [zeros_ ones_ param_data requires_grad];
    rewrite ?(proj1 (fill__spec _ _)), ?(proj2 (fill__spec _ _));
    repeat split; try done.
  intros _. rewrite <- list_fmap_compose. done.
Qed.

Lemma initialize_parameters_flags
    (named_parameters : list (String.string * Param R)) :
  Forall2 (fun p p' => requires_grad p' = requires_grad p /\
                       numel (param_data p') = numel (param_data p))
    (parameters named_parameters)
    (parameters (initialize_parameters named_parameters)).
Proof.
  unfold parameters, initialize_parameters.
  induction named_parameters as [|[name w] l IH]; [constructor |].
  rewrite !fmap_cons. constructor; [| done]. cbn [snd].
  destruct (str_contains "weight" name), (str_contains "bias" name);
    cbn [zeros_ ones_ param_data requires_grad]; by rewrite ?numel_fill_.
Qed.

(** X19.  The count of [get_n_params] is the same before and after
    [initialize_parameters], with and without [learnable_only].  The count
    of the learnable parameters is at most the count of all of them, the
    two are equal when every parameter requires a gradient, and the count
    of two groups of parameters together is the sum of their counts. *)
Theorem get_n_params_facts
    (named_parameters : list (String.string * Param R))
    (learnable_only : bool) :
  let ps := parameters named_parameters in
  get_n_params (parameters (initialize_parameters named_parameters))
    learnable_only
  = get_n_params ps learnable_only /\
  get_n_params ps true <= get_n_params ps false /\
  (Forall (fun p => requires_grad p = true) ps ->
   get_n_params ps true = get_n_params ps false) /\
  (forall ps1 ps2 : list (Param R),
     get_n_params (ps1 ++ ps2) learnable_only
     = get_n_params ps1 learnable_only + get_n_params ps2 learnable_only).
Proof.
  intros ps. split; [| split; [| split]].
  - apply get_n_params_Forall2, initialize_parameters_flags.
  - apply get_n_params_le.
  - unfold get_n_params. induction 1 as [|p l Hp _ IH]; [done |].
    rewrite !filter_cons, Hp. cbn [orb]. rewrite !decide_True by done.
    rewrite !fmap_cons. cbn [sum_list_with]. by rewrite IH.
  - intros ps1 ps2. apply get_n_params_app.
Qed.

End InitFacts.

(** ** Runs of [train], of [evaluate] and of the MLP notebook's functions *)

Section TrainRuns.
Import Examples MoreExamples.

Lemma wf_matrix23 : wf2 matrix23.
Proof. split; [done |]. by repeat constructor. Qed.

Lemma train_losses_and_lines_witness :
  exists st' loss_values,
    train ex_criterion ex_optimizer_step state0 loader2 4 1 100
    = (st', Ok loss_values) /\
    length loss_values = length loader2.
Proof.
  destruct (train ex_criterion ex_optimizer_step state0 loader2 4 1 100)
    as [st' [loss_values|e]] eqn:Htrain.
  - exists st', loss_values. split; [done |].
    apply (proj1 (train_losses_and_lines ex_criterion ex_optimizer_step
                    state0 st' loader2 4 1 100 loss_values Htrain)).
  - vm_compute in Htrain. discriminate.
Defined.

Lemma train_log_interval_zero_witness :
  (train ex_criterion ex_optimizer_step state0 [batch22] 4 1 0).2
  = Raise ZeroDivisionError.
Proof.
  destruct (forward model2 (batch_x batch22) (batch_query batch22))
    as [output|e] eqn:Hf; [| vm_compute in Hf; discriminate].
  destruct (ex_criterion output (batch_y batch22)) as [loss|e] eqn:Hc;
    [| discriminate].
  rewrite (proj2 (train_log_interval_zero ex_criterion ex_optimizer_step
                    state0 batch22 [] 4 1)
             output loss 1 (fc_q model2) (fc_k model2) (fc_v model2)
             Hf Hc eq_refl).
  reflexivity.
Defined.

Lemma training_history_length_witness :
  exists st' loss_history,
    training ex_criterion ex_optimizer_step 2 (fun _ => loader2) 4 state0
    = (st', Ok loss_history) /\
    length loss_history = Z.to_nat 2 * 2.
Proof.
  destruct (training ex_criterion ex_optimizer_step 2 (fun _ => loader2) 4
              state0) as [st' [loss_history|e]] eqn:Htraining.
  - exists st', loss_history. split; [done |].
    by apply (proj2 (training_history_length ex_criterion ex_optimizer_step
                       2 (fun _ => loader2) 4 state0 st' loss_history
                       Htraining)).
  - vm_compute in Htraining. discriminate.
Defined.

Lemma evaluate_equal_batches_witness :
  evaluate ex_argmax_axis1 ex_sum_eq model2 loader2
  = Ok (Qc_of_Z (total_correct [2; 2]%Z) / Qc_of_nat (num_samples loader2))%Qc.
Proof.
  apply (proj2 (evaluate_equal_batches ex_argmax_axis1 ex_sum_eq model2
                  loader2 [2; 2]%Z 2 ltac:(by vm_compute)
                  ltac:(by repeat constructor) ltac:(done) ltac:(done))).
  reflexivity.
Defined.

Lemma FCModel_forward_rows_witness :
  FCModel_forward fc3 Contiguous (Rank2 matrix23)
  = Sequential_forward (network fc3) matrix23.
Proof.
  apply (proj2 (FCModel_forward_rows fc3 Contiguous matrix23 wf_matrix23
                  ltac:(done) eq_refl)).
Defined.

Lemma initialize_parameters_values_witness :
  exists w' : Param Q,
    initialize_parameters 1%Q named2 !! 1 = Some ("fc.bias"%string, w') /\
    shape (param_data w') = shape (param_data fc_bias) /\
    elements (param_data w') = [0%Q].
Proof.
  destruct (proj2 (initialize_parameters_values 1%Q named2 1
                     "fc.bias"%string fc_bias eq_refl))
    as (w' & Hw' & Hshape & _ & Hzero & _).
  exists w'. split; [done |]. split; [done |]. by apply Hzero.
Defined.

End TrainRuns.
